(** * financial-advisor: the training-and-evaluation engine and the advisor

    A shallow embedding of [src/lib/ml.ts] (module [Ml]) and
    [src/lib/ai.ts] (module [Ai]), and of the page that calls them,
    [src/components/Models.tsx] (module [Models]).

    JavaScript numbers are IEEE 754 binary64 values, so they are modelled by
    Rocq's primitive [float]: the arithmetic of the source is evaluated
    bit-for-bit, rounding, signed zeros, infinities and NaN included.
    Universal statements are proved through the specification of the
    primitive operations over [spec_float] ([Prim2SF], [add_spec], ...).

    Exceptions (and rejected promises of the [async] functions) are explicit:
    a function that can throw returns an [outcome].  The third-party
    libraries (simple linear regression, random forest, TensorFlow.js) are not
    part of the repository; they are taken as a record of operations. *)

From Stdlib Require Import ZArith String Ascii Bool Lia Floats List.
From Stdlib Require Import Permutation Sorted.
From Stdlib Require Uint63.
Import ListNotations.
Set Warnings "-inexact-float".

Local Open Scope list_scope.
Local Open Scope float_scope.

(** ** JavaScript values and numbers *)

Module Js.

(** The cells of a record as the ingestion layer hands them over: the
    parameter type of the engine is [any[]]. *)
Inductive JsValue :=
| JsUndefined
| JsNull
| JsNumber (x : float)
| JsString (s : string).

(** A record (row): property names with their values; [row[f]] of an absent
    property is [undefined]. *)
Definition Row := list (string * JsValue).

Fixpoint get (row : Row) (key : string) : JsValue :=
  match row with
  | [] => JsUndefined
  | (k, v) :: rest => if String.eqb k key then v else get rest key
  end.

(** Exceptions.  The source itself only ever fails with the native
    [TypeError] (a property read on [undefined]); [ValidationError] and
    [ConfigurationError] are the error classes the specification names, and a
    failure inside a third-party library is a [LibraryError]. *)
Inductive JsError :=
| TypeError
| ValidationError
| ConfigurationError
| LibraryError (msg : string).

Inductive outcome (A : Type) :=
| Ok (a : A)
| Throw (e : JsError).
Arguments Ok {A} a.
Arguments Throw {A} e.

Definition bind {A B} (m : outcome A) (k : A -> outcome B) : outcome B :=
  match m with
  | Ok a => k a
  | Throw e => Throw e
  end.

(** What a call into a third-party library gives back. *)
Inductive Result (A : Type) :=
| Returns (a : A)
| Raises (msg : string).
Arguments Returns {A} a.
Arguments Raises {A} msg.

Definition call {A} (r : Result A) : outcome A :=
  match r with
  | Returns a => Ok a
  | Raises msg => Throw (LibraryError msg)
  end.

Fixpoint mapM {A B} (f : A -> outcome B) (l : list A) : outcome (list B) :=
  match l with
  | [] => Ok []
  | x :: l' => bind (f x) (fun y => bind (mapM f l') (fun ys => Ok (y :: ys)))
  end.

(** [ToNumber] of an array read: an index out of range reads [undefined],
    which arithmetic turns into NaN. *)
Definition toNumber (v : option float) : float :=
  match v with
  | Some x => x
  | None => nan
  end.

(** Falsy numbers are [0], [-0] and [NaN]. *)
Definition is_falsy (x : float) : bool := is_nan x || PrimFloat.is_zero x.

(** [x || d] on a number [x]. *)
Definition or_else (x d : float) : float := if is_falsy x then d else x.

(** [v || d] where [v] may be [undefined]. *)
Definition or_default (v : option float) (d : float) : float :=
  match v with
  | Some x => or_else x d
  | None => d
  end.

(** [Math.pow(x, 2)]: engines special-case the exponent 2 to [x * x]. *)
Definition Math_pow2 (x : float) : float := x * x.

Definition Math_min (a b : float) : float :=
  if is_nan a || is_nan b then nan
  else if a <? b then a
  else if b <? a then b
  else if get_sign a then a else b.

Definition Math_max (a b : float) : float :=
  if is_nan a || is_nan b then nan
  else if b <? a then a
  else if a <? b then b
  else if get_sign a then b else a.

(** [Math.floor] *)
Definition SFfloor (x : spec_float) : spec_float :=
  match x with
  | S754_finite s m e =>
      if (0 <=? e)%Z then x
      else binary_normalize prec emax (Z.shiftr (cond_Zopp s (Zpos m)) (- e)) 0 s
  | _ => x
  end.

Definition Math_floor (x : float) : float := SF2Prim (SFfloor (Prim2SF x)).

(** [Math.round]: the integer nearest to [x], ties towards +Infinity. *)
Definition SFround (x : spec_float) : spec_float :=
  match x with
  | S754_finite s m e =>
      if (0 <=? e)%Z then x
      else
        binary_normalize prec emax
          (Z.shiftr (2 * cond_Zopp s (Zpos m) + 2 ^ (- e)) (- e + 1)) 0 s
  | _ => x
  end.

Definition Math_round (x : float) : float := SF2Prim (SFround (Prim2SF x)).

(** The Number value of an array length (exact: lengths are below 2^32). *)
Definition of_length (n : nat) : float :=
  of_uint63 (Uint63.of_Z (Z.of_nat n)).

(** [ToIntegerOrInfinity] *)
Inductive IntOrInf :=
| NegInf
| Int (z : Z)
| PosInf.

Definition SFtoIntegerOrInfinity (x : spec_float) : IntOrInf :=
  match x with
  | S754_nan => Int 0
  | S754_zero _ => Int 0
  | S754_infinity s => if s then NegInf else PosInf
  | S754_finite s m e =>
      Int (if (0 <=? e)%Z then cond_Zopp s (Zpos m * 2 ^ e)
           else cond_Zopp s (Z.shiftr (Zpos m) (- e)))
  end.

Definition toIntegerOrInfinity (x : float) : IntOrInf :=
  SFtoIntegerOrInfinity (Prim2SF x).

(** The position an argument of [Array.prototype.slice] denotes in an array
    of length [len]: negative values count from the end, and the result is
    clamped to [0, len]. *)
Definition relativeIndex (idx : float) (len : nat) : nat :=
  match toIntegerOrInfinity idx with
  | NegInf => 0%nat
  | Int z =>
      if (z <? 0)%Z then Z.to_nat (Z.max (Z.of_nat len + z) 0)
      else Z.to_nat (Z.min z (Z.of_nat len))
  | PosInf => len
  end.

(** [arr.slice(start, end)]; [end_ = None] is the one-argument call. *)
Definition slice {A} (arr : list A) (start : float) (end_ : option float)
  : list A :=
  let k := relativeIndex start (length arr) in
  let final :=
    match end_ with
    | Some e => relativeIndex e (length arr)
    | None => length arr
    end in
  firstn (final - k) (skipn k arr).

(** [arr.map((x, i) => f x i)] and [arr.reduce((acc, x, i) => f acc x i, init)] *)
Fixpoint map_from {A B} (f : A -> nat -> B) (i : nat) (l : list A) : list B :=
  match l with
  | [] => []
  | x :: l' => f x i :: map_from f (S i) l'
  end.

Definition mapi {A B} (f : A -> nat -> B) (l : list A) : list B :=
  map_from f 0 l.

Fixpoint reduce_from {A B} (f : B -> A -> nat -> B) (i : nat) (l : list A)
  (acc : B) : B :=
  match l with
  | [] => acc
  | x :: l' => reduce_from f (S i) l' (f acc x i)
  end.

Definition reducei {A B} (f : B -> A -> nat -> B) (l : list A) (init : B) : B :=
  reduce_from f 0 l init.

(** [X.map(row => row[col])]: a column of a matrix held as an array of rows *)
Definition column (X : list (list float)) (col : nat) : list float :=
  map (fun row => toNumber (nth_error row col)) X.

(** *** [parseFloat] *)

Definition digit_of (c : ascii) : option Z :=
  let n := Z.of_nat (nat_of_ascii c) in
  if ((48 <=? n) && (n <=? 57))%Z then Some (n - 48)%Z else None.

(** White space and line terminators ([StrWhiteSpaceChar]).  A string holds
    its text as UTF-8, so the ones beyond U+007F are sequences of two or
    three bytes: U+00A0; U+1680; U+2000 to U+200A, U+2028, U+2029 and U+202F;
    U+205F; U+3000; U+FEFF. *)
Definition isWhiteSpace (c : ascii) : bool :=
  let n := nat_of_ascii c in
  (Nat.eqb n 32 || ((9 <=? n) && (n <=? 13)))%nat.

Definition isWhiteSpace2 (c1 c2 : ascii) : bool :=
  (Nat.eqb (nat_of_ascii c1) 194 && Nat.eqb (nat_of_ascii c2) 160)%nat.

Definition isWhiteSpace3 (c1 c2 c3 : ascii) : bool :=
  let a := nat_of_ascii c1 in
  let b := nat_of_ascii c2 in
  let c := nat_of_ascii c3 in
  ((Nat.eqb a 225 && Nat.eqb b 154 && Nat.eqb c 128)
   || (Nat.eqb a 226 && Nat.eqb b 128
       && (((128 <=? c) && (c <=? 138))
           || Nat.eqb c 168 || Nat.eqb c 169 || Nat.eqb c 175))
   || (Nat.eqb a 226 && Nat.eqb b 129 && Nat.eqb c 159)
   || (Nat.eqb a 227 && Nat.eqb b 128 && Nat.eqb c 128)
   || (Nat.eqb a 239 && Nat.eqb b 187 && Nat.eqb c 191))%nat.

Fixpoint trimStart (s : list ascii) : list ascii :=
  match s with
  | c1 :: s1 =>
      if isWhiteSpace c1 then trimStart s1
      else
        match s1 with
        | c2 :: s2 =>
            if isWhiteSpace2 c1 c2 then trimStart s2
            else
              match s2 with
              | c3 :: s3 => if isWhiteSpace3 c1 c2 c3 then trimStart s3 else s
              | [] => s
              end
        | [] => s
        end
  | [] => []
  end.

(** The longest run of decimal digits at the head of [s]: its value on top of
    [acc], the number of digits read on top of [count], and the rest. *)
Fixpoint digits (acc count : Z) (s : list ascii) : Z * Z * list ascii :=
  match s with
  | c :: s' =>
      match digit_of c with
      | Some d => digits (10 * acc + d) (count + 1) s'
      | None => (acc, count, s)
      end
  | [] => (acc, count, [])
  end.

Definition exponentPart (s : list ascii) : Z :=
  match s with
  | c :: s' =>
      if (Ascii.eqb c "e" || Ascii.eqb c "E")%char then
        let '(neg, s'') :=
          match s' with
          | "-"%char :: t => (true, t)
          | "+"%char :: t => (false, t)
          | _ => (false, s')
          end in
        let '(e, n, _) := digits 0 0 s'' in
        if (n =? 0)%Z then 0%Z else if neg then (- e)%Z else e
      else 0%Z
  | [] => 0%Z
  end.

(** The binary64 value nearest to [(-1)^neg * m * 10^e10], ties to even. *)
Definition roundDecimal (neg : bool) (m e10 : Z) : float :=
  if (m =? 0)%Z then (if neg then neg_zero else zero)
  else if (0 <=? e10)%Z then
    SF2Prim (binary_normalize prec emax (cond_Zopp neg (m * 10 ^ e10)) 0 false)
  else
    let d := (10 ^ (- e10))%Z in
    let k := Z.max 0 (Z.log2 d - Z.log2 m + 56) in
    let '(q, r) := Z.div_eucl (m * 2 ^ k) d in
    SF2Prim (binary_round_aux prec emax neg q (- k) (new_location d r)).

Definition strDecimalLiteral (neg : bool) (s : list ascii) : float :=
  let '(ip, ni, s1) := digits 0 0 s in
  let '(m, nf, s2) :=
    match s1 with
    | "."%char :: t => digits ip 0 t
    | _ => (ip, 0%Z, s1)
    end in
  if ((ni =? 0) && (nf =? 0))%Z then nan
  else roundDecimal neg m (exponentPart s2 - nf).

Fixpoint startsWith (p s : list ascii) : bool :=
  match p, s with
  | [], _ => true
  | a :: p', b :: s' => Ascii.eqb a b && startsWith p' s'
  | _, [] => false
  end.

Definition parseFloatString (str : string) : float :=
  let s := trimStart (list_ascii_of_string str) in
  let '(neg, s) :=
    match s with
    | "-"%char :: t => (true, t)
    | "+"%char :: t => (false, t)
    | _ => (false, s)
    end in
  if startsWith (list_ascii_of_string "Infinity") s
  then (if neg then neg_infinity else infinity)
  else strDecimalLiteral neg s.

(** [parseFloat(v)] parses [ToString(v)].  A number prints to the shortest
    decimal that reads back as itself, except that [-0] prints as ["0"];
    ["undefined"] and ["null"] have no numeric prefix. *)
Definition parseFloat (v : JsValue) : float :=
  match v with
  | JsUndefined => nan
  | JsNull => nan
  | JsNumber x => if PrimFloat.is_zero x then zero else x
  | JsString s => parseFloatString s
  end.

End Js.

Import Js.

(** ** [src/lib/ml.ts]: preprocessing, the three backends, the metrics *)

Module Ml.

Record ModelMetrics := {
  mse : float;
  rmse : float;
  r2 : float;
  mae : float
}.

Record TrainingResult := {
  modelType : string;
  metrics : ModelMetrics;
  predictions : list float;
  actualValues : list float
}.

(** Every field is optional in the source ([epochs?: number], ...). *)
Record Hyperparameters := {
  epochs : option float;
  batchSize : option float;
  learningRate : option float;
  hiddenLayers : option (list float);
  dropout : option float;
  treeDepth : option float;
  numTrees : option float
}.

Definition noHyperparameters : Hyperparameters :=
  {| epochs := None; batchSize := None; learningRate := None;
     hiddenLayers := None; dropout := None; treeDepth := None;
     numTrees := None |}.

(** The options object handed to the random-forest constructor. *)
Record ForestOptions := {
  nEstimators : float;
  maxFeatures : float;
  seed : float;
  replacement : bool;
  maxDepth : float;
  minNumSamples : float
}.

(** The network [tf.sequential()] is given, layer by layer, and the arguments
    of [model.compile] and [model.fit]. *)
Inductive Layer :=
| Dense (units : float) (relu heNormal : bool) (l2 : option float)
    (inputShape : option nat)
| Dropout (rate : float).

Record Network := {
  layers : list Layer;
  adamLearningRate : float;
  fitEpochs : float;
  fitBatchSize : float;
  validationSplit : float
}.

(** The third-party libraries the module imports. *)
Record Libraries := {
  (* ml-regression-simple-linear *)
  Regression : Type;
  SimpleLinearRegression : list (option float) -> list float -> Result Regression;
  predict : Regression -> option float -> Result float;
  (* ml-random-forest *)
  Forest : Type;
  RFRegression_train :
    ForestOptions -> list (list float) -> list float -> Result Forest;
  RFRegression_predict : Forest -> list (list float) -> Result (list float);
  (* @tensorflow/tfjs: tensors built, model fitted, test matrix predicted *)
  tf_fit_predict :
    Network -> list (list float) -> list float -> list (list float) ->
    Result (list float)
}.

Definition mean (arr : list float) : float :=
  fold_left (fun sum val => sum + val) arr 0 / of_length (length arr).

Definition std (arr : list float) : float :=
  let m := mean arr in
  let variance :=
    fold_left (fun sum val => sum + Math_pow2 (val - m)) arr 0
    / of_length (length arr) in
  sqrt variance.

(** The local constants of [calculateMetrics]. *)
Definition sumSquaredError (actual predicted : list float) : float :=
  reducei (fun sum val i => sum + Math_pow2 (val - toNumber (nth_error predicted i)))
    actual 0.

Definition ssTotal (actual : list float) : float :=
  let n := of_length (length actual) in
  let mean := fold_left (fun sum val => sum + val) actual 0 / n in
  fold_left (fun sum val => sum + Math_pow2 (val - mean)) actual 0.

Definition ssResidual (actual predicted : list float) : float :=
  sumSquaredError actual predicted.

Definition calculateMetrics (actual predicted : list float) : ModelMetrics :=
  let n := of_length (length actual) in
  let mse := sumSquaredError actual predicted / n in
  let rmse := sqrt mse in
  let r2 :=
    Math_max 0 (Math_min 1 (1 - ssResidual actual predicted / ssTotal actual)) in
  let mae :=
    reducei (fun sum val i => sum + abs (val - toNumber (nth_error predicted i)))
      actual 0 / n in
  {| mse := mse; rmse := rmse; r2 := r2; mae := mae |}.

(** [isNaN(val) ? 0 : val] over [parseFloat(cell)] *)
Definition coerce (cell : JsValue) : float :=
  let val := parseFloat cell in
  if is_nan val then 0 else val.

Definition normalizeRow (X_mean X_std : list float) (row : list float)
  : list float :=
  mapi (fun val i =>
          (val - toNumber (nth_error X_mean i)) / or_default (nth_error X_std i) 1)
       row.

(** What preprocessing leaves for the backends and the metrics. *)
Record Prepared := {
  X_train : list (list float);
  y_train : list float;
  X_test : list (list float);
  y_test : list float;
  y_mean : float;
  y_std : float
}.

Definition featureMatrix (data : list Row) (features : list string)
  : list (list float) :=
  map (fun row => map (fun f => coerce (get row f)) features) data.

Definition targetVector (data : list Row) (target : string) : list float :=
  map (fun row => coerce (get row target)) data.

Definition splitIndex (rowCount : nat) (splitRatio : float) : float :=
  Math_floor (of_length rowCount * splitRatio).

(** "Normalize features" (lines 47-52): [X[0].map] throws on an empty [X]. *)
Definition X_normalized (X : list (list float)) : outcome (list (list float)) :=
  match X with
  | [] => Throw TypeError
  | X0 :: _ =>
      let X_mean := mapi (fun _ col => mean (column X col)) X0 in
      let X_std := mapi (fun _ col => std (column X col)) X0 in
      Ok (map (normalizeRow X_mean X_std) X)
  end.

(** "Normalize target" (lines 54-57) *)
Definition y_normalized (y : list float) : list float :=
  let y_mean := mean y in
  let y_std := std y in
  map (fun val => (val - y_mean) / or_else y_std 1) y.

(** Lines 38-64 of [trainModel]: coercion, normalization, split. *)
Definition preprocess (data : list Row) (target : string)
  (features : list string) (splitRatio : float) : outcome Prepared :=
  let X := featureMatrix data features in
  let y := targetVector data target in
  bind (X_normalized X)
    (fun X_normalized =>
       let y_normalized := y_normalized y in
       let splitIndex := splitIndex (length data) splitRatio in
       Ok {| X_train := slice X_normalized 0 (Some splitIndex);
             y_train := slice y_normalized 0 (Some splitIndex);
             X_test := slice X_normalized splitIndex None;
             y_test := slice y splitIndex None;
             y_mean := mean y;
             y_std := std y |}).

Definition forestOptions (features : list string) (hp : Hyperparameters)
  : ForestOptions :=
  {| nEstimators := or_default (numTrees hp) 100;
     maxFeatures := Math_floor (sqrt (of_length (length features)));
     seed := 42;
     replacement := true;
     maxDepth := or_default (treeDepth hp) 10;
     minNumSamples := 2 |}.

Definition network (features : list string) (hp : Hyperparameters) : Network :=
  let first := match hiddenLayers hp with
               | Some l => nth_error l 0
               | None => None
               end in
  let rest := match hiddenLayers hp with
              | Some l => slice l 1 None
              | None => [32]
              end in
  let dropouts := match dropout hp with
                  | Some rate => if is_falsy rate then [] else [Dropout rate]
                  | None => []
                  end in
  {| layers :=
       Dense (or_default first 64) true false (Some 0.01) (Some (length features))
       :: flat_map (fun units => Dense units true true (Some 0.01) None :: dropouts)
            rest
       ++ [Dense 1 false false None None];
     adamLearningRate := or_default (learningRate hp) 0.001;
     fitEpochs := or_default (epochs hp) 50;
     fitBatchSize := or_default (batchSize hp) 32;
     validationSplit := 0.2 |}.

Section Engine.

Variable lib : Libraries.

(** The [switch (modelType)] of [trainModel]: it has no [default] branch, so
    [predictions] keeps its initial value [[]] for any other tag. *)
Definition runBackend (modelType : string) (features : list string)
  (hp : Hyperparameters) (p : Prepared) : outcome (list float) :=
  if String.eqb modelType "linear-regression" then
    bind (call (SimpleLinearRegression lib
                  (map (fun x => nth_error x 0) (X_train p)) (y_train p)))
      (fun regression =>
         mapM (fun x =>
                 bind (call (predict lib regression (nth_error x 0)))
                   (fun pred => Ok (pred * y_std p + y_mean p)))
              (X_test p))
  else if String.eqb modelType "random-forest" then
    bind (call (RFRegression_train lib (forestOptions features hp)
                  (X_train p) (y_train p)))
      (fun rf =>
         bind (call (RFRegression_predict lib rf (X_test p)))
           (fun preds => Ok (map (fun pred => pred * y_std p + y_mean p) preds)))
  else if String.eqb modelType "neural-network" then
    bind (call (tf_fit_predict lib (network features hp)
                  (X_train p) (y_train p) (X_test p)))
      (fun rawPredictions =>
         Ok (map (fun pred => pred * y_std p + y_mean p) rawPredictions))
  else Ok [].

Definition trainModel (data : list Row) (target : string)
  (features : list string) (modelType : string) (splitRatio : float)
  (hyperparameters : Hyperparameters) : outcome TrainingResult :=
  bind (preprocess data target features splitRatio)
    (fun p =>
       bind (runBackend modelType features hyperparameters p)
         (fun predictions =>
            let metrics := calculateMetrics (y_test p) predictions in
            Ok {| modelType := modelType;
                  metrics := metrics;
                  predictions := predictions;
                  actualValues := y_test p |})).

End Engine.

(** The default value of the [splitRatio] parameter. *)
Definition defaultSplitRatio : float := 0.8.

End Ml.

(** ** [src/lib/ai.ts]: the advisor *)

Module Ai.

(** The object [getHyperparameters] returns has one shape per model family. *)
Inductive SuggestedHyperparameters :=
| NetworkParameters (epochs batchSize learningRate : float)
    (hiddenLayers : list float) (dropout : float)
| ForestParameters (treeDepth numTrees : float)
| NoParameters.

Record AIModelSuggestion := {
  modelType : string;
  confidence : float;
  reasoning : string;
  suggestedFeatures : list string;
  hyperparameters : SuggestedHyperparameters
}.

Record Correlations := {
  mean : float;
  max : float
}.

(** The operations of @tensorflow/tfjs the advisor calls.  [array2] and
    [array1] are [await t.array()]: the values as the tensor stores them. *)
Record TensorFlow := {
  Tensor2D : Type;
  Tensor1D : Type;
  tensor2d : list (list float) -> Result Tensor2D;
  tensor1d : list float -> Result Tensor1D;
  array2 : Tensor2D -> list (list float);
  array1 : Tensor1D -> list float;
  transpose : Tensor2D -> Tensor2D;
  pow : Tensor2D -> float -> Tensor2D;
  dot : Tensor2D -> Tensor2D -> Result Tensor2D
}.

Definition pearsonCorrelation (x y : list float) : float :=
  let meanX := fold_left (fun a b => a + b) x 0 / of_length (length x) in
  let meanY := fold_left (fun a b => a + b) y 0 / of_length (length y) in
  let covXY :=
    reducei (fun sum xi i => sum + (xi - meanX) * (toNumber (nth_error y i) - meanY))
      x 0 in
  let varX := fold_left (fun sum xi => sum + Math_pow2 (xi - meanX)) x 0 in
  let varY := fold_left (fun sum yi => sum + Math_pow2 (yi - meanY)) y 0 in
  covXY / sqrt (varX * varY).

(** The per-feature correlations of [calculateCorrelations], over the arrays
    read back from the tensors. *)
Definition featureCorrelations (features : list (list float))
  (target : list float) : outcome (list float) :=
  match features with
  | [] => Throw TypeError
  | row0 :: _ =>
      Ok (mapi (fun _ i => pearsonCorrelation (column features i) target) row0)
  end.

Definition summarize (correlations : list float) : Correlations :=
  {| mean := fold_left (fun a b => a + b) correlations 0
             / of_length (length correlations);
     max := fold_left Math_max correlations neg_infinity |}.

Definition calculateFeatureImportance (X : list (list float)) (y : list float)
  : outcome (list float) :=
  match X with
  | [] => Throw TypeError
  | row0 :: _ =>
      Ok (mapi (fun _ i => abs (pearsonCorrelation (column X i) y)) row0)
  end.

Definition getHyperparameters (modelType : string) (complexity nonLinearity : float)
  : SuggestedHyperparameters :=
  if String.eqb modelType "neural-network" then
    NetworkParameters
      (Math_min 100 (50 + complexity * 10))
      32
      (if 0.5 <? nonLinearity then 0.001 else 0.01)
      [Math_round (complexity * 8); Math_round (complexity * 4)]
      (if 0.5 <? nonLinearity then 0.3 else 0.1)
  else if String.eqb modelType "random-forest" then
    ForestParameters
      (Math_min 20 (10 + Math_round (complexity / 2)))
      (Math_min 200 (100 + complexity * 10))
  else NoParameters.

(** The decision of [getModelSuggestions] (lines 40-52): model type,
    confidence and reasoning. *)
Definition selectModel (nonLinearity correlationsMean complexity : float)
  : string * float * string :=
  if (nonLinearity <? 0.3) && (0.7 <? correlationsMean) then
    ("linear-regression"%string, 0.8,
     "Strong linear correlations detected with low non-linearity"%string)
  else if (5 <? complexity) || (0.7 <? nonLinearity) then
    ("neural-network"%string, 0.75,
     "Complex relationships detected, suggesting deep learning approach"%string)
  else
    ("random-forest"%string, 0.85,
     "Moderate complexity with potential non-linear relationships"%string).

(** [arr.sort(cmp)], stable: an element goes behind every element the
    comparator does not order after it; a NaN comparison counts as [0].
    Where NaN makes the comparator inconsistent the order of the result is
    left to the engine; the statements about order are for keys without
    NaN. *)
Fixpoint insertSorted {A} (cmp : A -> A -> float) (x : A) (sorted : list A)
  : list A :=
  match sorted with
  | [] => [x]
  | y :: rest =>
      if 0 <? cmp y x then x :: sorted else y :: insertSorted cmp x rest
  end.

Definition sort {A} (cmp : A -> A -> float) (arr : list A) : list A :=
  fold_left (fun sorted x => insertSorted cmp x sorted) arr [].

Definition rankFeatures (features : list string) (featureImportance : list float)
  : list string :=
  let scored :=
    mapi (fun f i => (f, toNumber (nth_error featureImportance i))) features in
  map fst (slice (sort (fun a b => snd b - snd a) scored) 0 (Some 5)).

Section Advisor.

Variable tf : TensorFlow.

Definition calculateCorrelations (X : Tensor2D tf) (y : Tensor1D tf)
  : outcome Correlations :=
  let features := array2 tf X in
  let target := array1 tf y in
  bind (featureCorrelations features target)
    (fun correlations => Ok (summarize correlations)).

Definition checkNonLinearity (X : Tensor2D tf) (y : Tensor1D tf)
  : outcome float :=
  bind (call (dot tf X (transpose tf X)))
    (fun linearT =>
       let linear := array2 tf linearT in
       bind (call (dot tf (pow tf X 2) (transpose tf X)))
         (fun squaredT =>
            let squared := array2 tf squaredT in
            let linearCorr := pearsonCorrelation (concat linear) (array1 tf y) in
            let squaredCorr := pearsonCorrelation (concat squared) (array1 tf y) in
            Ok (abs (squaredCorr - linearCorr)))).

Definition getModelSuggestions (data : list Row) (features : list string)
  (target : string) : outcome AIModelSuggestion :=
  let X := map (fun row => map (fun f => or_else (parseFloat (get row f)) 0)
                             features) data in
  let y := map (fun row => or_else (parseFloat (get row target)) 0) data in
  bind (call (tensor2d tf X)) (fun tensorX =>
  bind (call (tensor1d tf y)) (fun tensorY =>
  bind (calculateCorrelations tensorX tensorY) (fun correlations =>
  bind (checkNonLinearity tensorX tensorY) (fun nonLinearity =>
  let complexity := of_length (length features) in
  let '(modelType, confidence, reasoning) :=
    selectModel nonLinearity (mean correlations) complexity in
  bind (calculateFeatureImportance X y) (fun featureImportance =>
  let suggestedFeatures := rankFeatures features featureImportance in
  let hyperparameters := getHyperparameters modelType complexity nonLinearity in
  Ok {| modelType := modelType;
        confidence := confidence;
        reasoning := reasoning;
        suggestedFeatures := suggestedFeatures;
        hyperparameters := hyperparameters |}))))).

End Advisor.

(** [calculateErrorVariance] (lines 188-192): the variance of the absolute
    errors, indexed by the predictions. *)
Definition calculateErrorVariance (predictions actuals : list float) : float :=
  let errors :=
    mapi (fun p i => abs (p - toNumber (nth_error actuals i))) predictions in
  let mean :=
    fold_left (fun a b => a + b) errors 0 / of_length (length errors) in
  fold_left (fun sum e => sum + Math_pow2 (e - mean)) errors 0
  / of_length (length errors).

(** The array [analysis] of [analyzeResults] once every [push] is done. *)
Definition analysis (modelType : string) (metrics : Ml.ModelMetrics)
  (predictions actualValues : list float) : list string :=
  let performance :=
    if 0.8 <? Ml.r2 metrics then
      "The model shows strong predictive performance with high R² value."%string
    else if 0.6 <? Ml.r2 metrics then
      "The model shows moderate predictive performance."%string
    else
      "The model's predictive performance could be improved."%string in
  let meanError := Ml.mae metrics in
  let errorVariance := calculateErrorVariance predictions actualValues in
  let variance :=
    if meanError * 2 <? errorVariance then
      ["High variance in prediction errors suggests inconsistent performance."%string]
    else [] in
  let improvement :=
    if Ml.r2 metrics <? 0.7 then
      [if String.eqb modelType "linear-regression" then
         "Consider using non-linear models like Random Forest or Neural Network."%string
       else if String.eqb modelType "neural-network" then
         "Try adjusting the network architecture or increasing training epochs."%string
       else
         "Consider feature engineering or gathering more training data."%string]
    else [] in
  performance :: variance ++ improvement.

(** [analysis.join('\n')] *)
Definition analyzeResults (modelType : string) (metrics : Ml.ModelMetrics)
  (predictions actualValues : list float) : string :=
  String.concat (String "010" EmptyString)
    (analysis modelType metrics predictions actualValues).

End Ai.

(** ** [src/components/Models.tsx]: the caller of the engine and the advisor *)

Module Models.

(** [model_parameters] of a stored result *)
Module ModelParameters.
Record t := {
  target : string;
  features : list string
}.
End ModelParameters.

Record ModelResult := {
  id : string;
  model_name : string;
  model_parameters : ModelParameters.t;
  accuracy : float;
  metrics : Ml.ModelMetrics;
  created_at : option string
}.

Module TargetAnalysis.
Record t := {
  target : string;
  results : list ModelResult;
  bestAccuracy : float;
  averageAccuracy : float
}.
End TargetAnalysis.

(** [Math.max(...values)] and [Math.min(...values)] *)
Definition maxOf (values : list float) : float :=
  fold_left Math_max values neg_infinity.

Definition minOf (values : list float) : float :=
  fold_left Math_min values infinity.

(** The constant [accuracy] that [trainSelectedModel] derives from a
    training result (lines 179-183). *)
Definition accuracyOf (result : Ml.TrainingResult) : float :=
  let maxValue := maxOf (Ml.actualValues result) in
  let minValue := minOf (Ml.actualValues result) in
  let range := maxValue - minValue in
  let normalizedMSE := Ml.mse (Ml.metrics result) / (range * range) in
  Math_max 0 (Math_min 100 ((1 - normalizedMSE) * 100)).


(** [arr.includes(x)] on strings *)
Definition includes (arr : list string) (x : string) : bool :=
  existsb (String.eqb x) arr.

(** The click handler of a feature button (lines 353-358): the new value of
    [modelConfig.features]. *)
Definition toggleFeature (features : list string) (feature : string)
  : list string :=
  if includes features feature
  then filter (fun f => negb (String.eqb f feature)) features
  else features ++ [feature].

(** *** [trainSelectedModel] *)




Section Training.

Variable lib : Ml.Libraries.


End Training.

(** *** [getResultsByTarget]

    The accumulator of the [reduce] is a plain object: its own properties
    are kept in creation order, and a key it does not own is looked up on
    [Object.prototype]. *)
Definition Groups := list (string * list ModelResult).

(** The properties every object inherits from [Object.prototype]; each one
    is truthy and none is an array. *)
Definition inheritedNames : list string :=
  ["constructor"; "hasOwnProperty"; "isPrototypeOf"; "propertyIsEnumerable";
   "toLocaleString"; "toString"; "valueOf"; "__proto__";
   "__defineGetter__"; "__defineSetter__"; "__lookupGetter__";
   "__lookupSetter__"]%string.

Definition owns (acc : Groups) (key : string) : bool :=
  existsb (fun g => String.eqb (fst g) key) acc.

(** [acc[key].push(result)] on an own array *)
Fixpoint push (acc : Groups) (key : string) (result : ModelResult) : Groups :=
  match acc with
  | [] => []
  | (k, results) :: rest =>
      if String.eqb k key then (k, results ++ [result]) :: rest
      else (k, results) :: push rest key result
  end.

(** The callback of the [reduce] (lines 214-221).  A key found on the
    prototype only is truthy, so no array is created, and its [push] is not
    a function. *)
Definition group (acc : Groups) (result : ModelResult) : outcome Groups :=
  let target := ModelParameters.target (model_parameters result) in
  if owns acc target then Ok (push acc target result)
  else if includes inheritedNames target then Throw TypeError
  else Ok (acc ++ [(target, [result])]).

Fixpoint reduceM {A B} (f : B -> A -> outcome B) (l : list A) (acc : B)
  : outcome B :=
  match l with
  | [] => Ok acc
  | x :: l' => bind (f acc x) (reduceM f l')
  end.

(** An array index: the canonical decimal string of an integer from 0 to
    2^32 - 2. *)
Definition arrayIndex (key : string) : option Z :=
  match list_ascii_of_string key with
  | [] => None
  | c :: rest =>
      let '(value, count, tail) := digits 0 0 (c :: rest) in
      match tail with
      | [] =>
          if (Ascii.eqb c "0" && negb (count =? 1)%Z)%bool then None
          else if (value <? 2 ^ 32 - 1)%Z then Some value
          else None
      | _ :: _ => None
      end
  end.

Fixpoint insertIndex {A} (i : Z) (x : A) (sorted : list (Z * A))
  : list (Z * A) :=
  match sorted with
  | [] => [(i, x)]
  | (j, y) :: rest =>
      if (i <? j)%Z then (i, x) :: sorted else (j, y) :: insertIndex i x rest
  end.

(** [Object.entries(obj)]: the array indices in ascending order, then the
    other keys in creation order. *)
Definition entries {A} (obj : list (string * A)) : list (string * A) :=
  let indexed :=
    fold_left
      (fun sorted entry =>
         match arrayIndex (fst entry) with
         | Some i => insertIndex i entry sorted
         | None => sorted
         end)
      obj [] in
  map snd indexed
  ++ filter (fun entry => match arrayIndex (fst entry) with
                          | Some _ => false
                          | None => true
                          end) obj.

(** One entry of the result (lines 223-228).  [sort] works in place, so the
    best and the average accuracy are taken over the sorted array. *)
Definition analyse (entry : string * list ModelResult) : TargetAnalysis.t :=
  let results := Ai.sort (fun a b => accuracy b - accuracy a) (snd entry) in
  {| TargetAnalysis.target := fst entry;
     TargetAnalysis.results := results;
     TargetAnalysis.bestAccuracy := maxOf (map accuracy results);
     TargetAnalysis.averageAccuracy :=
       fold_left (fun sum r => sum + accuracy r) results 0
       / of_length (length results) |}.

Definition getResultsByTarget (modelResults : list ModelResult)
  : outcome (list TargetAnalysis.t) :=
  bind (reduceM group modelResults [])
    (fun groupedResults => Ok (map analyse (entries groupedResults))).

End Models.

(** ** A concrete set of libraries

    Used to run the engine on concrete inputs.  The linear backend is the
    closed-form least-squares fit that ml-regression-simple-linear computes
    ([slope = (n*xy - x*y) / (n*xx - x*x)]; [predict] rejects an argument that
    is neither a number nor an array); the forest and the network are not
    modelled and raise.  Tensors are arrays of rows holding binary32 values
    ([float32] is the default dtype of tfjs); a tensor without entries reads
    back as the empty array. *)

Module Reference.

Record Line := { slope : float; intercept : float }.

Definition regress (x : list (option float)) (y : list float) : Line :=
  let n := of_length (length x) in
  let xSum := fold_left (fun s xi => s + toNumber xi) x 0 in
  let ySum := fold_left (fun s yi => s + yi) y 0 in
  let xSquared := fold_left (fun s xi => s + toNumber xi * toNumber xi) x 0 in
  let xY :=
    reducei (fun s xi i => s + toNumber xi * toNumber (nth_error y i)) x 0 in
  let numerator := n * xY - xSum * ySum in
  let slope := numerator / (n * xSquared - xSum * xSum) in
  {| slope := slope;
     intercept := (1 / n) * ySum - slope * (1 / n) * xSum |}.

Definition linePredict (l : Line) (x : option float) : Result float :=
  match x with
  | Some x => Returns (slope l * x + intercept l)
  | None => Raises "x must be a number or array"
  end.

Definition libraries : Ml.Libraries :=
  {| Ml.Regression := Line;
     Ml.SimpleLinearRegression := fun x y => Returns (regress x y);
     Ml.predict := linePredict;
     Ml.Forest := unit;
     Ml.RFRegression_train := fun _ _ _ => Raises "random forest: not modelled";
     Ml.RFRegression_predict := fun _ _ => Raises "random forest: not modelled";
     Ml.tf_fit_predict := fun _ _ _ _ => Raises "tfjs: not modelled" |}.

(** [Math.fround]: the nearest binary32 value. *)
Definition fround (x : float) : float :=
  match Prim2SF x with
  | S754_finite s m e => SF2Prim (binary_round 24 128 s m e)
  | _ => x
  end.

Fixpoint transposeRows (X : list (list float)) : list (list float) :=
  match X with
  | [] => []
  | [row] => map (fun v => [v]) row
  | row :: rest => map (fun '(v, col) => v :: col) (combine row (transposeRows rest))
  end.

Definition matMul (A B : list (list float)) : list (list float) :=
  let Bt := transposeRows B in
  map (fun a =>
         map (fun b =>
                fround (fold_left (fun s '(u, v) => s + u * v) (combine a b) 0))
             Bt)
      A.

Definition tensorflow : Ai.TensorFlow :=
  {| Ai.Tensor2D := list (list float);
     Ai.Tensor1D := list float;
     Ai.tensor2d := fun X =>
       match X with
       | [] => Raises "tensor2d() requires shape to be provided"
       | _ => Returns (map (map fround) X)
       end;
     Ai.tensor1d := fun y => Returns (map fround y);
     Ai.array2 := fun X =>
       if forallb (fun row => Nat.eqb (length row) 0) X then [] else X;
     Ai.array1 := fun y => y;
     Ai.transpose := transposeRows;
     Ai.pow := fun X _ => map (map (fun v => fround (v * v))) X;
     Ai.dot := fun A B => Returns (matMul A B) |}.

(** The same set with a stand-in for the network that has the one behaviour
    of tfjs an empty partition meets: [tf.tensor2d] cannot infer a shape from
    an array without rows and raises.  Given rows, the stand-in answers [0],
    the normalized mean of the target, for every test row. *)
Definition tensorLibraries : Ml.Libraries :=
  {| Ml.Regression := Line;
     Ml.SimpleLinearRegression := fun x y => Returns (regress x y);
     Ml.predict := linePredict;
     Ml.Forest := unit;
     Ml.RFRegression_train := fun _ _ _ => Raises "random forest: not modelled";
     Ml.RFRegression_predict := fun _ _ => Raises "random forest: not modelled";
     Ml.tf_fit_predict := fun _ X_train _ X_test =>
       match X_train, X_test with
       | [], _ | _, [] => Raises "tensor2d() requires shape to be provided"
       | _, _ => Returns (map (fun _ => 0) X_test)
       end |}.

End Reference.

(** ** Datasets to run the code on *)

Module Examples.

Definition record (x y : string) : Row :=
  [("x"%string, JsString x); ("y"%string, JsString y)].

(** The scenario of the specification: [y = x] for [x = 1..10]. *)
Definition tenRows : list Row :=
  [record "1" "1"; record "2" "2"; record "3" "3"; record "4" "4";
   record "5" "5"; record "6" "6"; record "7" "7"; record "8" "8";
   record "9" "9"; record "10" "10"].

(** A target column that is [5] in every row. *)
Definition constantTarget : list Row :=
  [record "1" "5"; record "2" "5"; record "3" "5"; record "4" "5";
   record "5" "5"].

(** A feature column that is [5] in every row. *)
Definition fives : list Row :=
  [record "5" "1"; record "5" "2"; record "5" "3"].

(** A feature column that is [0.1] in every row. *)
Definition tenths : list Row :=
  [record "0.1" "1"; record "0.1" "2"; record "0.1" "3"].

(** A feature column that is [Infinity] in every row. *)
Definition infinities : list Row :=
  [record "Infinity" "1"; record "Infinity" "2"; record "Infinity" "3"].

Definition record3 (a b y : string) : Row :=
  [("a"%string, JsString a); ("b"%string, JsString b); ("y"%string, JsString y)].

(** Feature [a] falls as the target rises, feature [b] rises with it. *)
Definition opposedFeatures : list Row :=
  [record3 "1" "3" "3"; record3 "2" "2" "2"; record3 "3" "1" "1"].

(** A target that is twice feature [a]; feature [b] carries no such line. *)
Definition twoFeatures : list Row :=
  [record3 "1" "4" "2"; record3 "2" "4" "4"; record3 "3" "8" "6";
   record3 "4" "8" "8"; record3 "5" "6" "10"].

End Examples.

(** ** Vocabulary of the statements *)

(** All four metrics NaN. *)
Definition nanMetrics : Ml.ModelMetrics :=
  {| Ml.mse := nan; Ml.rmse := nan; Ml.r2 := nan; Ml.mae := nan |}.

(** The per-column means and deviations [X_normalized] computes. *)
Definition X_means (X : list (list float)) : list float :=
  mapi (fun _ col => Ml.mean (column X col)) (hd [] X).

Definition X_stds (X : list (list float)) : list float :=
  mapi (fun _ col => Ml.std (column X col)) (hd [] X).

(** A column whose cells all equal [v] and whose mean, as the code computes
    it ([reduce] sum over the length), is exactly [v]. *)
Definition exactConstant (col : list float) (v : float) : Prop :=
  (forall a, In a col -> a = v) /\
  fold_left (fun a b => a + b) col 0 / of_length (length col) = v.

(** The wording of the specification for [meanCorrelation]: the average of
    the absolute correlations.  Compared below with what
    [Ai.calculateCorrelations] computes. *)
Definition meanAbsoluteCorrelation (features : list (list float))
  (target : list float) : outcome float :=
  bind (Ai.featureCorrelations features target)
    (fun correlations =>
       Ok (fold_left (fun a b => a + abs b) correlations 0
           / of_length (length correlations))).


(** The mantissa of an integer of at most 53 bits, shifted to 53 bits. *)
Definition normalMantissa (p : positive) : positive :=
  match (53 - Zpos (digits2_pos p))%Z with
  | Zpos k => Pos.iter xO p k
  | _ => p
  end.

(** The Number value of an integer. *)
Definition number_of_Z (z : Z) : float :=
  SF2Prim (binary_normalize prec emax z 0 false).

(** Values whose sign bit is clear: [+0], positive values, [+Infinity] (and
    NaN, which carries no sign here). *)
Definition SFunsigned (x : spec_float) : Prop :=
  match x with
  | S754_nan => True
  | S754_zero s | S754_infinity s | S754_finite s _ _ => s = false
  end.

(** The hyperparameters with every numeric field that is falsy ([0], [-0] or
    NaN) left out. *)
Definition omitFalsy (v : option float) : option float :=
  match v with
  | Some x => if is_falsy x then None else Some x
  | None => None
  end.

Definition withoutFalsy (hp : Ml.Hyperparameters) : Ml.Hyperparameters :=
  {| Ml.epochs := omitFalsy (Ml.epochs hp);
     Ml.batchSize := omitFalsy (Ml.batchSize hp);
     Ml.learningRate := omitFalsy (Ml.learningRate hp);
     Ml.hiddenLayers := Ml.hiddenLayers hp;
     Ml.dropout := omitFalsy (Ml.dropout hp);
     Ml.treeDepth := omitFalsy (Ml.treeDepth hp);
     Ml.numTrees := omitFalsy (Ml.numTrees hp) |}.

(** The literals [trainModel] falls back to, written out as an argument. *)
Definition fallbackHyperparameters : Ml.Hyperparameters :=
  {| Ml.epochs := Some 50;
     Ml.batchSize := Some 32;
     Ml.learningRate := Some 0.001;
     Ml.hiddenLayers := Some [64; 32];
     Ml.dropout := None;
     Ml.treeDepth := Some 10;
     Ml.numTrees := Some 100 |}.

(** [{ ...hp, dropout }] *)
Definition withDropout (hp : Ml.Hyperparameters) (d : option float)
  : Ml.Hyperparameters :=
  {| Ml.epochs := Ml.epochs hp;
     Ml.batchSize := Ml.batchSize hp;
     Ml.learningRate := Ml.learningRate hp;
     Ml.hiddenLayers := Ml.hiddenLayers hp;
     Ml.dropout := d;
     Ml.treeDepth := Ml.treeDepth hp;
     Ml.numTrees := Ml.numTrees hp |}.

(** The target a stored result was trained for. *)
Definition targetOf (result : Models.ModelResult) : string :=
  Models.ModelParameters.target (Models.model_parameters result).

(** Groups that partition the results processed so far: one group per key,
    no group empty, every result under its own target, and no key that
    [Object.prototype] also has. *)
Definition wellGrouped (acc : Models.Groups)
  (processed : list Models.ModelResult) : Prop :=
  NoDup (map fst acc)
  /\ (forall key results, In (key, results) acc ->
        results <> [] /\ forall r, In r results -> targetOf r = key)
  /\ Permutation (concat (map snd acc)) processed
  /\ (forall key, In key (map fst acc) ->
        Models.includes Models.inheritedNames key = false).

(** A stored result for [target] with the given accuracy, and a history of
    four runs over three targets, one of them named like an array index. *)
Definition storedResult (name target : string) (accuracy : float)
  : Models.ModelResult :=
  {| Models.id := name;
     Models.model_name := "linear-regression";
     Models.model_parameters :=
       {| Models.ModelParameters.target := target;
          Models.ModelParameters.features := ["x"%string] |};
     Models.accuracy := accuracy;
     Models.metrics := {| Ml.mse := 0; Ml.rmse := 0; Ml.r2 := 1; Ml.mae := 0 |};
     Models.created_at := None |}.

Definition history : list Models.ModelResult :=
  [storedResult "r1" "price" 40; storedResult "r2" "volume" 75;
   storedResult "r3" "2020" 10; storedResult "r4" "price" 90].

(** Values that are not negative and not NaN: zeros, positive values,
    [+Infinity]. *)
Definition SFordered_nonneg (x : spec_float) : Prop :=
  match x with
  | S754_nan => False
  | S754_zero _ => True
  | S754_infinity s | S754_finite s _ _ => s = false
  end.

(** The whole part of the positive value [m * 2^e]. *)
Definition wholePart (m : positive) (e : Z) : Z :=
  if (0 <=? e)%Z then (Zpos m * 2 ^ e)%Z else Z.shiftr (Zpos m) (- e).

(** * Facts about binary64 arithmetic

    Each fact is read off the specification of the primitive operation
    ([add_spec], [mul_spec], ...) on [spec_float]. *)

Lemma SF_nan : Prim2SF nan = S754_nan.
Proof. reflexivity. Qed.

Lemma SF_zero : Prim2SF 0 = S754_zero false.
Proof. reflexivity. Qed.

Lemma SF_one : Prim2SF 1 = S754_finite false 4503599627370496 (-52).
Proof. reflexivity. Qed.

Lemma is_nan_SF (x : float) :
  is_nan x = match Prim2SF x with S754_nan => true | _ => false end.
Proof.
  unfold is_nan. rewrite eqb_spec. unfold SFeqb.
  destruct (Prim2SF x) as [[|]|[|]| |[|] m e]; simpl; try reflexivity;
    rewrite Z.compare_refl, Pos.compare_cont_refl; reflexivity.
Qed.

Lemma is_nan_true (x : float) : is_nan x = true -> x = nan.
Proof.
  rewrite is_nan_SF. intros H. apply Prim2SF_inj. rewrite SF_nan.
  destruct (Prim2SF x); try discriminate. reflexivity.
Qed.

(** Turn an equation between floats into one between their specifications. *)
Ltac spec :=
  apply Prim2SF_inj;
  rewrite ?add_spec, ?sub_spec, ?mul_spec, ?div_spec, ?sqrt_spec, ?abs_spec,
    ?opp_spec, ?SF_nan, ?SF_zero, ?SF_one;
  unfold SF64add, SF64sub, SF64mul, SF64div, SF64sqrt.

Lemma add_nan_r x : x + nan = nan.
Proof. spec. unfold SFadd. destruct (Prim2SF x) as [[|]|[|]| |]; reflexivity. Qed.

Lemma add_nan_l x : nan + x = nan.
Proof. spec. reflexivity. Qed.

Lemma sub_nan_r x : x - nan = nan.
Proof. spec. unfold SFsub. destruct (Prim2SF x) as [[|]|[|]| |]; reflexivity. Qed.

Lemma sub_nan_l x : nan - x = nan.
Proof. spec. reflexivity. Qed.

Lemma mul_nan_r x : x * nan = nan.
Proof. spec. unfold SFmul. destruct (Prim2SF x) as [[|]|[|]| |]; reflexivity. Qed.

Lemma mul_nan_l x : nan * x = nan.
Proof. spec. reflexivity. Qed.

Lemma div_nan_l x : nan / x = nan.
Proof. spec. reflexivity. Qed.

Lemma div_nan_r x : x / nan = nan.
Proof. spec. unfold SFdiv. destruct (Prim2SF x) as [[|]|[|]| |]; reflexivity. Qed.
(** ** Rounding a value that is already representable *)

Lemma binary_round_aux_canonical (s : bool) (m : positive) (e : Z) :
  bounded prec emax m e = true ->
  binary_round_aux prec emax s (Zpos m) e loc_Exact = S754_finite s m e.
Proof.
  unfold bounded, canonical_mantissa. intros H.
  apply andb_true_iff in H. destruct H as [Hc He]. apply Z.eqb_eq in Hc.
  unfold binary_round_aux, shr_fexp. simpl Zdigits2.
  rewrite Hc, Z.sub_diag.
  cbn [shr shr_record_of_loc shr_m round_nearest_even loc_of_shr_record Zdigits2].
  rewrite Hc, Z.sub_diag.
  cbn [shr shr_record_of_loc shr_m].
  rewrite He. reflexivity.
Qed.

Lemma digits2_pos_iter_xO (p k : positive) :
  digits2_pos (Pos.iter xO p k) = (digits2_pos p + k)%positive.
Proof.
  induction k using Pos.peano_ind.
  - simpl. lia.
  - rewrite Pos.iter_succ. simpl. rewrite IHk. lia.
Qed.

Lemma Zpos_iter_xO (p k : positive) :
  Zpos (Pos.iter xO p k) = (Zpos p * 2 ^ Zpos k)%Z.
Proof.
  induction k using Pos.peano_ind.
  - simpl. lia.
  - rewrite Pos.iter_succ, Pos2Z.inj_succ, Z.pow_succ_r by lia.
    rewrite Pos2Z.inj_xO, IHk. lia.
Qed.

(** An integer of at most 53 bits converts exactly. *)
Lemma binary_round_integer (s : bool) (p : positive) :
  (Zpos (digits2_pos p) <= 53)%Z ->
  exists m e,
    binary_round prec emax s p 0 = S754_finite s m e /\
    bounded prec emax m e = true /\
    (e <= 0)%Z /\ Zpos m = (Zpos p * 2 ^ (- e))%Z.
Proof.
  intros Hd. unfold binary_round, shl_align.
  assert (Hf : fexp prec emax (Zpos (digits2_pos p) + 0) = (Zpos (digits2_pos p) - 53)%Z).
  { unfold fexp, SpecFloat.emin, prec, emax. lia. }
  rewrite Hf.
  destruct (Zpos (digits2_pos p) - 53 - 0)%Z as [|k|k] eqn:Hk; try lia.
  - exists p, 0%Z. split; [|split; [|split]]; try lia.
    + apply binary_round_aux_canonical.
      unfold bounded, canonical_mantissa. rewrite Hf.
      apply andb_true_iff. split; [apply Z.eqb_eq; lia | reflexivity].
    + unfold bounded, canonical_mantissa. rewrite Hf.
      apply andb_true_iff. split; [apply Z.eqb_eq; lia | reflexivity].
  - assert (Hb : bounded prec emax (Pos.iter xO p k) (Zpos (digits2_pos p) - 53) = true).
    { unfold bounded, canonical_mantissa. rewrite digits2_pos_iter_xO.
      apply andb_true_iff. split.
      - apply Z.eqb_eq. unfold fexp, SpecFloat.emin, prec, emax. lia.
      - apply Z.leb_le. unfold prec, emax. lia. }
    exists (Pos.iter xO p k), (Zpos (digits2_pos p) - 53)%Z.
    split; [|split; [|split]]; try lia.
    + apply binary_round_aux_canonical. exact Hb.
    + exact Hb.
    + rewrite Zpos_iter_xO. f_equal. f_equal. lia.
Qed.

Lemma shr_52 (m : positive) :
  iter_pos shr_1 52 (Build_shr_record (Zpos (Pos.iter xO m 52)) false false)
  = Build_shr_record (Zpos m) false false.
Proof. reflexivity. Qed.

Lemma binary_round_aux_times_one (s : bool) (m : positive) (e : Z) :
  bounded prec emax m e = true ->
  binary_round_aux prec emax s (Zpos (m * 4503599627370496)) (e + -52) loc_Exact
  = S754_finite s m e.
Proof.
  intros H. pose proof H as Hb.
  unfold bounded, canonical_mantissa in H.
  apply andb_true_iff in H. destruct H as [Hc He]. apply Z.eqb_eq in Hc.
  rewrite Pos.mul_comm.
  change (4503599627370496 * m)%positive with (Pos.iter xO m 52).
  unfold binary_round_aux, shr_fexp.
  cbn [Zdigits2]. rewrite digits2_pos_iter_xO.
  replace (Zpos (digits2_pos m + 52) + (e + -52))%Z
    with (Zpos (digits2_pos m) + e)%Z by lia.
  rewrite Hc. replace (e - (e + -52))%Z with 52%Z by lia.
  cbn [shr_record_of_loc shr]. rewrite shr_52.
  cbn [shr_m loc_of_shr_record round_nearest_even Zdigits2 shr_record_of_loc].
  replace (e + -52 + 52)%Z with e by lia.
  rewrite Hc, Z.sub_diag. cbn [shr shr_m]. rewrite He. reflexivity.
Qed.

Lemma mul_1_r (x : float) : x * 1 = x.
Proof.
  apply Prim2SF_inj. rewrite mul_spec, SF_one. unfold SF64mul, SFmul.
  pose proof (Prim2SF_valid x) as Hv.
  destruct (Prim2SF x) as [[|]|[|]| |s m e]; try reflexivity.
  simpl in Hv. rewrite binary_round_aux_times_one by exact Hv.
  destruct s; reflexivity.
Qed.

Lemma digits2_pos_size (p : positive) : digits2_pos p = Pos.size p.
Proof. induction p; simpl; congruence. Qed.

Lemma digits2_le_53 (p : positive) :
  (Zpos p < 2 ^ 53)%Z -> (Zpos (digits2_pos p) <= 53)%Z.
Proof.
  intros H. rewrite digits2_pos_size.
  pose proof (Pos.size_le p) as Hs.
  assert (H2 : (2 ^ Zpos (Pos.size p) <= 2 * Zpos p)%Z).
  { rewrite <- Pos2Z.inj_pow. change (2 * Zpos p)%Z with (Zpos p~0). lia. }
  destruct (Z.le_gt_cases (Zpos (Pos.size p)) 53) as [Hle|Hgt]; [exact Hle|].
  exfalso.
  assert (2 ^ 54 <= 2 ^ Zpos (Pos.size p))%Z by (apply Z.pow_le_mono_r; lia).
  lia.
Qed.

Lemma of_length_spec (n : nat) :
  (Z.of_nat n < 2 ^ 53)%Z ->
  Prim2SF (of_length n) = binary_normalize prec emax (Z.of_nat n) 0 false.
Proof.
  intros H. unfold of_length. rewrite of_uint63_spec, Uint63.of_Z_spec.
  rewrite Z.mod_small; [reflexivity|].
  split; [lia|]. eapply Z.lt_trans; [exact H|]. reflexivity.
Qed.

(** The Number value of a positive length is that positive integer. *)
Lemma of_length_positive (n : nat) :
  (0 < Z.of_nat n < 2 ^ 53)%Z ->
  exists m e,
    Prim2SF (of_length n) = S754_finite false m e /\
    (e <= 0)%Z /\ Zpos m = (Z.of_nat n * 2 ^ (- e))%Z.
Proof.
  intros [H0 H]. rewrite of_length_spec by exact H.
  destruct (Z.of_nat n) as [|p|p] eqn:Hn; try lia.
  destruct (binary_round_integer false p (digits2_le_53 p H))
    as (m & e & Hr & _ & He & Hm).
  exists m, e. simpl. auto.
Qed.

(** ** Finite values, zeros *)

Lemma is_infinity_SF (x : float) :
  is_infinity x = match Prim2SF x with S754_infinity _ => true | _ => false end.
Proof.
  unfold is_infinity. rewrite eqb_spec, abs_spec.
  change (Prim2SF infinity) with (S754_infinity false).
  destruct (Prim2SF x) as [[|]|[|]| |[|] m e]; reflexivity.
Qed.

Lemma is_zero_SF (x : float) :
  PrimFloat.is_zero x = match Prim2SF x with S754_zero _ => true | _ => false end.
Proof.
  unfold PrimFloat.is_zero. rewrite eqb_spec.
  change (Prim2SF zero) with (S754_zero false).
  destruct (Prim2SF x) as [[|]|[|]| |[|] m e]; reflexivity.
Qed.

Lemma is_falsy_SF (x : float) :
  is_falsy x = match Prim2SF x with
               | S754_nan | S754_zero _ => true
               | _ => false
               end.
Proof.
  unfold is_falsy. rewrite is_nan_SF, is_zero_SF.
  destruct (Prim2SF x); reflexivity.
Qed.

Lemma sub_diag (x : float) : is_finite x = true -> x - x = 0.
Proof.
  unfold is_finite. rewrite is_nan_SF, is_infinity_SF. intros H.
  spec. unfold SFsub.
  destruct (Prim2SF x) as [[|]|[|]| |s m e]; try discriminate; try reflexivity.
  unfold shl_align. rewrite Z.min_id, !Z.sub_diag. reflexivity.
Qed.

Lemma sub_diag_falsy (x : float) : is_falsy (x - x) = true.
Proof.
  rewrite is_falsy_SF, sub_spec. unfold SF64sub, SFsub.
  destruct (Prim2SF x) as [[|]|[|]| |s m e]; try reflexivity.
  unfold shl_align. rewrite Z.min_id, !Z.sub_diag. reflexivity.
Qed.

Lemma mul_falsy_l (x y : float) : is_falsy x = true -> is_falsy (x * y) = true.
Proof.
  rewrite !is_falsy_SF, mul_spec. unfold SF64mul, SFmul.
  destruct (Prim2SF x) as [[|]|[|]| |s m e]; try discriminate;
    destruct (Prim2SF y) as [[|]|[|]| |s' m' e']; reflexivity.
Qed.

Lemma add_falsy (x y : float) :
  is_falsy x = true -> is_falsy y = true -> is_falsy (x + y) = true.
Proof.
  rewrite !is_falsy_SF, add_spec. unfold SF64add, SFadd.
  destruct (Prim2SF x) as [[|]|[|]| |s m e]; try discriminate;
    destruct (Prim2SF y) as [[|]|[|]| |s' m' e']; try discriminate; reflexivity.
Qed.

Lemma sqrt_falsy (x : float) : is_falsy x = true -> is_falsy (sqrt x) = true.
Proof.
  rewrite !is_falsy_SF, sqrt_spec. unfold SF64sqrt, SFsqrt.
  destruct (Prim2SF x) as [[|]|[|]| |s m e]; try discriminate; reflexivity.
Qed.

Lemma div_falsy_l (x y : float) : is_falsy x = true -> is_falsy (x / y) = true.
Proof.
  rewrite !is_falsy_SF, div_spec. unfold SF64div, SFdiv.
  destruct (Prim2SF x) as [[|]|[|]| |s m e]; try discriminate;
    destruct (Prim2SF y) as [[|]|[|]| |s' m' e']; reflexivity.
Qed.

Lemma div_falsy_falsy (x y : float) :
  is_falsy x = true -> is_falsy y = true -> x / y = nan.
Proof.
  rewrite !is_falsy_SF. intros Hx Hy. spec. unfold SFdiv.
  destruct (Prim2SF x) as [[|]|[|]| |s m e]; try discriminate;
    destruct (Prim2SF y) as [[|]|[|]| |s' m' e']; try discriminate; reflexivity.
Qed.

Lemma or_else_falsy (x d : float) : is_falsy x = true -> or_else x d = d.
Proof. unfold or_else. intros ->. reflexivity. Qed.

(** ** Sums *)

Lemma fold_add_nan {A} (g : A -> float) (l : list A) :
  fold_left (fun sum v => sum + g v) l nan = nan.
Proof. induction l; simpl; [reflexivity|]. rewrite add_nan_l. exact IHl. Qed.

Lemma fold_add_falsy {A} (g : A -> float) (l : list A) (acc : float) :
  is_falsy acc = true -> Forall (fun v => is_falsy (g v) = true) l ->
  is_falsy (fold_left (fun sum v => sum + g v) l acc) = true.
Proof.
  intros Hacc H. revert acc Hacc.
  induction H as [|v l Hv _ IH]; intros acc Hacc; simpl; [exact Hacc|].
  apply IH. apply add_falsy; assumption.
Qed.

Lemma reduce_add_nan {A} (g : A -> nat -> float) (l : list A) (i : nat) :
  reduce_from (fun sum v i => sum + g v i) i l nan = nan.
Proof.
  revert i. induction l; intros i; simpl; [reflexivity|].
  rewrite add_nan_l. apply IHl.
Qed.

Lemma reduce_add_falsy {A} (g : A -> nat -> float) (l : list A) (i : nat)
  (acc : float) :
  is_falsy acc = true -> (forall v j, In v l -> is_falsy (g v j) = true) ->
  is_falsy (reduce_from (fun sum v i => sum + g v i) i l acc) = true.
Proof.
  revert i acc. induction l as [|v l IH]; intros i acc Hacc H; simpl; [exact Hacc|].
  apply IH.
  - apply add_falsy; [exact Hacc|]. apply H. left. reflexivity.
  - intros w j Hw. apply H. right. exact Hw.
Qed.

(** ** Integers: lengths, [Math.floor], [ToIntegerOrInfinity] *)

Lemma mantissa_bound (m : positive) (e : Z) :
  bounded prec emax m e = true -> (Zpos m < 2 ^ 53)%Z.
Proof.
  unfold bounded, canonical_mantissa, fexp, prec. intros H.
  apply andb_true_iff in H. destruct H as [Hc _]. apply Z.eqb_eq in Hc.
  assert (Hd : (Zpos (digits2_pos m) <= 53)%Z) by lia.
  rewrite digits2_pos_size in Hd.
  pose proof (Pos.size_gt m) as Hs.
  assert (Zpos m < 2 ^ Zpos (Pos.size m))%Z by (rewrite <- Pos2Z.inj_pow; lia).
  assert (2 ^ Zpos (Pos.size m) <= 2 ^ 53)%Z by (apply Z.pow_le_mono_r; lia).
  lia.
Qed.

Lemma shiftr_bounds (a k : Z) :
  (0 <= k)%Z ->
  ((0 <= a -> 0 <= Z.shiftr a k <= a) /\ (a < 0 -> a <= Z.shiftr a k < 0))%Z.
Proof.
  intros Hk. rewrite Z.shiftr_div_pow2 by exact Hk.
  assert (Hp : (0 < 2 ^ k)%Z) by (apply Z.pow_pos_nonneg; lia).
  pose proof (Z.div_mod a (2 ^ k) ltac:(lia)) as Hdm.
  pose proof (Z.mod_pos_bound a (2 ^ k) Hp) as Hr.
  split; intros Ha; nia.
Qed.

Lemma binary_normalize_valid_small (z : Z) (s : bool) :
  (Z.abs z < 2 ^ 53)%Z ->
  valid_binary (binary_normalize prec emax z 0 s) = true.
Proof.
  intros H. destruct z as [|p|p]; simpl.
  - reflexivity.
  - destruct (binary_round_integer false p) as (m & e & -> & Hb & _).
    + apply digits2_le_53. exact H.
    + exact Hb.
  - destruct (binary_round_integer true p) as (m & e & -> & Hb & _).
    + apply digits2_le_53. exact H.
    + exact Hb.
Qed.

Lemma SFfloor_valid (x : spec_float) :
  valid_binary x = true -> valid_binary (SFfloor x) = true.
Proof.
  destruct x as [s|s| |s m e]; try (intros; reflexivity).
  intros Hv. unfold SFfloor.
  destruct (0 <=? e)%Z eqn:He; [exact Hv|].
  apply Z.leb_gt in He. apply binary_normalize_valid_small.
  pose proof (mantissa_bound m e Hv) as Hm.
  destruct (shiftr_bounds (cond_Zopp s (Zpos m)) (- e) ltac:(lia)) as [Hp Hn].
  destruct s; simpl in *; lia.
Qed.

Lemma floor_spec (x : float) : Prim2SF (Math_floor x) = SFfloor (Prim2SF x).
Proof.
  unfold Math_floor. apply Prim2SF_SF2Prim, SFfloor_valid, Prim2SF_valid.
Qed.

Lemma toIntegerOrInfinity_of_length (n : nat) :
  (Z.of_nat n < 2 ^ 53)%Z ->
  toIntegerOrInfinity (of_length n) = Int (Z.of_nat n).
Proof.
  intros H. unfold toIntegerOrInfinity.
  destruct (Z.eq_dec (Z.of_nat n) 0) as [H0|H0].
  - rewrite of_length_spec, H0 by exact H. reflexivity.
  - destruct (of_length_positive n) as (m & e & -> & He & Hm); [lia|].
    simpl. f_equal.
    destruct (0 <=? e)%Z eqn:Hle.
    + apply Z.leb_le in Hle. assert (e = 0%Z) by lia. subst e.
      change (- 0)%Z with 0%Z in Hm. rewrite Z.pow_0_r in *.
      unfold cond_Zopp. lia.
    + rewrite Hm, Z.shiftr_div_pow2 by lia.
      apply Z.div_mul. apply Z.pow_nonzero; lia.
Qed.

Lemma floor_of_length (n : nat) :
  (Z.of_nat n < 2 ^ 53)%Z -> Math_floor (of_length n) = of_length n.
Proof.
  intros H. apply Prim2SF_inj. rewrite floor_spec.
  destruct (Z.eq_dec (Z.of_nat n) 0) as [H0|H0].
  - rewrite of_length_spec, H0 by exact H. reflexivity.
  - destruct (of_length_positive n) as (m & e & Hsf & He & Hm); [lia|].
    rewrite Hsf. unfold SFfloor.
    destruct (0 <=? e)%Z eqn:Hle; [reflexivity|].
    rewrite <- Hsf, of_length_spec by exact H.
    f_equal. simpl. rewrite Hm, Z.shiftr_div_pow2 by lia.
    apply Z.div_mul. apply Z.pow_nonzero; lia.
Qed.



(** ** Sums that are not NaN, sums over infinite values *)






Lemma is_finite_SF (x : float) :
  is_finite x = match Prim2SF x with
                | S754_zero _ | S754_finite _ _ _ => true
                | _ => false
                end.
Proof.
  unfold is_finite. rewrite is_nan_SF, is_infinity_SF.
  destruct (Prim2SF x); reflexivity.
Qed.


Lemma mul_falsy_r (x y : float) : is_falsy y = true -> is_falsy (x * y) = true.
Proof.
  rewrite !is_falsy_SF, mul_spec. unfold SF64mul, SFmul.
  destruct (Prim2SF y) as [[|]|[|]| |s m e]; try discriminate;
    destruct (Prim2SF x) as [[|]|[|]| |s' m' e']; reflexivity.
Qed.

Lemma fold_add_with_nan (l : list float) (acc : float) :
  In nan l -> fold_left (fun a b => a + b) l acc = nan.
Proof.
  revert acc. induction l as [|w l IH]; intros acc Hin; [destruct Hin|].
  simpl. destruct Hin as [->|Hin].
  - rewrite add_nan_r. apply (fold_add_nan (fun b => b)).
  - apply IH. exact Hin.
Qed.

(** ** Order *)

Lemma SFcompare_antisym (x y : spec_float) :
  SFcompare y x = option_map CompOpp (SFcompare x y).
Proof.
  destruct x as [[|]|[|]| |[|] m e]; destruct y as [[|]|[|]| |[|] m' e'];
    try reflexivity; simpl;
    rewrite (Z.compare_antisym e e'); destruct (e ?= e')%Z; simpl;
    try reflexivity;
    pose proof (Pos.compare_cont_antisym m m' Eq) as H; simpl in H;
    rewrite <- H; destruct (Pos.compare_cont Eq m m'); reflexivity.
Qed.

Lemma ltb_leb (x y : float) : (x <? y) = true -> (x <=? y) = true.
Proof.
  rewrite ltb_spec, leb_spec. unfold SFltb, SFleb.
  destruct (SFcompare (Prim2SF x) (Prim2SF y)) as [[| |]|]; congruence.
Qed.

Lemma not_ltb_leb (x y : float) :
  is_nan x = false -> is_nan y = false -> (y <? x) = false -> (x <=? y) = true.
Proof.
  rewrite !is_nan_SF, ltb_spec, leb_spec. unfold SFltb, SFleb.
  rewrite (SFcompare_antisym (Prim2SF x) (Prim2SF y)).
  destruct (Prim2SF x) as [[|]|[|]| |[|] m e]; try discriminate;
    destruct (Prim2SF y) as [[|]|[|]| |[|] m' e']; try discriminate;
    destruct (SFcompare _ _) as [[| |]|] eqn:Hc; simpl; try congruence;
    simpl in Hc; discriminate.
Qed.

(** [Math.max(0, Math.min(1, v))] is NaN for NaN and within [0, 1] otherwise. *)
Lemma clamp_unit (v : float) :
  let r := Math_max 0 (Math_min 1 v) in
  (is_nan v = true /\ r = nan) \/
  (is_nan v = false /\ (0 <=? r) && (r <=? 1) = true).
Proof.
  cbv zeta. destruct (is_nan v) eqn:Hnan.
  - left. split; [reflexivity|]. rewrite (is_nan_true v Hnan). reflexivity.
  - right. split; [reflexivity|].
    assert (Hmin : Math_min 1 v = 1 \/ (Math_min 1 v = v /\ (1 <? v) = false)).
    { unfold Math_min. change (is_nan 1) with false. rewrite Hnan. simpl orb. cbv iota.
      destruct (1 <? v) eqn:H1; [left; reflexivity|].
      right. split; [|reflexivity].
      destruct (v <? 1); [reflexivity|]. reflexivity. }
    destruct Hmin as [-> | [-> H1]]; [reflexivity|].
    unfold Math_max. change (is_nan 0) with false. rewrite Hnan. simpl orb. cbv iota.
    destruct (v <? 0) eqn:Hneg; [reflexivity|].
    destruct (0 <? v) eqn:Hpos; [|reflexivity].
    rewrite (ltb_leb 0 v Hpos). simpl andb.
    apply not_ltb_leb; [exact Hnan|reflexivity|exact H1].
Qed.

(** ** Integers below 2^53: exact sums and exact means *)

Lemma shr_iter_xO (k m : positive) :
  iter_pos shr_1 k (Build_shr_record (Zpos (Pos.iter xO m k)) false false)
  = Build_shr_record (Zpos m) false false.
Proof.
  revert m. induction k as [k IH|k IH|]; intros m; simpl.
  - rewrite !IH. reflexivity.
  - rewrite !IH. reflexivity.
  - reflexivity.
Qed.

Lemma digits_normalMantissa (p : positive) :
  (Zpos (digits2_pos p) <= 53)%Z ->
  Zpos (digits2_pos (normalMantissa p)) = 53%Z.
Proof.
  intros H. unfold normalMantissa.
  destruct (53 - Zpos (digits2_pos p))%Z as [|k|k] eqn:Hk; try lia.
  rewrite digits2_pos_iter_xO. lia.
Qed.

Lemma bounded_normalMantissa (p : positive) :
  (Zpos (digits2_pos p) <= 53)%Z ->
  bounded prec emax (normalMantissa p) (Zpos (digits2_pos p) - 53) = true.
Proof.
  intros H. unfold bounded, canonical_mantissa.
  rewrite (digits_normalMantissa p H).
  apply andb_true_iff. split.
  - apply Z.eqb_eq. unfold fexp, SpecFloat.emin, prec, emax. lia.
  - apply Z.leb_le. unfold prec, emax. lia.
Qed.

Lemma binary_round_integer_normal (s : bool) (p : positive) :
  (Zpos (digits2_pos p) <= 53)%Z ->
  binary_round prec emax s p 0
  = S754_finite s (normalMantissa p) (Zpos (digits2_pos p) - 53).
Proof.
  intros Hd. pose proof (bounded_normalMantissa p Hd) as Hb.
  unfold binary_round, shl_align.
  assert (Hf : fexp prec emax (Zpos (digits2_pos p) + 0) = (Zpos (digits2_pos p) - 53)%Z).
  { unfold fexp, SpecFloat.emin, prec, emax. lia. }
  rewrite Hf. unfold normalMantissa in *.
  destruct (Zpos (digits2_pos p) - 53 - 0)%Z as [|k|k] eqn:Hk; try lia.
  - replace (53 - Zpos (digits2_pos p))%Z with 0%Z in * by lia.
    replace (Zpos (digits2_pos p) - 53)%Z with 0%Z in * by lia.
    apply binary_round_aux_canonical. exact Hb.
  - replace (53 - Zpos (digits2_pos p))%Z with (Zpos k) in * by lia.
    apply binary_round_aux_canonical. exact Hb.
Qed.

(** Rounding [p * 2^k] at exponent [-k] gives back the integer [p]. *)
Lemma binary_round_aux_scaled (s : bool) (p k : positive) :
  (Zpos (digits2_pos p) <= 53)%Z ->
  (53 - Zpos (digits2_pos p) <= Zpos k)%Z ->
  binary_round_aux prec emax s (Zpos (Pos.iter xO p k)) (- Zpos k) loc_Exact
  = S754_finite s (normalMantissa p) (Zpos (digits2_pos p) - 53).
Proof.
  intros Hd Hk. pose proof (bounded_normalMantissa p Hd) as Hb.
  pose proof (digits_normalMantissa p Hd) as Hdn.
  assert (Hiter : exists j, (Zpos (digits2_pos p) - 53 + Zpos k = j)%Z /\
            match j with
            | Zpos j' => Pos.iter xO p k = Pos.iter xO (normalMantissa p) j'
            | _ => Pos.iter xO p k = normalMantissa p
            end).
  { eexists. split; [reflexivity|].
    unfold normalMantissa.
    destruct (53 - Zpos (digits2_pos p))%Z as [|kk|kk] eqn:Hkk; try lia.
    - replace (Zpos (digits2_pos p) - 53 + Zpos k)%Z with (Zpos k) by lia.
      reflexivity.
    - destruct (Zpos (digits2_pos p) - 53 + Zpos k)%Z as [|j'|j'] eqn:Hj; try lia.
      + f_equal. lia.
      + rewrite <- Pos.iter_add. f_equal. lia. }
  destruct Hiter as (j & Hj & Hm).
  unfold bounded, canonical_mantissa in Hb.
  apply andb_true_iff in Hb. destruct Hb as [Hc He]. apply Z.eqb_eq in Hc.
  unfold binary_round_aux, shr_fexp. cbn [Zdigits2].
  rewrite digits2_pos_iter_xO.
  assert (Hf : (fexp prec emax (Zpos (digits2_pos p + k) + - Zpos k) - - Zpos k = j)%Z).
  { unfold fexp, SpecFloat.emin, prec, emax. lia. }
  rewrite Hf. cbn [shr_record_of_loc].
  destruct j as [|j'|j']; try lia.
  - cbn [shr shr_m loc_of_shr_record round_nearest_even Zdigits2 shr_record_of_loc].
    rewrite Hm. replace (- Zpos k)%Z with (Zpos (digits2_pos p) - 53)%Z by lia.
    rewrite Hc, Z.sub_diag. cbn [shr shr_m]. rewrite He. reflexivity.
  - cbn [shr]. rewrite Hm, shr_iter_xO.
    cbn [shr_m loc_of_shr_record round_nearest_even Zdigits2 shr_record_of_loc].
    replace (- Zpos k + Zpos j')%Z with (Zpos (digits2_pos p) - 53)%Z by lia.
    rewrite Hc, Z.sub_diag. cbn [shr shr_m]. rewrite He. reflexivity.
Qed.

Lemma binary_round_scaled (s : bool) (p k : positive) :
  (Zpos (digits2_pos p) <= 53)%Z ->
  binary_round prec emax s (Pos.iter xO p k) (- Zpos k)
  = S754_finite s (normalMantissa p) (Zpos (digits2_pos p) - 53).
Proof.
  intros Hd. unfold binary_round, shl_align. rewrite digits2_pos_iter_xO.
  assert (Hf : fexp prec emax (Zpos (digits2_pos p + k) + - Zpos k)
               = (Zpos (digits2_pos p) - 53)%Z).
  { unfold fexp, SpecFloat.emin, prec, emax. lia. }
  rewrite Hf.
  destruct (Zpos (digits2_pos p) - 53 - - Zpos k)%Z as [|j|d] eqn:Hj.
  - apply binary_round_aux_scaled; [exact Hd|lia].
  - apply binary_round_aux_scaled; [exact Hd|lia].
  - rewrite <- Pos.iter_add.
    assert (Hn : normalMantissa p = Pos.iter xO p (d + k)).
    { unfold normalMantissa.
      destruct (53 - Zpos (digits2_pos p))%Z as [|kk|kk] eqn:Hkk; try lia.
      f_equal. lia. }
    rewrite <- Hn. apply binary_round_aux_canonical.
    apply bounded_normalMantissa. exact Hd.
Qed.

Lemma binary_normalize_integer (z : Z) :
  (Z.abs z < 2 ^ 53)%Z ->
  binary_normalize prec emax z 0 false
  = match z with
    | Z0 => S754_zero false
    | Zpos p => S754_finite false (normalMantissa p) (Zpos (digits2_pos p) - 53)
    | Zneg p => S754_finite true (normalMantissa p) (Zpos (digits2_pos p) - 53)
    end.
Proof.
  intros H. destruct z as [|p|p]; simpl; [reflexivity| |];
    apply binary_round_integer_normal, digits2_le_53; exact H.
Qed.

(** Scaling the mantissa by [2^k] and the exponent by [-k] changes nothing. *)
Lemma binary_normalize_scaled (z k : Z) :
  (Z.abs z < 2 ^ 53)%Z -> (0 <= k)%Z ->
  binary_normalize prec emax (z * 2 ^ k) (- k) false
  = binary_normalize prec emax z 0 false.
Proof.
  intros Hz Hk. rewrite (binary_normalize_integer z Hz).
  destruct k as [|k|k]; try lia.
  - rewrite Z.mul_1_r. apply (binary_normalize_integer z Hz).
  - destruct z as [|p|p].
    + reflexivity.
    + rewrite <- Zpos_iter_xO. cbn [binary_normalize].
      apply binary_round_scaled, digits2_le_53. exact Hz.
    + change (Zneg p) with (- Zpos p)%Z. rewrite Z.mul_opp_l, <- Zpos_iter_xO.
      cbn [Z.opp binary_normalize].
      apply binary_round_scaled, digits2_le_53. exact Hz.
Qed.

Lemma number_of_Z_spec (z : Z) :
  (Z.abs z < 2 ^ 53)%Z ->
  Prim2SF (number_of_Z z) = binary_normalize prec emax z 0 false.
Proof.
  intros H. unfold number_of_Z. apply Prim2SF_SF2Prim.
  apply binary_normalize_valid_small. exact H.
Qed.

Lemma Zpos_normalMantissa (p : positive) :
  (Zpos (digits2_pos p) <= 53)%Z ->
  Zpos (normalMantissa p) = (Zpos p * 2 ^ (53 - Zpos (digits2_pos p)))%Z.
Proof.
  intros H. unfold normalMantissa.
  destruct (53 - Zpos (digits2_pos p))%Z as [|k|k] eqn:Hk; try lia.
  apply Zpos_iter_xO.
Qed.

Lemma shl_align_value (m : positive) (e ez : Z) :
  (ez <= e)%Z -> Zpos (fst (shl_align m e ez)) = (Zpos m * 2 ^ (e - ez))%Z.
Proof.
  intros H. unfold shl_align.
  destruct (ez - e)%Z as [|d|d] eqn:Hd; try lia; cbn [fst].
  - replace (e - ez)%Z with 0%Z by lia. lia.
  - rewrite Zpos_iter_xO. f_equal. f_equal. lia.
Qed.

(** The signed value [m * 2^e] of a nonzero integer in normal form. *)
Lemma normal_form_value (z : Z) (s : bool) (p : positive) (ez : Z) :
  (Z.abs z < 2 ^ 53)%Z ->
  z = cond_Zopp s (Zpos p) ->
  (ez <= Zpos (digits2_pos p) - 53)%Z ->
  cond_Zopp s
    (Zpos (fst (shl_align (normalMantissa p) (Zpos (digits2_pos p) - 53) ez)))
  = (z * 2 ^ (- ez))%Z.
Proof.
  intros Hz -> Hez.
  assert (Hd : (Zpos (digits2_pos p) <= 53)%Z).
  { apply digits2_le_53. destruct s; simpl in Hz; lia. }
  rewrite shl_align_value by exact Hez.
  rewrite (Zpos_normalMantissa p Hd), <- Z.mul_assoc, <- Z.pow_add_r by lia.
  replace (53 - Zpos (digits2_pos p) + (Zpos (digits2_pos p) - 53 - ez))%Z
    with (- ez)%Z by lia.
  destruct s; cbn [cond_Zopp]; rewrite ?Z.mul_opp_l; reflexivity.
Qed.

Lemma SFadd_normal_forms (a b : Z) (sa sb : bool) (pa pb : positive) :
  (Z.abs a < 2 ^ 53)%Z -> (Z.abs b < 2 ^ 53)%Z -> (Z.abs (a + b) < 2 ^ 53)%Z ->
  a = cond_Zopp sa (Zpos pa) -> b = cond_Zopp sb (Zpos pb) ->
  SFadd prec emax
    (S754_finite sa (normalMantissa pa) (Zpos (digits2_pos pa) - 53))
    (S754_finite sb (normalMantissa pb) (Zpos (digits2_pos pb) - 53))
  = binary_normalize prec emax (a + b) 0 false.
Proof.
  intros Ha Hb Hab Ea Eb.
  assert (Da : (Zpos (digits2_pos pa) <= 53)%Z).
  { apply digits2_le_53. subst a. destruct sa; simpl in Ha; lia. }
  assert (Db : (Zpos (digits2_pos pb) <= 53)%Z).
  { apply digits2_le_53. subst b. destruct sb; simpl in Hb; lia. }
  cbn [SFadd].
  set (ez := Z.min (Zpos (digits2_pos pa) - 53) (Zpos (digits2_pos pb) - 53)).
  rewrite (normal_form_value a sa pa ez Ha Ea) by (unfold ez; lia).
  rewrite (normal_form_value b sb pb ez Hb Eb) by (unfold ez; lia).
  rewrite <- Z.mul_add_distr_r.
  rewrite <- (Z.opp_involutive ez) at 2.
  apply binary_normalize_scaled; [exact Hab | unfold ez; lia].
Qed.

Lemma SFadd_integers (a b : Z) :
  (Z.abs a < 2 ^ 53)%Z -> (Z.abs b < 2 ^ 53)%Z -> (Z.abs (a + b) < 2 ^ 53)%Z ->
  SFadd prec emax (binary_normalize prec emax a 0 false)
    (binary_normalize prec emax b 0 false)
  = binary_normalize prec emax (a + b) 0 false.
Proof.
  intros Ha Hb Hab.
  rewrite (binary_normalize_integer a Ha), (binary_normalize_integer b Hb).
  destruct a as [|pa|pa]; destruct b as [|pb|pb];
    try (rewrite (binary_normalize_integer _ Hab); reflexivity).
  - apply (SFadd_normal_forms _ _ false false pa pb); auto.
  - apply (SFadd_normal_forms _ _ false true pa pb); auto.
  - apply (SFadd_normal_forms _ _ true false pa pb); auto.
  - apply (SFadd_normal_forms _ _ true true pa pb); auto.
Qed.

Lemma add_integers (a b : Z) :
  (Z.abs a < 2 ^ 53)%Z -> (Z.abs b < 2 ^ 53)%Z -> (Z.abs (a + b) < 2 ^ 53)%Z ->
  number_of_Z a + number_of_Z b = number_of_Z (a + b).
Proof.
  intros Ha Hb Hab. apply Prim2SF_inj.
  rewrite add_spec, !number_of_Z_spec by assumption.
  apply SFadd_integers; assumption.
Qed.

Lemma div_eucl_exact (q d : Z) :
  (0 < d)%Z -> Z.div_eucl (q * d) d = (q, 0%Z).
Proof.
  intros Hd.
  pose proof (Z.div_mul q d ltac:(lia)) as Hq.
  pose proof (Z.mod_mul q d ltac:(lia)) as Hr.
  unfold Z.div, Z.modulo in Hq, Hr.
  destruct (Z.div_eucl (q * d) d) as [q' r']. cbn in Hq, Hr. congruence.
Qed.

Lemma new_location_exact (n : Z) : new_location n 0 = loc_Exact.
Proof.
  unfold new_location, new_location_even, new_location_odd.
  destruct (Z.even n); reflexivity.
Qed.

Lemma digits2_mul_le (p q : positive) :
  (Zpos (digits2_pos (p * q)) <= Zpos (digits2_pos p) + Zpos (digits2_pos q))%Z.
Proof.
  rewrite (digits2_pos_size p), (digits2_pos_size q),
    (digits2_pos_size (p * q)).
  pose proof (Pos.size_le (p * q)) as Hle.
  pose proof (Pos.size_gt p) as Hp. pose proof (Pos.size_gt q) as Hq.
  assert (Hle' : (2 ^ Zpos (Pos.size (p * q)) <= 2 * (Zpos p * Zpos q))%Z).
  { rewrite <- Pos2Z.inj_pow. rewrite <- Pos2Z.inj_mul.
    change (2 * Zpos (p * q))%Z with (Zpos (p * q)~0). lia. }
  assert (Hp' : (Zpos p < 2 ^ Zpos (Pos.size p))%Z)
    by (rewrite <- Pos2Z.inj_pow; lia).
  assert (Hq' : (Zpos q < 2 ^ Zpos (Pos.size q))%Z)
    by (rewrite <- Pos2Z.inj_pow; lia).
  assert (H : (2 ^ Zpos (Pos.size (p * q))
               < 2 ^ (Zpos (Pos.size p) + Zpos (Pos.size q) + 1))%Z).
  { rewrite !Z.pow_add_r, Z.pow_1_r by lia.
    assert (Hm : (Zpos p * Zpos q
                  < 2 ^ Zpos (Pos.size p) * 2 ^ Zpos (Pos.size q))%Z)
      by (apply Z.mul_lt_mono_nonneg; lia).
    lia. }
  assert (Hs : (Zpos (Pos.size (p * q))
                < Zpos (Pos.size p) + Zpos (Pos.size q) + 1)%Z)
    by (apply (Z.pow_lt_mono_r_iff 2); [lia | lia | exact H]).
  lia.
Qed.

Lemma SFdiv_normal_forms (sx sy : bool) (q y : positive) :
  (Zpos (q * y) < 2 ^ 53)%Z ->
  SFdiv prec emax
    (S754_finite sx (normalMantissa (q * y)) (Zpos (digits2_pos (q * y)) - 53))
    (S754_finite sy (normalMantissa y) (Zpos (digits2_pos y) - 53))
  = S754_finite (xorb sx sy) (normalMantissa q) (Zpos (digits2_pos q) - 53).
Proof.
  intros Hx.
  assert (Hy : (Zpos y < 2 ^ 53)%Z) by nia.
  assert (Hq : (Zpos q < 2 ^ 53)%Z) by nia.
  pose proof (digits2_le_53 _ Hx) as Dx.
  pose proof (digits2_le_53 _ Hy) as Dy.
  pose proof (digits2_le_53 _ Hq) as Dq.
  pose proof (digits2_mul_le q y) as Dm.
  unfold SFdiv, SFdiv_core_binary. cbn [Zdigits2].
  rewrite (digits_normalMantissa _ Dx), (digits_normalMantissa _ Dy).
  set (dx := Zpos (digits2_pos (q * y))) in *.
  set (dy := Zpos (digits2_pos y)) in *.
  set (dq := Zpos (digits2_pos q)) in *.
  assert (He : Z.min (fexp prec emax (53 + (dx - 53) - (53 + (dy - 53))))
                 (dx - 53 - (dy - 53)) = (dx - dy - 53)%Z).
  { unfold fexp, emin, emax, prec. lia. }
  rewrite He.
  replace (dx - 53 - (dy - 53) - (dx - dy - 53))%Z with 53%Z by lia.
  rewrite Z.shiftl_mul_pow2 by lia.
  rewrite (Zpos_normalMantissa _ Dx), (Zpos_normalMantissa _ Dy).
  fold dx dy.
  assert (Hk : (0 < 53 - dx + dy)%Z) by (unfold dy; lia).
  replace (Zpos (q * y) * 2 ^ (53 - dx) * 2 ^ 53)%Z
    with (Zpos q * 2 ^ (53 - dx + dy) * (Zpos y * 2 ^ (53 - dy)))%Z.
  2:{ rewrite Pos2Z.inj_mul.
      replace (2 ^ (53 - dx + dy))%Z with (2 ^ (53 - dx) * 2 ^ dy)%Z
        by (rewrite <- Z.pow_add_r by (unfold dy; lia); reflexivity).
      replace (2 ^ 53)%Z with (2 ^ dy * 2 ^ (53 - dy))%Z
        by (rewrite <- Z.pow_add_r by (unfold dy; lia); f_equal; lia).
      ring. }
  rewrite div_eucl_exact by (apply Z.mul_pos_pos; [lia | apply Z.pow_pos_nonneg; lia]).
  rewrite new_location_exact.
  destruct (53 - dx + dy)%Z as [|k|k] eqn:Ek; try lia.
  rewrite <- Zpos_iter_xO.
  replace (dx - dy - 53)%Z with (- Zpos k)%Z by lia.
  apply binary_round_aux_scaled; [exact Dq | fold dq; lia].
Qed.

Lemma div_integers (z n : Z) :
  (0 < n < 2 ^ 53)%Z -> (Z.abs (z * n) < 2 ^ 53)%Z ->
  number_of_Z (z * n) / number_of_Z n = number_of_Z z.
Proof.
  intros Hn Hzn.
  assert (Hz : (Z.abs z < 2 ^ 53)%Z).
  { rewrite Z.abs_mul in Hzn. pose proof (Z.abs_nonneg z).
    assert (Z.abs z * 1 <= Z.abs z * Z.abs n)%Z
      by (apply Z.mul_le_mono_nonneg_l; lia).
    lia. }
  assert (Hn' : (Z.abs n < 2 ^ 53)%Z) by lia.
  apply Prim2SF_inj.
  rewrite div_spec, !number_of_Z_spec by assumption.
  rewrite (binary_normalize_integer _ Hzn), (binary_normalize_integer _ Hn'),
    (binary_normalize_integer _ Hz).
  destruct n as [|n|n]; try lia.
  destruct z as [|p|p]; cbn [Z.mul] in *.
  - reflexivity.
  - apply (SFdiv_normal_forms false false p n). exact Hzn.
  - apply (SFdiv_normal_forms true false p n). exact Hzn.
Qed.

Lemma of_length_integer (n : nat) :
  (Z.of_nat n < 2 ^ 53)%Z -> of_length n = number_of_Z (Z.of_nat n).
Proof.
  intros H. apply Prim2SF_inj.
  rewrite of_length_spec, number_of_Z_spec by lia. reflexivity.
Qed.

Lemma fold_add_integers (z : Z) (n : nat) : forall k : Z,
  (0 <= k)%Z -> ((k + Z.of_nat n) * Z.abs z < 2 ^ 53)%Z ->
  fold_left (fun a b => a + b) (repeat (number_of_Z z) n) (number_of_Z (k * z))
  = number_of_Z ((k + Z.of_nat n) * z).
Proof.
  induction n as [|n IH]; intros k Hk Hb.
  - cbn [repeat fold_left]. f_equal. lia.
  - cbn [repeat fold_left].
    rewrite add_integers by nia.
    replace (k * z + z)%Z with ((k + 1) * z)%Z by ring.
    rewrite IH by lia. f_equal. lia.
Qed.

(** The mean the code computes for a column that repeats one integer is
    that integer, as long as the running sum stays below 2^53. *)
Lemma exactConstant_integers (z : Z) (col : list float) :
  col <> [] ->
  (forall a, In a col -> a = number_of_Z z) ->
  (Z.of_nat (length col) * Z.abs z < 2 ^ 53)%Z ->
  (Z.of_nat (length col) < 2 ^ 53)%Z ->
  exactConstant col (number_of_Z z).
Proof.
  intros Hne Hall Hb Hlen. split; [exact Hall|].
  assert (Hrep : col = repeat (number_of_Z z) (length col)).
  { apply Forall_eq_repeat, Forall_forall. intros a Ha. symmetry. auto. }
  rewrite Hrep at 1.
  change 0 with (number_of_Z (0 * z)).
  rewrite fold_add_integers by lia.
  rewrite of_length_integer by exact Hlen.
  rewrite Z.add_0_l, Z.mul_comm.
  apply div_integers.
  - destruct col; [congruence | cbn [length] in *; lia].
  - rewrite Z.abs_mul. lia.
Qed.

Example mean_of_sevens : exactConstant [7; 7; 7; 7] 7.
Proof.
  apply (exactConstant_integers 7); [discriminate | | reflexivity | reflexivity].
  intros a Ha. cbn [In] in Ha.
  destruct Ha as [<-|[<-|[<-|[<-|[]]]]]; reflexivity.
Qed.

(** * Arrays *)

Lemma nth_error_map_from {A B} (f : A -> nat -> B) (l : list A) (i j : nat) :
  nth_error (map_from f i l) j = option_map (fun x => f x (i + j)%nat) (nth_error l j).
Proof.
  revert i j. induction l as [|x l IH]; intros i j.
  - destruct j; reflexivity.
  - destruct j; simpl.
    + rewrite Nat.add_0_r. reflexivity.
    + rewrite IH. destruct (nth_error l j); simpl; [|reflexivity].
      rewrite Nat.add_succ_r. reflexivity.
Qed.

Lemma nth_error_mapi {A B} (f : A -> nat -> B) (l : list A) (j : nat) :
  nth_error (mapi f l) j = option_map (fun x => f x j) (nth_error l j).
Proof. unfold mapi. rewrite nth_error_map_from. reflexivity. Qed.

Lemma relativeIndex_zero (len : nat) : relativeIndex 0 len = 0%nat.
Proof.
  unfold relativeIndex, toIntegerOrInfinity. rewrite SF_zero. simpl. lia.
Qed.

Lemma slice_prefix {A} (arr : list A) (idx : float) :
  slice arr 0 (Some idx) = firstn (relativeIndex idx (length arr)) arr.
Proof.
  unfold slice. rewrite relativeIndex_zero, Nat.sub_0_r. reflexivity.
Qed.

Lemma slice_suffix {A} (arr : list A) (idx : float) :
  slice arr idx None = skipn (relativeIndex idx (length arr)) arr.
Proof.
  unfold slice. apply firstn_all2. rewrite length_skipn. lia.
Qed.

Lemma slice_map {A B} (g : A -> B) (arr : list A) (a : float) (b : option float) :
  slice (map g arr) a b = map g (slice arr a b).
Proof.
  unfold slice. rewrite length_map, skipn_map, firstn_map. reflexivity.
Qed.

Lemma relativeIndex_of_length (n : nat) :
  (Z.of_nat n < 2 ^ 53)%Z -> relativeIndex (of_length n) n = n.
Proof.
  intros H. unfold relativeIndex. rewrite toIntegerOrInfinity_of_length by exact H.
  destruct (Z.of_nat n <? 0)%Z eqn:Hn; [apply Z.ltb_lt in Hn; lia|].
  rewrite Z.min_id. apply Nat2Z.id.
Qed.

Lemma mapM_throws {A B} (f : A -> outcome B) (l : list A) (e : JsError) :
  mapM f l = Throw e -> exists x, In x l /\ f x = Throw e.
Proof.
  induction l as [|x l IH]; simpl; [discriminate|].
  destruct (f x) as [y|e'] eqn:Hx; simpl.
  - destruct (mapM f l) as [ys|e'']; simpl; [discriminate|].
    intros H. destruct IH as (x' & Hin & Hx'); [exact H|].
    exists x'. auto.
  - intros H. exists x. split; [left; reflexivity|]. congruence.
Qed.

Lemma mapM_map {A B C} (h : A -> B) (g : B -> outcome C) (l : list A) :
  mapM (fun x => g (h x)) l = mapM g (map h l).
Proof. induction l as [|x l IH]; simpl; [reflexivity|]. rewrite IH. reflexivity. Qed.

Lemma slice_whole_prefix {A} (arr : list A) (n : nat) :
  length arr = n -> (Z.of_nat n < 2 ^ 53)%Z ->
  slice arr 0 (Some (of_length n)) = arr.
Proof.
  intros <- H. rewrite slice_prefix, relativeIndex_of_length by exact H.
  apply firstn_all.
Qed.

Lemma slice_empty_suffix {A} (arr : list A) (n : nat) :
  length arr = n -> (Z.of_nat n < 2 ^ 53)%Z ->
  slice arr (of_length n) None = [].
Proof.
  intros <- H. rewrite slice_suffix, relativeIndex_of_length by exact H.
  apply skipn_all.
Qed.

(** * The engine ([Ml]) *)

Import Ml.

Lemma X_normalized_nonempty (X : list (list float)) :
  X <> [] -> exists Xn, X_normalized X = Ok Xn /\ length Xn = length X.
Proof.
  destruct X as [|X0 X]; [congruence|]. intros _.
  eexists. split; [reflexivity|]. rewrite length_map. reflexivity.
Qed.

Lemma featureMatrix_nonempty (data : list Row) (features : list string) :
  data <> [] -> featureMatrix data features <> [].
Proof. destruct data; [congruence|]. discriminate. Qed.

(** Without predictions every test row's error is [val - undefined]. *)
Lemma calculateMetrics_no_predictions (actual : list float) :
  actual <> [] -> calculateMetrics actual [] = nanMetrics.
Proof.
  destruct actual as [|a l]; [congruence|]. intros _.
  unfold calculateMetrics, ssResidual, sumSquaredError, reducei, Math_pow2.
  cbn [reduce_from nth_error toNumber].
  rewrite sub_nan_r, mul_nan_l, add_nan_r.
  change (abs nan) with nan. rewrite add_nan_r.
  rewrite (reduce_add_nan (fun val i => (val - toNumber (nth_error [] i))
                                       * (val - toNumber (nth_error [] i)))).
  rewrite (reduce_add_nan (fun val i => abs (val - toNumber (nth_error [] i)))).
  rewrite !div_nan_l, sub_nan_r. reflexivity.
Qed.

(** With no test row every mean is [0 / 0]. *)
Lemma calculateMetrics_no_actuals (predicted : list float) :
  calculateMetrics [] predicted = nanMetrics.
Proof. reflexivity. Qed.

Lemma preprocess_throws data target features ratio e :
  preprocess data target features ratio = Throw e -> e = TypeError /\ data = [].
Proof.
  unfold preprocess. destruct data as [|row data]; simpl.
  - intros [= <-]. auto.
  - discriminate.
Qed.

Lemma length_featureMatrix data features :
  length (featureMatrix data features) = length data.
Proof. apply length_map. Qed.

Lemma length_targetVector data target :
  length (targetVector data target) = length data.
Proof. apply length_map. Qed.

Lemma length_y_normalized y : length (y_normalized y) = length y.
Proof. apply length_map. Qed.

Lemma splitIndex_one (n : nat) :
  (Z.of_nat n < 2 ^ 53)%Z -> splitIndex n 1 = of_length n.
Proof.
  intros H. unfold splitIndex. rewrite mul_1_r. apply floor_of_length. exact H.
Qed.

Lemma X_normalized_ok (X Xn : list (list float)) :
  X_normalized X = Ok Xn -> Xn = map (normalizeRow (X_means X) (X_stds X)) X.
Proof.
  destruct X as [|X0 X]; [discriminate|]. intros [= <-]. reflexivity.
Qed.

(** The first column of the normalized matrix is made from the first
    feature alone. *)
Lemma first_column_normalized data f fs Xn :
  X_normalized (featureMatrix data (f :: fs)) = Ok Xn ->
  map (fun x => nth_error x 0) Xn
  = map (fun row =>
           Some ((coerce (get row f) - mean (targetVector data f))
                 / or_else (std (targetVector data f)) 1))
        data.
Proof.
  intros H. apply X_normalized_ok in H. subst Xn.
  assert (Hcol : column (featureMatrix data (f :: fs)) 0 = targetVector data f).
  { unfold column, featureMatrix, targetVector. rewrite map_map. reflexivity. }
  destruct data as [|row0 rest]; [reflexivity|].
  set (data := row0 :: rest) in *.
  assert (Hm : nth_error (X_means (featureMatrix data (f :: fs))) 0
               = Some (mean (targetVector data f))).
  { rewrite <- Hcol. reflexivity. }
  assert (Hs : nth_error (X_stds (featureMatrix data (f :: fs))) 0
               = Some (std (targetVector data f))).
  { rewrite <- Hcol. reflexivity. }
  rewrite map_map.
  unfold featureMatrix at 3. rewrite map_map.
  apply map_ext. intros row.
  cbn [map normalizeRow mapi map_from nth_error].
  cbn [nth_error] in Hm, Hs. rewrite Hm, Hs. reflexivity.
Qed.

(** ** Errors of a perfect prediction *)


(** ** Columns of identical cells *)

Lemma column_featureMatrix data features c col :
  nth_error features c = Some col ->
  column (featureMatrix data features) c = targetVector data col.
Proof.
  intros H. unfold column, featureMatrix, targetVector. rewrite map_map.
  apply map_ext. intros row. rewrite nth_error_map, H. reflexivity.
Qed.

(** With an exact mean the deviations of a constant column are falsy, and so
    is its [std]. *)
Lemma std_constant_falsy (l : list float) (v : float) :
  (forall a, In a l -> a = v) -> mean l = v -> is_falsy (std l) = true.
Proof.
  intros Hall Hmean. unfold std. rewrite Hmean.
  apply sqrt_falsy, div_falsy_l.
  apply fold_add_falsy with (g := fun val => Math_pow2 (val - v)); [reflexivity|].
  apply Forall_forall. intros a Ha. rewrite (Hall a Ha).
  apply mul_falsy_l, sub_diag_falsy.
Qed.

Lemma normalized_constant_cell (l : list float) (v : float) :
  (forall a, In a l -> a = v) -> is_finite v = true -> mean l = v ->
  (v - mean l) / or_else (std l) 1 = 0.
Proof.
  intros Hall Hfin Hmean.
  rewrite (or_else_falsy _ _ (std_constant_falsy l v Hall Hmean)).
  rewrite Hmean, sub_diag by exact Hfin. reflexivity.
Qed.


(** ** What [trainModel] does, for any set of libraries *)

Section EngineFacts.

Variable lib : Libraries.

(** Only a library can make the backend step fail. *)
Lemma runBackend_throws modelType features hp p e :
  runBackend lib modelType features hp p = Throw e ->
  exists msg, e = LibraryError msg.
Proof.
  unfold runBackend.
  destruct (String.eqb modelType "linear-regression").
  { destruct (SimpleLinearRegression lib _ _) as [reg|msg] eqn:Hc; simpl;
      [|intros [= <-]; eauto].
    intros H. apply mapM_throws in H. destruct H as (x & _ & H).
    cbv beta in H.
    destruct (predict lib reg _); simpl in H;
      [discriminate H|]. injection H as <-. eauto. }
  destruct (String.eqb modelType "random-forest").
  { destruct (RFRegression_train lib _ _ _) as [rf|msg]; simpl;
      [|intros [= <-]; eauto].
    destruct (RFRegression_predict lib rf _); simpl; [discriminate|].
    intros [= <-]. eauto. }
  destruct (String.eqb modelType "neural-network").
  { destruct (tf_fit_predict lib _ _ _ _); simpl; [discriminate|].
    intros [= <-]. eauto. }
  discriminate.
Qed.

Lemma runBackend_unrecognized modelType features hp p :
  modelType <> "linear-regression"%string ->
  modelType <> "random-forest"%string ->
  modelType <> "neural-network"%string ->
  runBackend lib modelType features hp p = Ok [].
Proof.
  intros H1 H2 H3. unfold runBackend.
  apply String.eqb_neq in H1, H2, H3. rewrite H1, H2, H3. reflexivity.
Qed.

Lemma preprocess_nonempty data target features ratio :
  data <> [] -> exists p, preprocess data target features ratio = Ok p.
Proof.
  intros H. unfold preprocess.
  destruct (X_normalized_nonempty (featureMatrix data features))
    as (Xn & -> & _); [apply featureMatrix_nonempty; exact H|].
  simpl. eauto.
Qed.

(** C1 (as amended).  [trainModel] validates nothing itself: it never fails
    with a [ValidationError].  With no rows it fails with the native
    [TypeError] of [X[0].map], so empty rows still never yield a
    [TrainingResult]; with rows, whatever the features and the target are
    (no features, or the target among them), preprocessing succeeds and the
    call is handed to the backend step, whose predictions are returned with
    their metrics. *)
Theorem trainModel_performs_no_validation (data : list Row) (target : string)
  (features : list string) (modelType : string) (splitRatio : float)
  (hyperparameters : Hyperparameters) :
  trainModel lib data target features modelType splitRatio hyperparameters
    <> Throw ValidationError
  /\ match data with
     | [] =>
         trainModel lib data target features modelType splitRatio hyperparameters
         = Throw TypeError
     | _ :: _ =>
         exists p,
           preprocess data target features splitRatio = Ok p /\
           trainModel lib data target features modelType splitRatio hyperparameters
           = bind (runBackend lib modelType features hyperparameters p)
               (fun predictions =>
                  Ok {| Ml.modelType := modelType;
                        metrics := calculateMetrics (y_test p) predictions;
                        predictions := predictions;
                        actualValues := y_test p |})
     end.
Proof.
  split.
  - unfold trainModel.
    destruct (preprocess data target features splitRatio) as [p|e] eqn:Hp; simpl.
    + destruct (runBackend lib modelType features hyperparameters p) as [ps|e] eqn:Hb;
        simpl; [discriminate|].
      apply runBackend_throws in Hb. destruct Hb as [msg ->]. discriminate.
    + apply preprocess_throws in Hp. destruct Hp as [-> _]. discriminate.
  - destruct data as [|row rest] eqn:Hd; [reflexivity|].
    destruct (preprocess_nonempty (row :: rest) target features splitRatio)
      as [p Hp]; [discriminate|].
    exists p. split; [exact Hp|]. unfold trainModel. rewrite Hp. reflexivity.
Qed.

(** C2 (as amended).  A model type outside the three recognized tags is not
    rejected: the [switch] has no [default] branch.  With rows the call
    returns a [TrainingResult] that echoes the tag, with no predictions, the
    test targets as [actualValues] and all four metrics NaN; with no rows it
    fails with [TypeError] as every call does. *)
Theorem unrecognized_modelType_is_not_rejected (data : list Row)
  (target : string) (features : list string) (modelType : string)
  (splitRatio : float) (hyperparameters : Hyperparameters) :
  modelType <> "linear-regression"%string ->
  modelType <> "random-forest"%string ->
  modelType <> "neural-network"%string ->
  match data with
  | [] =>
      trainModel lib data target features modelType splitRatio hyperparameters
      = Throw TypeError
  | _ :: _ =>
      exists p,
        preprocess data target features splitRatio = Ok p /\
        trainModel lib data target features modelType splitRatio hyperparameters
        = Ok {| Ml.modelType := modelType;
                metrics := nanMetrics;
                predictions := [];
                actualValues := y_test p |}
  end.
Proof.
  intros H1 H2 H3. destruct data as [|row rest] eqn:Hd; [reflexivity|].
  destruct (preprocess_nonempty (row :: rest) target features splitRatio)
    as [p Hp]; [discriminate|].
  exists p. split; [exact Hp|]. unfold trainModel. rewrite Hp. simpl.
  rewrite runBackend_unrecognized by assumption. simpl. do 2 f_equal.
  destruct (y_test p) as [|a l] eqn:Hy.
  - apply calculateMetrics_no_actuals.
  - apply calculateMetrics_no_predictions. discriminate.
Qed.

(** C6.  With the linear backend the call is decided by the first configured
    feature alone.  The library builds the regression from the training part
    of one column, the normalized cells [(x - mean) / (std || 1)] of the first
    feature [f], and of the normalized target; each prediction is the
    library's answer for the test row's cell of that same column, mapped back
    with [pred * y_std + y_mean].  No feature after the first occurs in the
    outcome: two calls that differ only in these features give the same
    predictions, metrics and actual values, or the same failure.  (What the
    library fits to the column, ordinary least squares, is the library's.) *)
Theorem linear_backend_reads_first_feature_only (data : list Row)
  (target f : string) (splitRatio : float)
  (hyperparameters : Hyperparameters) :
  let column := map (fun row => coerce (get row f)) data in
  let x :=
    map (fun val => Some ((val - mean column) / or_else (std column) 1)) column in
  let y := targetVector data target in
  let splitIndex := splitIndex (length data) splitRatio in
  let train := fun features =>
    trainModel lib data target features "linear-regression" splitRatio
      hyperparameters in
  (forall others,
     train (f :: others)
     = match data with
       | [] => Throw TypeError
       | _ :: _ =>
           bind (call (SimpleLinearRegression lib
                         (slice x 0 (Some splitIndex))
                         (slice (y_normalized y) 0 (Some splitIndex))))
             (fun regression =>
                bind (mapM (fun x0 =>
                              bind (call (predict lib regression x0))
                                (fun pred => Ok (pred * std y + mean y)))
                           (slice x splitIndex None))
                  (fun predictions =>
                     Ok {| Ml.modelType := "linear-regression";
                           metrics :=
                             calculateMetrics (slice y splitIndex None)
                               predictions;
                           predictions := predictions;
                           actualValues := slice y splitIndex None |}))
       end)
  /\ forall others others', train (f :: others) = train (f :: others').
Proof.
  cbv zeta.
  match goal with
  | |- (forall others, _ = ?fitted) /\ _ =>
      assert (H : forall others,
                trainModel lib data target (f :: others) "linear-regression"
                  splitRatio hyperparameters = fitted)
  end.
  { intros others.
    destruct data as [|row0 rest] eqn:Hd; [reflexivity|]. rewrite <- Hd.
    assert (Hne : data <> []) by (subst; discriminate). clear Hd.
    unfold trainModel, preprocess.
    destruct (X_normalized_nonempty (featureMatrix data (f :: others)))
      as (Xn & HXn & _); [apply featureMatrix_nonempty; exact Hne|].
    rewrite HXn. cbn [bind].
    pose proof (first_column_normalized _ _ _ _ HXn) as Hc.
    unfold runBackend. simpl String.eqb. cbv iota.
    cbn [X_train y_train X_test y_test y_std y_mean].
    change (targetVector data f) with (map (fun row => coerce (get row f)) data)
      in Hc.
    rewrite <- (map_map (fun row => coerce (get row f))
                  (fun val =>
                     Some ((val - mean (map (fun row => coerce (get row f)) data))
                           / or_else
                               (std (map (fun row => coerce (get row f)) data))
                               1))) in Hc.
    rewrite <- !slice_map, Hc.
    destruct (call (SimpleLinearRegression lib _ _)) as [regression|e];
      [|reflexivity].
    cbn [bind].
    rewrite (mapM_map (fun x => nth_error x 0)
               (fun x0 =>
                  bind (call (predict lib regression x0))
                    (fun pred => Ok (pred * std (targetVector data target)
                                     + mean (targetVector data target))))).
    rewrite <- slice_map, Hc. reflexivity. }
  split; [exact H|].
  intros others others'. rewrite (H others), (H others'). reflexivity.
Qed.

(** C9 (as amended).  With [splitRatio = 1] every row is a training row and
    the test partition is empty.  With the linear backend [trainModel]
    returns, as soon as the library has built the regression, a
    [TrainingResult] with no predictions, no actual values and four NaN
    metrics, and so it does for a model type it does not recognize.  The
    forest and the network are handed the empty test matrix
    ([rf.predict([])], [tf.tensor2d([])]): when the library answers, its
    predictions are returned mapped back, with no actual values and four NaN
    metrics; when it raises, [trainModel] fails with that error. *)
Theorem splitRatio_one_leaves_no_test_rows (data : list Row) (target : string)
  (features : list string) (hyperparameters : Hyperparameters) :
  data <> [] ->
  (Z.of_nat (length data) < 2 ^ 32)%Z ->
  exists Xn,
    X_normalized (featureMatrix data features) = Ok Xn /\
    length Xn = length data /\
    let y := targetVector data target in
    let rescale := fun pred => pred * std y + mean y in
    let train := fun modelType =>
      trainModel lib data target features modelType 1 hyperparameters in
    let result := fun modelType predictions =>
      {| Ml.modelType := modelType;
         metrics := nanMetrics;
         predictions := predictions;
         actualValues := [] |} in
    preprocess data target features 1
    = Ok {| X_train := Xn; y_train := y_normalized y;
            X_test := []; y_test := [];
            y_mean := mean y; y_std := std y |}
    /\ train "linear-regression"%string
       = bind (call (SimpleLinearRegression lib
                       (map (fun x => nth_error x 0) Xn) (y_normalized y)))
           (fun _ => Ok (result "linear-regression"%string []))
    /\ train "random-forest"%string
       = bind (call (RFRegression_train lib
                       (forestOptions features hyperparameters)
                       Xn (y_normalized y)))
           (fun rf =>
              bind (call (RFRegression_predict lib rf []))
                (fun preds =>
                   Ok (result "random-forest"%string (map rescale preds))))
    /\ train "neural-network"%string
       = bind (call (tf_fit_predict lib (network features hyperparameters)
                       Xn (y_normalized y) []))
           (fun rawPredictions =>
              Ok (result "neural-network"%string
                    (map rescale rawPredictions)))
    /\ forall modelType,
         modelType <> "linear-regression"%string ->
         modelType <> "random-forest"%string ->
         modelType <> "neural-network"%string ->
         train modelType = Ok (result modelType []).
Proof.
  intros Hne Hlen.
  assert (H53 : (Z.of_nat (length data) < 2 ^ 53)%Z) by lia.
  destruct (X_normalized_nonempty (featureMatrix data features))
    as (Xn & HXn & HlenX); [apply featureMatrix_nonempty; exact Hne|].
  rewrite length_featureMatrix in HlenX.
  exists Xn. split; [exact HXn|]. split; [exact HlenX|]. cbv zeta.
  assert (Hp : preprocess data target features 1
               = Ok {| X_train := Xn;
                       y_train := y_normalized (targetVector data target);
                       X_test := []; y_test := [];
                       y_mean := mean (targetVector data target);
                       y_std := std (targetVector data target) |}).
  { unfold preprocess. rewrite HXn. cbn [bind].
    rewrite splitIndex_one by exact H53.
    rewrite !slice_whole_prefix, !slice_empty_suffix;
      rewrite ?length_y_normalized, ?length_targetVector; try assumption;
      reflexivity. }
  split; [exact Hp|]. unfold trainModel. rewrite Hp. cbn [bind].
  unfold runBackend. cbn [X_train y_train X_test y_test y_std y_mean].
  split; [|split; [|split]].
  - simpl String.eqb. cbv iota.
    destruct (call (SimpleLinearRegression lib _ _)); reflexivity.
  - simpl String.eqb. cbv iota.
    destruct (call (RFRegression_train lib _ _ _)) as [rf|e]; [|reflexivity].
    cbn [bind]. destruct (call (RFRegression_predict lib rf [])); reflexivity.
  - simpl String.eqb. cbv iota.
    destruct (call (tf_fit_predict lib _ _ _ _)); reflexivity.
  - intros modelType H1 H2 H3.
    apply String.eqb_neq in H1, H2, H3. rewrite H1, H2, H3. reflexivity.
Qed.

End EngineFacts.

(** ** Normalization of a constant column *)

(** C8 (as amended).  Take a column whose coerced cells all equal one finite
    value [v] and whose computed mean is exactly [v].  No error is raised,
    the divisor [std || 1] falls back to [1], and every normalized value of
    the column is [0], whether the column is the target or one of the
    features. *)
Theorem constant_column_normalizes_to_zero (data : list Row) (col : string)
  (v : float) :
  (forall row, In row data -> coerce (get row col) = v) ->
  is_finite v = true ->
  mean (targetVector data col) = v ->
  or_else (std (targetVector data col)) 1 = 1
  /\ y_normalized (targetVector data col) = map (fun _ => 0) data
  /\ forall features c Xn,
       nth_error features c = Some col ->
       X_normalized (featureMatrix data features) = Ok Xn ->
       forall row, In row Xn -> nth_error row c = Some 0.
Proof.
  intros Hcells Hfin Hmean.
  assert (Hall : forall a, In a (targetVector data col) -> a = v).
  { unfold targetVector. intros a Ha. apply in_map_iff in Ha.
    destruct Ha as (row & <- & Hrow). apply Hcells. exact Hrow. }
  pose proof (normalized_constant_cell _ v Hall Hfin Hmean) as Hcell.
  split; [|split].
  - apply or_else_falsy. apply (std_constant_falsy _ v Hall Hmean).
  - unfold y_normalized, targetVector at 3. rewrite map_map.
    apply map_ext_in. intros row Hrow. rewrite (Hcells row Hrow). exact Hcell.
  - intros features c Xn Hc HXn row' Hrow'.
    apply X_normalized_ok in HXn. subst Xn.
    apply in_map_iff in Hrow'. destruct Hrow' as (xr & <- & Hxr).
    unfold featureMatrix in Hxr. apply in_map_iff in Hxr.
    destruct Hxr as (row & <- & Hrow).
    unfold normalizeRow. rewrite nth_error_mapi, nth_error_map, Hc.
    cbn [option_map]. rewrite (Hcells row Hrow). f_equal.
    assert (Hhd : exists w, nth_error (hd [] (featureMatrix data features)) c = Some w).
    { destruct data as [|row0 rest]; [destruct Hrow|].
      cbn [featureMatrix map hd]. rewrite nth_error_map, Hc. cbn [option_map]. eauto. }
    destruct Hhd as [w Hw].
    unfold X_means, X_stds. rewrite !nth_error_mapi, Hw. cbn [option_map toNumber or_default].
    rewrite (column_featureMatrix data features c col Hc). exact Hcell.
Qed.

(** ** The clamp of [r2] *)

Lemma positive_div_zero (x : float) : (0 <? x) = true -> x / 0 = infinity.
Proof.
  rewrite ltb_spec, SF_zero. intros H. spec.
  change (Prim2SF infinity) with (S754_infinity false). unfold SFdiv.
  destruct (Prim2SF x) as [[|]|[|]| |[|] m e]; try discriminate; reflexivity.
Qed.

(** The degenerate case [SS_total = 0]: the clamp gives [0] when a residual is
    left and NaN when there is none. *)
Lemma r2_without_variance (actual predicted : list float) :
  ssTotal actual = 0 ->
  ((0 <? ssResidual actual predicted) = true ->
   r2 (calculateMetrics actual predicted) = 0)
  /\ (ssResidual actual predicted = 0 ->
      r2 (calculateMetrics actual predicted) = nan).
Proof.
  intros Ht. unfold calculateMetrics. cbn [r2]. rewrite Ht. split.
  - intros Hr. rewrite (positive_div_zero _ Hr). reflexivity.
  - intros ->. reflexivity.
Qed.

(** C3.  The clamp [Math.max(0, Math.min(1, .))] keeps every [r2] that is a
    number within [0, 1], but it lets NaN through: when the actual values are
    constant and predicted exactly, [SS_residual / SS_total] is [0 / 0] and
    [r2] is NaN, not the [0] the clamp is there for.  [trainModel] reaches
    this on a dataset whose target is constant. *)
Theorem r2_is_nan_or_clamped :
  r2 (calculateMetrics [5; 5] [5; 5]) = nan
  /\ (exists result,
        trainModel Reference.libraries Examples.constantTarget "y" ["x"%string]
          "linear-regression" 0.6 noHyperparameters = Ok result
        /\ actualValues result = [5; 5]
        /\ predictions result = [5; 5]
        /\ r2 (metrics result) = nan)
  /\ (forall actual predicted,
        ssTotal actual = 0 -> ssResidual actual predicted = 0 ->
        r2 (calculateMetrics actual predicted) = nan)
  /\ forall actual predicted,
       let r := r2 (calculateMetrics actual predicted) in
       r = nan \/ (0 <=? r) && (r <=? 1) = true.
Proof.
  split; [reflexivity|]. split; [|split].
  - eexists. split; [vm_compute; reflexivity|]. repeat split.
  - intros actual predicted Ht Hr.
    apply (proj2 (r2_without_variance actual predicted Ht) Hr).
  - intros actual predicted. cbv zeta. unfold calculateMetrics. cbn [r2].
    destruct (clamp_unit (1 - ssResidual actual predicted / ssTotal actual))
      as [[_ H]|[_ H]]; [left|right]; exact H.
Qed.

(** * The advisor ([Ai]) *)

Lemma pearson_constant_x (x y : list float) (v : float) :
  exactConstant x v -> Ai.pearsonCorrelation x y = nan.
Proof.
  intros [Hall Hmean]. unfold Ai.pearsonCorrelation. rewrite Hmean.
  apply div_falsy_falsy.
  - unfold reducei.
    apply (reduce_add_falsy
             (fun xi i => (xi - v) * (toNumber (nth_error y i) - _)));
      [reflexivity|].
    intros a j Ha. rewrite (Hall a Ha). apply mul_falsy_l, sub_diag_falsy.
  - apply sqrt_falsy, mul_falsy_l.
    apply (fold_add_falsy (fun xi => Math_pow2 (xi - v))); [reflexivity|].
    apply Forall_forall. intros a Ha. rewrite (Hall a Ha).
    apply mul_falsy_l, sub_diag_falsy.
Qed.

Lemma pearson_constant_y (x y : list float) (v : float) :
  exactConstant y v -> Ai.pearsonCorrelation x y = nan.
Proof.
  intros [Hall Hmean]. unfold Ai.pearsonCorrelation. rewrite Hmean.
  apply div_falsy_falsy.
  - unfold reducei.
    apply (reduce_add_falsy
             (fun xi i => (xi - _) * (toNumber (nth_error y i) - v)));
      [reflexivity|].
    intros a j _. apply mul_falsy_r.
    destruct (nth_error y j) as [b|] eqn:Hb; simpl.
    + apply nth_error_In in Hb. rewrite (Hall b Hb). apply sub_diag_falsy.
    + rewrite sub_nan_l. reflexivity.
  - apply sqrt_falsy, mul_falsy_r.
    apply (fold_add_falsy (fun yi => Math_pow2 (yi - v))); [reflexivity|].
    apply Forall_forall. intros a Ha. rewrite (Hall a Ha).
    apply mul_falsy_l, sub_diag_falsy.
Qed.

(** C10 (as amended).  [pearsonCorrelation] has no zero-variance guard.  When
    a feature column (or the target) is constant with a computed mean equal
    to its value, its correlation is [0 / 0 = NaN]; no error is raised, the
    NaN is the entry of that feature among the correlations, it makes their
    mean NaN, and it is the importance of the feature in
    [calculateFeatureImportance]. *)
Theorem constant_column_correlation_is_nan (X : list (list float))
  (y : list float) (c : nat) (v w : float) :
  nth_error (hd [] X) c = Some w ->
  exactConstant (column X c) v \/ exactConstant y v ->
  exists correlations importance,
    Ai.featureCorrelations X y = Ok correlations /\
    nth_error correlations c = Some nan /\
    Ai.mean (Ai.summarize correlations) = nan /\
    Ai.calculateFeatureImportance X y = Ok importance /\
    nth_error importance c = Some nan.
Proof.
  intros Hc Hconst.
  assert (Hp : Ai.pearsonCorrelation (column X c) y = nan).
  { destruct Hconst as [H|H];
      [apply (pearson_constant_x _ _ v H) | apply (pearson_constant_y _ _ v H)]. }
  destruct X as [|row0 rest]; [destruct c; discriminate Hc|].
  cbn [hd] in Hc.
  unfold Ai.featureCorrelations, Ai.calculateFeatureImportance.
  eexists. eexists.
  assert (Hcs : nth_error
                  (mapi (fun (_ : float) i =>
                           Ai.pearsonCorrelation (column (row0 :: rest) i) y) row0) c
                = Some nan).
  { rewrite nth_error_mapi, Hc. cbn [option_map]. rewrite Hp. reflexivity. }
  split; [reflexivity|]. split; [exact Hcs|]. split; [|split; [reflexivity|]].
  - unfold Ai.summarize. cbn [Ai.mean].
    rewrite fold_add_with_nan by (apply nth_error_In in Hcs; exact Hcs).
    apply div_nan_l.
  - rewrite nth_error_mapi, Hc. cbn [option_map]. rewrite Hp. reflexivity.
Qed.

(** ** The non-linearity proxy and the decision *)

Lemma reduce_add_nan_at {A} (g : A -> nat -> float) (l : list A) (i j : nat)
  (v : A) (acc : float) :
  nth_error l j = Some v -> g v (i + j)%nat = nan ->
  reduce_from (fun sum v i => sum + g v i) i l acc = nan.
Proof.
  revert i j acc. induction l as [|w l IH]; intros i j acc Hj Hg.
  - destruct j; discriminate Hj.
  - destruct j as [|j]; simpl in *.
    + injection Hj as ->. rewrite Nat.add_0_r in Hg. rewrite Hg, add_nan_r.
      apply reduce_add_nan.
    + apply (IH (S i) j); [exact Hj|]. rewrite <- Hg. f_equal. lia.
Qed.

(** A target shorter than the feature is read as [undefined] past its end:
    this is how [checkNonLinearity] correlates the [n * n] entries of a Gram
    matrix with the [n] targets. *)
Lemma pearson_target_too_short (x y : list float) :
  (length y < length x)%nat -> Ai.pearsonCorrelation x y = nan.
Proof.
  intros H. unfold Ai.pearsonCorrelation, reducei.
  destruct (nth_error x (length y)) as [v|] eqn:Hv;
    [|apply nth_error_None in Hv; lia].
  rewrite (reduce_add_nan_at
             (fun xi i => (xi - _) * (toNumber (nth_error y i) - _))
             x 0 (length y) v 0 Hv).
  - apply div_nan_l.
  - cbn [Nat.add]. rewrite (proj2 (nth_error_None y (length y))) by lia.
    cbn [toNumber]. rewrite sub_nan_l. apply mul_nan_r.
Qed.

Lemma selectModel_first_match (nonLinearity meanCorrelation complexity : float) :
  Ai.selectModel nonLinearity meanCorrelation complexity
  = if (nonLinearity <? 0.3) && (0.7 <? meanCorrelation)
    then ("linear-regression"%string, 0.8,
          "Strong linear correlations detected with low non-linearity"%string)
    else if (5 <? complexity) || (0.7 <? nonLinearity)
    then ("neural-network"%string, 0.75,
          "Complex relationships detected, suggesting deep learning approach"%string)
    else ("random-forest"%string, 0.85,
          "Moderate complexity with potential non-linear relationships"%string).
Proof. reflexivity. Qed.

Section AdvisorFacts.

Variable tf : Ai.TensorFlow.

(** The suggestion carries the decision of [selectModel] on the computed
    non-linearity, the mean of the correlations and the number of features. *)
Lemma getModelSuggestions_decision data features target suggestion :
  Ai.getModelSuggestions tf data features target = Ok suggestion ->
  exists tensorX tensorY correlations nonLinearity,
    Ai.calculateCorrelations tf tensorX tensorY = Ok correlations /\
    Ai.checkNonLinearity tf tensorX tensorY = Ok nonLinearity /\
    (Ai.modelType suggestion, Ai.confidence suggestion, Ai.reasoning suggestion)
    = Ai.selectModel nonLinearity (Ai.mean correlations)
        (of_length (length features)).
Proof.
  unfold Ai.getModelSuggestions.
  destruct (Ai.tensor2d tf _) as [tX|]; [|discriminate]. cbn [call bind].
  destruct (Ai.tensor1d tf _) as [tY|]; [|discriminate]. cbn [call bind].
  destruct (Ai.calculateCorrelations tf tX tY) as [cor|] eqn:Hc; [|discriminate].
  cbn [bind].
  destruct (Ai.checkNonLinearity tf tX tY) as [nl|] eqn:Hn; [|discriminate].
  cbn [bind].
  destruct (Ai.selectModel nl (Ai.mean cor) (of_length (length features)))
    as [[mt conf] reason] eqn:Hs.
  destruct (Ai.calculateFeatureImportance _ _) as [imp|]; [|discriminate].
  cbn [bind]. intros [= <-]. cbn [Ai.modelType Ai.confidence Ai.reasoning].
  exists tX, tY, cor, nl. rewrite Hs. auto.
Qed.

End AdvisorFacts.

Example nonLinearity_of_three_rows :
  Ai.checkNonLinearity Reference.tensorflow [[1; 3]; [2; 2]; [3; 1]] [3; 2; 1]
  = Ok nan.
Proof. vm_compute. reflexivity. Qed.

(** C5.  [calculateCorrelations] averages the signed correlations, where
    [calculateFeatureImportance] takes their absolute values.  On two features
    that correlate with the target at [-1] and [+1] the mean is [0], not the
    [1] of the average of absolute correlations; with a mean of [0] the first
    rule never selects the linear model, with [1] it does. *)
Theorem meanCorrelation_is_signed :
  Ai.calculateCorrelations Reference.tensorflow
    [[1; 3]; [2; 2]; [3; 1]] [3; 2; 1]
  = Ok {| Ai.mean := 0; Ai.max := 1 |}
  /\ meanAbsoluteCorrelation [[1; 3]; [2; 2]; [3; 1]] [3; 2; 1] = Ok 1
  /\ (forall nonLinearity complexity,
        fst (fst (Ai.selectModel nonLinearity 0 complexity))
        <> "linear-regression"%string)
  /\ fst (fst (Ai.selectModel 0.1 1 2)) = "linear-regression"%string
  /\ exists suggestion,
       Ai.getModelSuggestions Reference.tensorflow Examples.opposedFeatures
         ["a"%string; "b"%string] "y" = Ok suggestion
       /\ Ai.modelType suggestion = "random-forest"%string.
Proof.
  split; [vm_compute; reflexivity|]. split; [vm_compute; reflexivity|].
  split; [|split; [vm_compute; reflexivity|]].
  - intros nl k. unfold Ai.selectModel.
    change (0.7 <? 0) with false. rewrite andb_false_r.
    destruct ((5 <? k) || (0.7 <? nl)); simpl; discriminate.
  - eexists. split; [vm_compute; reflexivity|]. reflexivity.
Qed.

(** * The code on concrete inputs *)

(** The scenario of the specification: an exact linear target is fitted
    exactly by the linear backend. *)
Example linear_scenario :
  trainModel Reference.libraries Examples.tenRows "y" ["x"%string]
    "linear-regression" defaultSplitRatio noHyperparameters
  = Ok {| modelType := "linear-regression";
          metrics := {| mse := 0; rmse := 0; r2 := 1; mae := 0 |};
          predictions := [9; 10];
          actualValues := [9; 10] |}.
Proof. vm_compute. reflexivity. Qed.

Example parseFloat_examples :
  map parseFloat
    [JsString "0.1"; JsString "  -12.5e3abc"; JsString "abc"; JsString "";
     JsString ".5"; JsString "1e400"; JsString "-Infinity"; JsNumber (-0);
     JsUndefined]
  = [0.1; -12500; nan; nan; 0.5; infinity; neg_infinity; 0; nan].
Proof. vm_compute. reflexivity. Qed.

(** A no-break space (U+00A0, bytes 194 160) or a byte order mark before the
    digits is white space; a zero-width space (U+200B) is not. *)
Example parseFloat_white_space :
  let text := fun bytes rest =>
    JsString (fold_right (fun n s => String (ascii_of_nat n) s) rest bytes) in
  map parseFloat
    [text [194; 160]%nat "7"%string; text [239; 187; 191; 32]%nat "7"%string;
     text [226; 128; 139]%nat "7"%string]
  = [7; 7; nan].
Proof. vm_compute. reflexivity. Qed.

(** A negative ratio makes [slice] count from the end. *)
Example negative_ratio_counts_from_the_end :
  exists p,
    preprocess Examples.tenRows "y" ["x"%string] (-0.25) = Ok p /\
    length (X_train p) = 7%nat /\ y_test p = [8; 9; 10].
Proof. eexists. split; [vm_compute; reflexivity|]. split; reflexivity. Qed.

(** ** C1 *)

Lemma trainModel_validation_counterexample :
  trainModel Reference.libraries [] "y" ["x"%string] "linear-regression" 0.8
    noHyperparameters = Throw TypeError
  /\ trainModel Reference.libraries [] "y" ["x"%string] "linear-regression" 0.8
       noHyperparameters <> Throw ValidationError
  /\ In "y"%string ["x"%string; "y"%string]
  /\ trainModel Reference.libraries Examples.tenRows "y" ["x"%string; "y"%string]
       "linear-regression" 0.8 noHyperparameters
     = Ok {| modelType := "linear-regression";
             metrics := {| mse := 0; rmse := 0; r2 := 1; mae := 0 |};
             predictions := [9; 10];
             actualValues := [9; 10] |}.
Proof.
  split; [reflexivity|]. split; [discriminate|].
  split; [right; left; reflexivity|]. vm_compute. reflexivity.
Qed.

(** ** C2 *)

Lemma unrecognized_modelType_witness :
  "svm"%string <> "linear-regression"%string
  /\ "svm"%string <> "random-forest"%string
  /\ "svm"%string <> "neural-network"%string
  /\ exists p,
       preprocess Examples.tenRows "y" ["x"%string] 0.8 = Ok p /\
       trainModel Reference.libraries Examples.tenRows "y" ["x"%string] "svm"
         0.8 noHyperparameters
       = Ok {| modelType := "svm";
               metrics := nanMetrics;
               predictions := [];
               actualValues := y_test p |}.
Proof.
  assert (H1 : "svm"%string <> "linear-regression"%string) by discriminate.
  assert (H2 : "svm"%string <> "random-forest"%string) by discriminate.
  assert (H3 : "svm"%string <> "neural-network"%string) by discriminate.
  split; [exact H1|]. split; [exact H2|]. split; [exact H3|].
  exact (unrecognized_modelType_is_not_rejected Reference.libraries
           Examples.tenRows "y" ["x"%string] "svm" 0.8 noHyperparameters
           H1 H2 H3).
Defined.

Lemma unrecognized_modelType_counterexample :
  trainModel Reference.libraries Examples.tenRows "y" ["x"%string] "svm" 0.8
    noHyperparameters
  = Ok {| modelType := "svm";
          metrics := nanMetrics;
          predictions := [];
          actualValues := [9; 10] |}
  /\ trainModel Reference.libraries Examples.tenRows "y" ["x"%string] "svm" 0.8
       noHyperparameters <> Throw ConfigurationError.
Proof.
  assert (H : trainModel Reference.libraries Examples.tenRows "y" ["x"%string]
                "svm" 0.8 noHyperparameters
              = Ok {| modelType := "svm";
                      metrics := nanMetrics;
                      predictions := [];
                      actualValues := [9; 10] |})
    by (vm_compute; reflexivity).
  split; [exact H|]. rewrite H. discriminate.
Qed.

(** ** C6 *)

(** The target is twice feature [a]: with [a] first the held-out row is
    predicted exactly, with [b] first it is not, whatever follows. *)
Lemma linear_backend_witness :
  trainModel Reference.libraries Examples.twoFeatures "y"
    ["a"%string; "b"%string] "linear-regression" 0.8 noHyperparameters
  = Ok {| modelType := "linear-regression";
          metrics := {| mse := 0; rmse := 0; r2 := nan; mae := 0 |};
          predictions := [10];
          actualValues := [10] |}
  /\ trainModel Reference.libraries Examples.twoFeatures "y"
       ["b"%string; "a"%string] "linear-regression" 0.8 noHyperparameters
     = Ok {| modelType := "linear-regression";
             metrics := {| mse := 25; rmse := 5; r2 := 0; mae := 5 |};
             predictions := [5];
             actualValues := [10] |}
  /\ trainModel Reference.libraries Examples.twoFeatures "y"
       ["a"%string; "b"%string] "linear-regression" 0.8 noHyperparameters
     = trainModel Reference.libraries Examples.twoFeatures "y" ["a"%string]
         "linear-regression" 0.8 noHyperparameters.
Proof.
  split; [|split].
  - rewrite (proj1 (linear_backend_reads_first_feature_only Reference.libraries
                      Examples.twoFeatures "y" "a" 0.8 noHyperparameters)
               ["b"%string]).
    vm_compute. reflexivity.
  - rewrite (proj1 (linear_backend_reads_first_feature_only Reference.libraries
                      Examples.twoFeatures "y" "b" 0.8 noHyperparameters)
               ["a"%string]).
    vm_compute. reflexivity.
  - exact (proj2 (linear_backend_reads_first_feature_only Reference.libraries
                    Examples.twoFeatures "y" "a" 0.8 noHyperparameters)
             ["b"%string] []).
Defined.

(** ** C8 *)

Lemma constant_column_witness :
  (forall row, In row Examples.fives -> coerce (get row "x") = 5)
  /\ is_finite 5 = true
  /\ mean (targetVector Examples.fives "x") = 5
  /\ or_else (std (targetVector Examples.fives "x")) 1 = 1
  /\ y_normalized (targetVector Examples.fives "x")
     = map (fun _ => 0) Examples.fives
  /\ forall features c Xn,
       nth_error features c = Some "x"%string ->
       X_normalized (featureMatrix Examples.fives features) = Ok Xn ->
       forall row, In row Xn -> nth_error row c = Some 0.
Proof.
  assert (H1 : forall row, In row Examples.fives -> coerce (get row "x") = 5).
  { intros row [<-|[<-|[<-|[]]]]; vm_compute; reflexivity. }
  assert (H2 : is_finite 5 = true) by reflexivity.
  assert (H3 : mean (targetVector Examples.fives "x") = 5)
    by (vm_compute; reflexivity).
  split; [exact H1|]. split; [exact H2|]. split; [exact H3|].
  exact (constant_column_normalizes_to_zero Examples.fives "x" 5 H1 H2 H3).
Defined.

Lemma constant_column_counterexample :
  (forall row, In row Examples.tenths -> coerce (get row "x") = 0.1)
  /\ mean (targetVector Examples.tenths "x") = 0.10000000000000002
  /\ std (targetVector Examples.tenths "x") = 1.3877787807814457e-17
  /\ or_else (std (targetVector Examples.tenths "x")) 1 <> 1
  /\ X_normalized (featureMatrix Examples.tenths ["x"%string])
     = Ok [[-1]; [-1]; [-1]]
  /\ -1 <> 0
  /\ (forall row, In row Examples.infinities -> coerce (get row "x") = infinity)
  /\ or_else (std (targetVector Examples.infinities "x")) 1 = 1
  /\ X_normalized (featureMatrix Examples.infinities ["x"%string])
     = Ok [[nan]; [nan]; [nan]].
Proof.
  split; [intros row [<-|[<-|[<-|[]]]]; vm_compute; reflexivity|].
  split; [vm_compute; reflexivity|]. split; [vm_compute; reflexivity|].
  split.
  { intros H. apply (f_equal (fun x => x =? 1)) in H. vm_compute in H.
    discriminate H. }
  split; [vm_compute; reflexivity|]. split.
  { intros H. apply (f_equal (fun x => x =? 0)) in H. vm_compute in H.
    discriminate H. }
  split; [intros row [<-|[<-|[<-|[]]]]; vm_compute; reflexivity|].
  split; vm_compute; reflexivity.
Qed.

(** ** C9 *)

Lemma splitRatio_one_witness :
  Examples.tenRows <> []
  /\ (Z.of_nat (length Examples.tenRows) < 2 ^ 32)%Z
  /\ (exists p,
        preprocess Examples.tenRows "y" ["x"%string] 1 = Ok p
        /\ length (X_train p) = 10%nat /\ X_test p = [] /\ y_test p = [])
  /\ trainModel Reference.libraries Examples.tenRows "y" ["x"%string]
       "linear-regression" 1 noHyperparameters
     = Ok {| modelType := "linear-regression";
             metrics := nanMetrics;
             predictions := [];
             actualValues := [] |}
  /\ trainModel Reference.libraries Examples.tenRows "y" ["x"%string]
       "svm" 1 noHyperparameters
     = Ok {| modelType := "svm";
             metrics := nanMetrics;
             predictions := [];
             actualValues := [] |}.
Proof.
  assert (H1 : Examples.tenRows <> []) by discriminate.
  assert (H2 : (Z.of_nat (length Examples.tenRows) < 2 ^ 32)%Z)
    by (vm_compute; reflexivity).
  split; [exact H1|]. split; [exact H2|].
  destruct (splitRatio_one_leaves_no_test_rows Reference.libraries
              Examples.tenRows "y" ["x"%string] noHyperparameters H1 H2)
    as (Xn & _ & Hlen & Hp & Hlinear & _ & _ & Hother).
  split; [|split].
  - eexists. split; [exact Hp|]. split; [exact Hlen|]. split; reflexivity.
  - rewrite Hlinear. reflexivity.
  - apply Hother; discriminate.
Defined.

(** The network fails on the empty test partition: the same call that
    returns a result at ratio [0.8] raises at ratio [1]. *)
Lemma splitRatio_one_counterexample :
  (exists result,
     trainModel Reference.tensorLibraries Examples.tenRows "y" ["x"%string]
       "neural-network" 0.8 noHyperparameters = Ok result
     /\ predictions result = [5.5; 5.5]
     /\ actualValues result = [9; 10])
  /\ trainModel Reference.tensorLibraries Examples.tenRows "y" ["x"%string]
       "neural-network" 1 noHyperparameters
     = Throw (LibraryError "tensor2d() requires shape to be provided")
  /\ forall result,
       trainModel Reference.tensorLibraries Examples.tenRows "y" ["x"%string]
         "neural-network" 1 noHyperparameters <> Ok result.
Proof.
  assert (H : trainModel Reference.tensorLibraries Examples.tenRows "y"
                ["x"%string] "neural-network" 1 noHyperparameters
              = Throw (LibraryError "tensor2d() requires shape to be provided"))
    by (vm_compute; reflexivity).
  split; [eexists; split; [vm_compute; reflexivity|split; reflexivity]|].
  split; [exact H|]. intros result. rewrite H. discriminate.
Qed.

Example splitRatio_one_on_ten_rows :
  trainModel Reference.libraries Examples.tenRows "y" ["x"%string]
    "linear-regression" 1 noHyperparameters
  = Ok {| modelType := "linear-regression";
          metrics := nanMetrics;
          predictions := [];
          actualValues := [] |}.
Proof. vm_compute. reflexivity. Qed.

(** ** C10 *)

Lemma constant_column_correlation_witness :
  nth_error (hd [] [[5; 1]; [5; 2]; [5; 3]]) 0 = Some 5
  /\ (exactConstant (column [[5; 1]; [5; 2]; [5; 3]] 0) 5
      \/ exactConstant [1; 2; 4] 5)
  /\ exists correlations importance,
       Ai.featureCorrelations [[5; 1]; [5; 2]; [5; 3]] [1; 2; 4]
       = Ok correlations /\
       nth_error correlations 0 = Some nan /\
       Ai.mean (Ai.summarize correlations) = nan /\
       Ai.calculateFeatureImportance [[5; 1]; [5; 2]; [5; 3]] [1; 2; 4]
       = Ok importance /\
       nth_error importance 0 = Some nan.
Proof.
  assert (H1 : nth_error (hd [] [[5; 1]; [5; 2]; [5; 3]]) 0 = Some 5)
    by reflexivity.
  assert (H2 : exactConstant (column [[5; 1]; [5; 2]; [5; 3]] 0) 5
               \/ exactConstant [1; 2; 4] 5).
  { left. split.
    - intros a [<-|[<-|[<-|[]]]]; reflexivity.
    - vm_compute. reflexivity. }
  split; [exact H1|]. split; [exact H2|].
  exact (constant_column_correlation_is_nan [[5; 1]; [5; 2]; [5; 3]] [1; 2; 4]
           0 5 5 H1 H2).
Defined.

Lemma constant_column_correlation_counterexample :
  (forall a, In a (column [[0.1]; [0.1]; [0.1]] 0) -> a = 0.1)
  /\ Ai.pearsonCorrelation (column [[0.1]; [0.1]; [0.1]] 0) [1; 2; 3] = 0
  /\ Ai.calculateFeatureImportance [[0.1]; [0.1]; [0.1]] [1; 2; 3] = Ok [0]
  /\ 0 <> nan.
Proof.
  split; [intros a [<-|[<-|[<-|[]]]]; reflexivity|].
  split; [vm_compute; reflexivity|]. split; [vm_compute; reflexivity|].
  intros H. apply (f_equal is_nan) in H. discriminate H.
Qed.

(** The run of the advisor on the three rows whose feature is [0.1]: the
    correlations are taken over the binary32 values of the tensor, where the
    mean of the column is exact, the importance over the binary64 values,
    where it is not. *)
Example advisor_on_tenths :
  Ai.calculateCorrelations Reference.tensorflow
    (map (map Reference.fround) [[0.1]; [0.1]; [0.1]]) [1; 2; 3]
  = Ok {| Ai.mean := nan; Ai.max := nan |}
  /\ exists suggestion,
       Ai.getModelSuggestions Reference.tensorflow Examples.tenths
         ["x"%string] "y" = Ok suggestion
       /\ Ai.suggestedFeatures suggestion = ["x"%string].
Proof.
  split; [vm_compute; reflexivity|].
  eexists. split; [vm_compute; reflexivity|]. reflexivity.
Qed.

(** * The engine: metrics, failures and hyperparameters *)

(** ** Values with a clear sign bit *)

Lemma binary_round_aux_unsigned (m e : Z) (l : location) :
  SFunsigned (binary_round_aux prec emax false m e l).
Proof.
  unfold binary_round_aux.
  destruct (shr_fexp prec emax m e l) as [mrs' e'].
  destruct (shr_fexp prec emax _ e' loc_Exact) as [mrs'' e''].
  destruct (shr_m mrs''); simpl; auto.
  destruct (_ <=? _)%Z; simpl; reflexivity.
Qed.

Lemma binary_normalize_unsigned (z e : Z) :
  (0 <= z)%Z -> SFunsigned (binary_normalize prec emax z e false).
Proof.
  intros H. destruct z as [|p|p]; simpl; auto; try lia.
  unfold binary_round.
  destruct (shl_align p e _) as [mz ez]. apply binary_round_aux_unsigned.
Qed.

Lemma of_length_unsigned (n : nat) : SFunsigned (Prim2SF (of_length n)).
Proof.
  unfold of_length. rewrite of_uint63_spec. apply binary_normalize_unsigned.
  apply Uint63.to_Z_bounded.
Qed.

Lemma SFadd_unsigned (x y : spec_float) :
  SFunsigned x -> SFunsigned y -> SFunsigned (SFadd prec emax x y).
Proof.
  destruct x as [s|s| |s m e]; destruct y as [s'|s'| |s' m' e'];
    cbn [SFunsigned]; intros; subst; cbn [SFadd SFunsigned]; auto.
  apply binary_normalize_unsigned. cbn [cond_Zopp]. lia.
Qed.

Lemma SFsquare_unsigned (x : spec_float) : SFunsigned (SFmul prec emax x x).
Proof.
  destruct x as [[|]|[|]| |[|] m e]; cbn [SFmul xorb SFunsigned]; auto;
    apply binary_round_aux_unsigned.
Qed.

Lemma SFdiv_unsigned (x y : spec_float) :
  SFunsigned x -> SFunsigned y -> SFunsigned (SFdiv prec emax x y).
Proof.
  destruct x as [s|s| |s m e]; destruct y as [s'|s'| |s' m' e'];
    cbn [SFunsigned]; intros; subst; cbn [SFdiv xorb SFunsigned]; auto.
  destruct (SFdiv_core_binary prec emax (Zpos m) e (Zpos m') e') as [[mz ez] lz].
  apply binary_round_aux_unsigned.
Qed.

Lemma SFsqrt_unsigned (x : spec_float) :
  SFunsigned x -> SFunsigned (SFsqrt prec emax x).
Proof.
  destruct x as [s|s| |s m e]; cbn [SFunsigned]; intros; subst;
    cbn [SFsqrt SFunsigned]; auto.
  destruct (SFsqrt_core_binary prec emax (Zpos m) e) as [[mz ez] lz].
  apply binary_round_aux_unsigned.
Qed.

Lemma SFabs_unsigned (x : spec_float) : SFunsigned (SFabs x).
Proof. destruct x; simpl; auto. Qed.

(** A value with a clear sign bit is NaN or not below zero. *)
Lemma unsigned_nan_or_nonneg (x : float) :
  SFunsigned (Prim2SF x) -> x = nan \/ (0 <=? x) = true.
Proof.
  intros H. rewrite leb_spec, SF_zero.
  destruct (Prim2SF x) as [s|s| |s m e] eqn:E; cbn [SFunsigned] in H; subst;
    try (right; reflexivity).
  left. apply Prim2SF_inj. rewrite E, SF_nan. reflexivity.
Qed.

Lemma fold_add_unsigned {A} (g : A -> float) (l : list A) (acc : float) :
  SFunsigned (Prim2SF acc) -> (forall v, SFunsigned (Prim2SF (g v))) ->
  SFunsigned (Prim2SF (fold_left (fun sum v => sum + g v) l acc)).
Proof.
  intros Hacc Hg. revert acc Hacc.
  induction l as [|v l IH]; intros acc Hacc; cbn [fold_left]; [exact Hacc|].
  apply IH. rewrite add_spec. apply SFadd_unsigned; auto.
Qed.

Lemma reduce_add_unsigned {A} (g : A -> nat -> float) (l : list A) (i : nat)
  (acc : float) :
  SFunsigned (Prim2SF acc) -> (forall v j, SFunsigned (Prim2SF (g v j))) ->
  SFunsigned (Prim2SF (reduce_from (fun sum v i => sum + g v i) i l acc)).
Proof.
  intros Hacc Hg. revert i acc Hacc.
  induction l as [|v l IH]; intros i acc Hacc; cbn [reduce_from]; [exact Hacc|].
  apply IH. rewrite add_spec. apply SFadd_unsigned; auto.
Qed.

Lemma square_unsigned (x : float) : SFunsigned (Prim2SF (Math_pow2 x)).
Proof. unfold Math_pow2. rewrite mul_spec. apply SFsquare_unsigned. Qed.

Lemma abs_unsigned (x : float) : SFunsigned (Prim2SF (abs x)).
Proof. rewrite abs_spec. apply SFabs_unsigned. Qed.

Lemma div_length_unsigned (x : float) (n : nat) :
  SFunsigned (Prim2SF x) -> SFunsigned (Prim2SF (x / of_length n)).
Proof.
  intros H. rewrite div_spec. apply SFdiv_unsigned; [exact H|].
  apply of_length_unsigned.
Qed.

Lemma sqrt_unsigned (x : float) :
  SFunsigned (Prim2SF x) -> SFunsigned (Prim2SF (sqrt x)).
Proof. intros H. rewrite sqrt_spec. apply SFsqrt_unsigned, H. Qed.

(** ** The error metrics *)

(** X1.  The three error metrics of [calculateMetrics] are never negative:
    whatever the two arrays hold, [mse], [rmse] and [mae] are each NaN or at
    least zero. *)
Theorem error_metrics_are_never_negative (actual predicted : list float) :
  let m := calculateMetrics actual predicted in
  (mse m = nan \/ (0 <=? mse m) = true)
  /\ (rmse m = nan \/ (0 <=? rmse m) = true)
  /\ (mae m = nan \/ (0 <=? mae m) = true).
Proof.
  cbv zeta. unfold calculateMetrics. cbn [mse rmse mae].
  assert (Hmse : SFunsigned (Prim2SF (sumSquaredError actual predicted
                                      / of_length (length actual)))).
  { apply div_length_unsigned. unfold sumSquaredError, reducei.
    apply (reduce_add_unsigned
             (fun val i => Math_pow2 (val - toNumber (nth_error predicted i)))).
    - rewrite SF_zero. reflexivity.
    - intros. apply square_unsigned. }
  repeat split; apply unsigned_nan_or_nonneg.
  - exact Hmse.
  - apply sqrt_unsigned, Hmse.
  - apply div_length_unsigned. unfold reducei.
    apply (reduce_add_unsigned
             (fun val i => abs (val - toNumber (nth_error predicted i)))).
    + rewrite SF_zero. reflexivity.
    + intros. apply abs_unsigned.
Qed.

Lemma reduce_from_ext {A B} (f f' : B -> A -> nat -> B) (l : list A) :
  forall (i : nat) (acc : B),
  (forall a v j, (i <= j < i + length l)%nat -> f a v j = f' a v j) ->
  reduce_from f i l acc = reduce_from f' i l acc.
Proof.
  induction l as [|v l IH]; intros i acc H; cbn [reduce_from]; [reflexivity|].
  rewrite (H acc v i) by (cbn [length]; lia).
  apply IH. intros a w j Hj. apply H. cbn [length]. lia.
Qed.

Lemma nth_error_firstn_below {A} (l : list A) (n j : nat) :
  (j < n)%nat -> nth_error (firstn n l) j = nth_error l j.
Proof.
  revert n j. induction l as [|x l IH]; intros [|n] [|j] H; cbn;
    try reflexivity; try lia.
  apply IH. lia.
Qed.

Lemma min_nan_r (x : float) : Math_min x nan = nan.
Proof. unfold Math_min. change (is_nan nan) with true. rewrite orb_true_r. reflexivity. Qed.

Lemma max_nan_r (x : float) : Math_max x nan = nan.
Proof. unfold Math_max. change (is_nan nan) with true. rewrite orb_true_r. reflexivity. Qed.

Lemma sqrt_nan : sqrt nan = nan.
Proof. reflexivity. Qed.

(** X2.  When there are fewer predictions than actual values, the missing
    [predicted[i]] read as [undefined] and all four metrics are NaN. *)
Theorem too_few_predictions_give_nan_metrics (actual predicted : list float) :
  (length predicted < length actual)%nat ->
  calculateMetrics actual predicted = nanMetrics.
Proof.
  intros Hlen.
  destruct (nth_error actual (length predicted)) as [v|] eqn:Hv;
    [|apply nth_error_None in Hv; lia].
  assert (Hnone : nth_error predicted (length predicted) = None)
    by (apply nth_error_None; lia).
  assert (Hsq : sumSquaredError actual predicted = nan).
  { unfold sumSquaredError, reducei.
    apply (reduce_add_nan_at
             (fun val i => Math_pow2 (val - toNumber (nth_error predicted i)))
             actual 0 (length predicted) v 0 Hv).
    cbn [Nat.add]. rewrite Hnone. cbn [toNumber]. rewrite sub_nan_r.
    reflexivity. }
  assert (Habs : reducei (fun sum val i =>
                            sum + abs (val - toNumber (nth_error predicted i)))
                   actual 0 = nan).
  { unfold reducei.
    apply (reduce_add_nan_at
             (fun val i => abs (val - toNumber (nth_error predicted i)))
             actual 0 (length predicted) v 0 Hv).
    cbn [Nat.add]. rewrite Hnone. cbn [toNumber]. rewrite sub_nan_r.
    reflexivity. }
  unfold calculateMetrics, nanMetrics, ssResidual.
  rewrite Hsq, Habs, !div_nan_l, sub_nan_r, min_nan_r, max_nan_r.
  reflexivity.
Qed.

(** X3.  [calculateMetrics] reads [predicted] only at the indices of
    [actual]: predictions beyond the last actual value change no metric. *)
Theorem surplus_predictions_are_ignored (actual predicted : list float) :
  calculateMetrics actual (firstn (length actual) predicted)
  = calculateMetrics actual predicted.
Proof.
  assert (H : forall h : float -> float,
             reducei (fun sum val i =>
                        sum + h (val - toNumber
                                   (nth_error (firstn (length actual) predicted) i)))
               actual 0
             = reducei (fun sum val i =>
                          sum + h (val - toNumber (nth_error predicted i)))
                 actual 0).
  { intros h. unfold reducei. apply reduce_from_ext. intros a v j Hj.
    rewrite nth_error_firstn_below by lia. reflexivity. }
  unfold calculateMetrics, ssResidual, sumSquaredError.
  rewrite (H Math_pow2), (H abs). reflexivity.
Qed.

(** ** What [trainModel] returns and how it fails *)

Lemma mapM_length {A B} (f : A -> outcome B) (l : list A) (ys : list B) :
  mapM f l = Ok ys -> length ys = length l.
Proof.
  revert ys. induction l as [|x l IH]; intros ys; cbn [mapM].
  - intros [= <-]. reflexivity.
  - destruct (f x) as [y|e]; [|discriminate]. cbn [bind].
    destruct (mapM f l) as [ys'|e]; [|discriminate]. cbn [bind].
    intros [= <-]. cbn [length]. f_equal. apply IH. reflexivity.
Qed.

Lemma preprocess_test_lengths data target features ratio p :
  preprocess data target features ratio = Ok p ->
  length (X_test p) = length (y_test p).
Proof.
  unfold preprocess.
  destruct (X_normalized (featureMatrix data features)) as [Xn|e] eqn:HX;
    [|discriminate].
  cbn [bind]. intros [= <-]. cbn [X_test y_test].
  rewrite !slice_suffix, !length_skipn.
  rewrite (X_normalized_ok _ _ HX), !length_map.
  rewrite length_featureMatrix, length_targetVector. reflexivity.
Qed.

Section EngineBehaviour.

Variable lib : Libraries.

(** X4.  A result of the linear-regression backend carries exactly one
    prediction for each held-out row. *)
Theorem linear_regression_predicts_every_test_row (data : list Row)
  (target : string) (features : list string) (splitRatio : float)
  (hyperparameters : Hyperparameters) (result : TrainingResult) :
  trainModel lib data target features "linear-regression" splitRatio
    hyperparameters = Ok result ->
  length (predictions result) = length (actualValues result).
Proof.
  unfold trainModel.
  destruct (preprocess data target features splitRatio) as [p|e] eqn:Hp;
    [|discriminate].
  cbn [bind].
  destruct (runBackend lib "linear-regression" features hyperparameters p)
    as [ps|e] eqn:Hb; [|discriminate].
  cbn [bind]. intros [= <-]. cbn [predictions actualValues].
  rewrite <- (preprocess_test_lengths _ _ _ _ _ Hp).
  unfold runBackend in Hb. cbn [String.eqb Ascii.eqb Bool.eqb andb] in Hb.
  destruct (SimpleLinearRegression lib _ _) as [reg|msg]; [|discriminate Hb].
  cbn [call bind] in Hb. apply mapM_length in Hb. exact Hb.
Qed.

(** X5.  [trainModel] fails in two ways only: with the native [TypeError]
    when there are no rows, and with the error of a third-party library
    otherwise. *)
Theorem trainModel_failures (data : list Row) (target : string)
  (features : list string) (modelType : string) (splitRatio : float)
  (hyperparameters : Hyperparameters) (e : JsError) :
  trainModel lib data target features modelType splitRatio hyperparameters
  = Throw e ->
  match data with
  | [] => e = TypeError
  | _ :: _ => exists msg, e = LibraryError msg
  end.
Proof.
  unfold trainModel.
  destruct (preprocess data target features splitRatio) as [p|e'] eqn:Hp.
  - cbn [bind].
    destruct (runBackend lib modelType features hyperparameters p)
      as [ps|e'] eqn:Hb; [discriminate|].
    cbn [bind]. intros [= <-].
    destruct data as [|row data]; [discriminate Hp|].
    apply (runBackend_throws lib _ _ _ _ _ Hb).
  - cbn [bind]. intros [= <-].
    destruct (preprocess_throws _ _ _ _ _ Hp) as [-> ->]. reflexivity.
Qed.

End EngineBehaviour.

(** ** Hyperparameters and their fallbacks *)

Lemma or_default_omitFalsy (v : option float) (d : float) :
  or_default (omitFalsy v) d = or_default v d.
Proof.
  destruct v as [x|]; cbn [omitFalsy or_default]; [|reflexivity].
  unfold or_else. destruct (is_falsy x) eqn:H; cbn [or_default]; [reflexivity|].
  unfold or_else. rewrite H. reflexivity.
Qed.

Lemma forestOptions_withoutFalsy features hp :
  forestOptions features (withoutFalsy hp) = forestOptions features hp.
Proof.
  unfold forestOptions, withoutFalsy. cbn [numTrees treeDepth].
  rewrite !or_default_omitFalsy. reflexivity.
Qed.

Lemma network_withoutFalsy features hp :
  network features (withoutFalsy hp) = network features hp.
Proof.
  unfold network, withoutFalsy.
  cbn [hiddenLayers dropout learningRate epochs batchSize].
  rewrite !or_default_omitFalsy.
  destruct (dropout hp) as [rate|]; cbn [omitFalsy]; [|reflexivity].
  destruct (is_falsy rate) eqn:H; [reflexivity|]. rewrite H. reflexivity.
Qed.

Lemma slice_tail_short {A} (l : list A) :
  (length l <= 1)%nat -> slice l 1 None = [].
Proof.
  intros H. rewrite slice_suffix.
  destruct l as [|x [|y l]]; cbn [length] in *; try lia; reflexivity.
Qed.

Lemma network_single_layer features hp l d :
  hiddenLayers hp = Some l -> (length l <= 1)%nat ->
  network features (withDropout hp d) = network features hp.
Proof.
  intros Hl Hlen. unfold network, withDropout.
  cbn [hiddenLayers dropout learningRate epochs batchSize].
  rewrite Hl, (slice_tail_short l Hlen). reflexivity.
Qed.

Section HyperparameterFacts.

Variable lib : Libraries.

Lemma trainModel_same_options data target features modelType ratio hp hp' :
  forestOptions features hp = forestOptions features hp' ->
  network features hp = network features hp' ->
  trainModel lib data target features modelType ratio hp
  = trainModel lib data target features modelType ratio hp'.
Proof.
  intros Hf Hn. unfold trainModel, runBackend. rewrite Hf, Hn. reflexivity.
Qed.

(** X6.  A numeric hyperparameter given as [0], [-0] or NaN trains exactly as
    if it had been left out: [epochs], [batchSize], [learningRate],
    [dropout], [treeDepth] and [numTrees] all go through [||] or [if]. *)
Theorem falsy_hyperparameters_count_as_omitted (data : list Row)
  (target : string) (features : list string) (modelType : string)
  (splitRatio : float) (hyperparameters : Hyperparameters) :
  trainModel lib data target features modelType splitRatio
    (withoutFalsy hyperparameters)
  = trainModel lib data target features modelType splitRatio hyperparameters.
Proof.
  apply trainModel_same_options.
  - apply forestOptions_withoutFalsy.
  - apply network_withoutFalsy.
Qed.

(** X7.  Training with no hyperparameters at all is training with 50 epochs,
    batches of 32, learning rate 0.001, hidden layers [64, 32], no dropout,
    tree depth 10 and 100 trees. *)
Theorem omitted_hyperparameters_fall_back (data : list Row) (target : string)
  (features : list string) (modelType : string) (splitRatio : float) :
  trainModel lib data target features modelType splitRatio noHyperparameters
  = trainModel lib data target features modelType splitRatio
      fallbackHyperparameters.
Proof.
  apply trainModel_same_options; reflexivity.
Qed.

(** X8.  Dropout layers are only added after the second and later hidden
    layers: when [hiddenLayers] has at most one entry, the [dropout]
    hyperparameter has no effect on training. *)
Theorem dropout_needs_two_hidden_layers (data : list Row) (target : string)
  (features : list string) (modelType : string) (splitRatio : float)
  (hyperparameters : Hyperparameters) (units : list float)
  (rate : option float) :
  hiddenLayers hyperparameters = Some units ->
  (length units <= 1)%nat ->
  trainModel lib data target features modelType splitRatio
    (withDropout hyperparameters rate)
  = trainModel lib data target features modelType splitRatio hyperparameters.
Proof.
  intros Hl Hlen. apply trainModel_same_options.
  - reflexivity.
  - apply (network_single_layer features hyperparameters units rate Hl Hlen).
Qed.

(** X28.  Each backend reads its own hyperparameters only.  The linear
    regression reads none, not even the learning rate the page lists for it;
    the random forest reads [numTrees] and [treeDepth]; the network reads
    [epochs], [batchSize], [learningRate], [hiddenLayers] and [dropout]. *)
Theorem backends_read_their_own_hyperparameters (data : list Row)
  (target : string) (features : list string) (splitRatio : float)
  (hp hp' : Hyperparameters) :
  trainModel lib data target features "linear-regression" splitRatio hp
  = trainModel lib data target features "linear-regression" splitRatio hp'
  /\ (numTrees hp = numTrees hp' -> treeDepth hp = treeDepth hp' ->
      trainModel lib data target features "random-forest" splitRatio hp
      = trainModel lib data target features "random-forest" splitRatio hp')
  /\ (epochs hp = epochs hp' -> batchSize hp = batchSize hp' ->
      learningRate hp = learningRate hp' ->
      hiddenLayers hp = hiddenLayers hp' -> dropout hp = dropout hp' ->
      trainModel lib data target features "neural-network" splitRatio hp
      = trainModel lib data target features "neural-network" splitRatio hp').
Proof.
  split; [reflexivity|]. split.
  - intros H1 H2. unfold trainModel, runBackend, forestOptions.
    rewrite H1, H2. reflexivity.
  - intros H1 H2 H3 H4 H5. unfold trainModel, runBackend, network.
    rewrite H1, H2, H3, H4, H5. reflexivity.
Qed.

End HyperparameterFacts.

(** ** A target without spread *)

Lemma SFeqb_refl_finite (x : spec_float) :
  match x with S754_zero _ | S754_finite _ _ _ => True | _ => False end ->
  SFeqb x x = true.
Proof.
  destruct x as [s|s| |s m e]; intros H; try contradiction; [reflexivity|].
  unfold SFeqb. cbn [SFcompare]. rewrite Z.compare_refl.
  change (Pos.compare_cont Eq m m) with (Pos.compare m m).
  rewrite Pos.compare_refl. destruct s; reflexivity.
Qed.

(** [pred * 0 + v] is [v], up to the sign of zero, when [pred] is finite and
    NaN otherwise. *)
Lemma rescale_without_spread (pred v : float) :
  is_finite v = true ->
  pred * 0 + v = nan \/ (pred * 0 + v =? v) = true.
Proof.
  intros Hv. rewrite is_finite_SF in Hv.
  destruct (Prim2SF pred) as [s|s| |s m e] eqn:Ep.
  - right. rewrite eqb_spec, add_spec, mul_spec, Ep, SF_zero.
    unfold SF64add, SF64mul. cbn [SFmul].
    destruct (Prim2SF v) as [s'|s'| |s' m' e']; try discriminate.
    + destruct s, s'; reflexivity.
    + cbn [SFadd]. apply SFeqb_refl_finite. exact I.
  - left. apply Prim2SF_inj.
    rewrite add_spec, mul_spec, Ep, SF_zero, SF_nan. reflexivity.
  - left. apply Prim2SF_inj.
    rewrite add_spec, mul_spec, Ep, SF_zero, SF_nan. reflexivity.
  - right. rewrite eqb_spec, add_spec, mul_spec, Ep, SF_zero.
    unfold SF64add, SF64mul. cbn [SFmul].
    destruct (Prim2SF v) as [s'|s'| |s' m' e']; try discriminate.
    + destruct s, s'; reflexivity.
    + cbn [SFadd]. apply SFeqb_refl_finite. exact I.
Qed.

Lemma mapM_Forall {A B} (P : B -> Prop) (f : A -> outcome B) (l : list A)
  (ys : list B) :
  (forall x y, f x = Ok y -> P y) -> mapM f l = Ok ys -> Forall P ys.
Proof.
  intros Hf. revert ys. induction l as [|x l IH]; intros ys; cbn [mapM].
  - intros [= <-]. constructor.
  - destruct (f x) as [y|e] eqn:Hy; [|discriminate]. cbn [bind].
    destruct (mapM f l) as [ys'|e]; [|discriminate]. cbn [bind].
    intros [= <-]. constructor; [apply (Hf x y Hy)|apply IH; reflexivity].
Qed.

Lemma preprocess_statistics data target features ratio p :
  preprocess data target features ratio = Ok p ->
  y_mean p = mean (targetVector data target)
  /\ y_std p = std (targetVector data target).
Proof.
  unfold preprocess.
  destruct (X_normalized (featureMatrix data features)) as [Xn|e];
    [|discriminate].
  cbn [bind]. intros [= <-]. split; reflexivity.
Qed.

Section ConstantTarget.

Variable lib : Libraries.

(** X19.  Predictions are mapped back with [pred * y_std + y_mean].  When the
    computed standard deviation of the target is 0 (a constant target such
    as 5, 5, 5) the output of the model is multiplied away: every prediction
    of every backend is NaN or equal to the mean of the target. *)
Theorem constant_target_overrides_the_model (data : list Row)
  (target : string) (features : list string) (modelType : string)
  (splitRatio : float) (hyperparameters : Hyperparameters)
  (result : TrainingResult) :
  trainModel lib data target features modelType splitRatio hyperparameters
  = Ok result ->
  std (targetVector data target) = 0 ->
  is_finite (mean (targetVector data target)) = true ->
  Forall (fun prediction =>
            prediction = nan
            \/ (prediction =? mean (targetVector data target)) = true)
    (predictions result).
Proof.
  intros H Hstd Hmean. unfold trainModel in H.
  destruct (preprocess data target features splitRatio) as [p|e] eqn:Hp;
    [|discriminate].
  cbn [bind] in H.
  destruct (preprocess_statistics _ _ _ _ _ Hp) as [Em Es].
  destruct (runBackend lib modelType features hyperparameters p)
    as [ps|e] eqn:Hb; [|discriminate].
  cbn [bind] in H. injection H as <-. cbn [predictions].
  unfold runBackend in Hb. rewrite Em, Es, Hstd in Hb.
  destruct (String.eqb modelType "linear-regression").
  { destruct (SimpleLinearRegression lib _ _) as [reg|msg]; [|discriminate Hb].
    cbn [call bind] in Hb. revert Hb. apply mapM_Forall. intros x y.
    destruct (predict lib reg _) as [pred|msg]; [|discriminate].
    cbn [call bind]. intros [= <-]. apply rescale_without_spread, Hmean. }
  destruct (String.eqb modelType "random-forest").
  { destruct (RFRegression_train lib _ _ _) as [rf|msg]; [|discriminate Hb].
    cbn [call bind] in Hb.
    destruct (RFRegression_predict lib rf _) as [preds|msg]; [|discriminate Hb].
    cbn [call bind] in Hb. injection Hb as <-.
    apply Forall_map, Forall_forall. intros pred _.
    apply rescale_without_spread, Hmean. }
  destruct (String.eqb modelType "neural-network").
  { destruct (tf_fit_predict lib _ _ _ _) as [preds|msg]; [|discriminate Hb].
    cbn [call bind] in Hb. injection Hb as <-.
    apply Forall_map, Forall_forall. intros pred _.
    apply rescale_without_spread, Hmean. }
  injection Hb as <-. constructor.
Qed.

End ConstantTarget.

(** ** Columns of one integer, and columns that are not there *)

Lemma is_finite_integer (z : Z) :
  (Z.abs z < 2 ^ 53)%Z -> is_finite (number_of_Z z) = true.
Proof.
  intros H. rewrite is_finite_SF, number_of_Z_spec, binary_normalize_integer
    by exact H.
  destruct z; reflexivity.
Qed.

Lemma mean_of_integer_column (data : list Row) (col : string) (z : Z) :
  data <> [] ->
  (forall row, In row data -> coerce (get row col) = number_of_Z z) ->
  (Z.of_nat (length data) * Z.abs z < 2 ^ 53)%Z ->
  (Z.of_nat (length data) < 2 ^ 53)%Z ->
  mean (targetVector data col) = number_of_Z z.
Proof.
  intros Hne Hcells Hb Hlen.
  assert (H : exactConstant (targetVector data col) (number_of_Z z)).
  { apply exactConstant_integers.
    - destruct data; [congruence|discriminate].
    - unfold targetVector. intros a Ha. apply in_map_iff in Ha.
      destruct Ha as (row & <- & Hrow). apply Hcells, Hrow.
    - rewrite length_targetVector. exact Hb.
    - rewrite length_targetVector. exact Hlen. }
  exact (proj2 H).
Qed.

(** X25.  A column whose cells all coerce to one integer [z] (for instance
    a key that no record has, or cells that do not parse, which coerce to
    0) normalizes to 0 in every row, as a target and as a feature, as long
    as the sum of the column stays below 2^53: its mean is exact, its
    deviation is 0 and the divisor falls back to 1. *)
Theorem integer_column_normalizes_to_zero (data : list Row) (col : string)
  (z : Z) :
  data <> [] ->
  (forall row, In row data -> coerce (get row col) = number_of_Z z) ->
  (Z.of_nat (length data) * Z.abs z < 2 ^ 53)%Z ->
  (Z.of_nat (length data) < 2 ^ 32)%Z ->
  mean (targetVector data col) = number_of_Z z
  /\ or_else (std (targetVector data col)) 1 = 1
  /\ y_normalized (targetVector data col) = map (fun _ => 0) data
  /\ forall features c Xn,
       nth_error features c = Some col ->
       X_normalized (featureMatrix data features) = Ok Xn ->
       forall row, In row Xn -> nth_error row c = Some 0.
Proof.
  intros Hne Hcells Hb Hlen.
  assert (Hz : (Z.abs z < 2 ^ 53)%Z).
  { destruct data as [|row data]; [congruence|].
    cbn [length] in Hb. nia. }
  pose proof (is_finite_integer z Hz) as Hfin.
  pose proof (mean_of_integer_column data col z Hne Hcells Hb ltac:(lia))
    as Hmean.
  assert (Hall : forall a, In a (targetVector data col) -> a = number_of_Z z).
  { unfold targetVector. intros a Ha. apply in_map_iff in Ha.
    destruct Ha as (row & <- & Hrow). apply Hcells, Hrow. }
  pose proof (normalized_constant_cell _ _ Hall Hfin Hmean) as Hcell.
  split; [exact Hmean|]. split; [|split].
  - apply or_else_falsy. apply (std_constant_falsy _ _ Hall Hmean).
  - unfold y_normalized, targetVector at 3. rewrite map_map.
    apply map_ext_in. intros row Hrow. rewrite (Hcells row Hrow). exact Hcell.
  - intros features c Xn Hc HXn row' Hrow'.
    apply X_normalized_ok in HXn. subst Xn.
    apply in_map_iff in Hrow'. destruct Hrow' as (xr & <- & Hxr).
    unfold featureMatrix in Hxr. apply in_map_iff in Hxr.
    destruct Hxr as (row & <- & Hrow).
    unfold normalizeRow. rewrite nth_error_mapi, nth_error_map, Hc.
    cbn [option_map]. rewrite (Hcells row Hrow). f_equal.
    assert (Hhd : exists w,
               nth_error (hd [] (featureMatrix data features)) c = Some w).
    { destruct data as [|row0 rest]; [destruct Hrow|].
      cbn [featureMatrix map hd]. rewrite nth_error_map, Hc.
      cbn [option_map]. eauto. }
    destruct Hhd as [w Hw].
    unfold X_means, X_stds. rewrite !nth_error_mapi, Hw.
    cbn [option_map toNumber or_default].
    rewrite (column_featureMatrix data features c col Hc). exact Hcell.
Qed.

(** ** [mean] and [std] *)

(** X26.  [std] is never negative: it is NaN or at least 0 for any array.
    On an empty array [mean] and [std] are both NaN. *)
Theorem std_is_never_negative (arr : list float) :
  (std arr = nan \/ (0 <=? std arr) = true)
  /\ mean [] = nan /\ std [] = nan.
Proof.
  split; [|split; reflexivity].
  apply unsigned_nan_or_nonneg. unfold std. apply sqrt_unsigned.
  apply div_length_unsigned.
  apply (fold_add_unsigned (fun val => Math_pow2 (val - mean arr))).
  - rewrite SF_zero. reflexivity.
  - intros. apply square_unsigned.
Qed.

(** ** Perfect predictions *)







Section PerfectPredictions.

Variable lib : Libraries.



End PerfectPredictions.



(** * The advisor: decision, ranking and analysis *)

Lemma abs_nan : abs nan = nan.
Proof. reflexivity. Qed.

Section AdvisorBehaviour.

Variable tf : Ai.TensorFlow.

Lemma checkNonLinearity_nan (X : Ai.Tensor2D tf) (y : Ai.Tensor1D tf)
  (L : Ai.Tensor2D tf) (nonLinearity : float) :
  Ai.dot tf X (Ai.transpose tf X) = Returns L ->
  (length (Ai.array1 tf y) < length (concat (Ai.array2 tf L)))%nat ->
  Ai.checkNonLinearity tf X y = Ok nonLinearity ->
  nonLinearity = nan.
Proof.
  intros HL Hlen. unfold Ai.checkNonLinearity. rewrite HL. cbn [call bind].
  destruct (Ai.dot tf (Ai.pow tf X 2) (Ai.transpose tf X)) as [S|msg];
    [|discriminate].
  cbn [call bind]. intros [= <-].
  rewrite (pearson_target_too_short _ _ Hlen), sub_nan_r. reflexivity.
Qed.

(** X9.  The non-linearity proxy correlates the flattened product of [X]
    with its transpose against [y]; whenever that product has more entries
    than [y] (in TensorFlow.js it has [n * n] for [n] rows), the proxy is NaN,
    every comparison on it fails, and the advisor picks by the number of
    features alone: neural-network above five features, random-forest
    otherwise, never linear-regression. *)
Theorem advisor_decides_by_feature_count (data : list Row)
  (features : list string) (target : string)
  (suggestion : Ai.AIModelSuggestion) :
  Ai.getModelSuggestions tf data features target = Ok suggestion ->
  (forall tensorX tensorY product,
     Ai.tensor2d tf
       (map (fun row => map (fun f => or_else (parseFloat (get row f)) 0)
                          features) data) = Returns tensorX ->
     Ai.tensor1d tf (map (fun row => or_else (parseFloat (get row target)) 0) data)
     = Returns tensorY ->
     Ai.dot tf tensorX (Ai.transpose tf tensorX) = Returns product ->
     (length (Ai.array1 tf tensorY)
      < length (concat (Ai.array2 tf product)))%nat) ->
  Ai.modelType suggestion
  = (if 5 <? of_length (length features)
     then "neural-network"%string else "random-forest"%string)
  /\ Ai.modelType suggestion <> "linear-regression"%string.
Proof.
  unfold Ai.getModelSuggestions. intros H Hshape.
  destruct (Ai.tensor2d tf _) as [tX|] eqn:HX; [|discriminate].
  cbn [call bind] in H.
  destruct (Ai.tensor1d tf _) as [tY|] eqn:HY; [|discriminate].
  cbn [call bind] in H.
  destruct (Ai.calculateCorrelations tf tX tY) as [cor|]; [|discriminate].
  cbn [bind] in H.
  destruct (Ai.checkNonLinearity tf tX tY) as [nl|] eqn:Hn; [|discriminate].
  cbn [bind] in H.
  assert (Hnan : nl = nan).
  { pose proof Hn as Hn'. unfold Ai.checkNonLinearity in Hn'.
    destruct (Ai.dot tf tX (Ai.transpose tf tX)) as [L|msg] eqn:HL;
      [|discriminate].
    apply (checkNonLinearity_nan tX tY L nl HL
             (Hshape tX tY L eq_refl eq_refl HL) Hn). }
  subst nl. unfold Ai.selectModel in H.
  change (nan <? 0.3) with false in H. change (0.7 <? nan) with false in H.
  cbn [andb] in H. rewrite orb_false_r in H.
  destruct (5 <? of_length (length features));
    destruct (Ai.calculateFeatureImportance _ _) as [imp|]; try discriminate;
    cbn [bind] in H; injection H as <-; cbn [Ai.modelType];
    (split; [reflexivity|discriminate]).
Qed.

(** X10.  Every suggestion names one of the three model types the engine's
    [switch] handles, with the confidence of that branch and hyperparameters
    of the matching shape: none for linear-regression, a batch size of 32 and
    two hidden layers for neural-network, depth and trees for
    random-forest. *)
Theorem suggestion_is_trainable (data : list Row) (features : list string)
  (target : string) (suggestion : Ai.AIModelSuggestion) :
  Ai.getModelSuggestions tf data features target = Ok suggestion ->
  (Ai.modelType suggestion = "linear-regression"%string
   /\ Ai.confidence suggestion = 0.8
   /\ Ai.hyperparameters suggestion = Ai.NoParameters)
  \/ (Ai.modelType suggestion = "neural-network"%string
      /\ Ai.confidence suggestion = 0.75
      /\ exists epochs rate units1 units2 dropout,
           Ai.hyperparameters suggestion
           = Ai.NetworkParameters epochs 32 rate [units1; units2] dropout
           /\ (rate = 0.001 /\ dropout = 0.3 \/ rate = 0.01 /\ dropout = 0.1))
  \/ (Ai.modelType suggestion = "random-forest"%string
      /\ Ai.confidence suggestion = 0.85
      /\ exists treeDepth numTrees,
           Ai.hyperparameters suggestion
           = Ai.ForestParameters treeDepth numTrees).
Proof.
  unfold Ai.getModelSuggestions. intros H.
  destruct (Ai.tensor2d tf _) as [tX|]; [|discriminate].
  cbn [call bind] in H.
  destruct (Ai.tensor1d tf _) as [tY|]; [|discriminate].
  cbn [call bind] in H.
  destruct (Ai.calculateCorrelations tf tX tY) as [cor|]; [|discriminate].
  cbn [bind] in H.
  destruct (Ai.checkNonLinearity tf tX tY) as [nl|]; [|discriminate].
  cbn [bind] in H. unfold Ai.selectModel in H.
  destruct ((nl <? 0.3) && (0.7 <? Ai.mean cor));
    [|destruct ((5 <? of_length (length features)) || (0.7 <? nl))];
    destruct (Ai.calculateFeatureImportance _ _) as [imp|]; try discriminate;
    cbn [bind] in H; injection H as <-;
    cbn [Ai.modelType Ai.confidence Ai.hyperparameters].
  - left. repeat split; reflexivity.
  - right. left. repeat split; try reflexivity.
    unfold Ai.getHyperparameters. cbn [String.eqb Ascii.eqb Bool.eqb andb].
    do 5 eexists. split; [reflexivity|].
    destruct (0.5 <? nl); [left|right]; split; reflexivity.
  - right. right. repeat split; try reflexivity.
    unfold Ai.getHyperparameters. cbn [String.eqb Ascii.eqb Bool.eqb andb].
    do 2 eexists. reflexivity.
Qed.

End AdvisorBehaviour.

(** ** The suggested features *)

Lemma insertSorted_permutation {A} (cmp : A -> A -> float) (x : A)
  (sorted : list A) :
  Permutation (Ai.insertSorted cmp x sorted) (x :: sorted).
Proof.
  induction sorted as [|y rest IH]; cbn [Ai.insertSorted]; [reflexivity|].
  destruct (0 <? cmp y x); [reflexivity|].
  rewrite IH. apply perm_swap.
Qed.

Lemma sort_permutation {A} (cmp : A -> A -> float) (arr : list A) :
  Permutation (Ai.sort cmp arr) arr.
Proof.
  unfold Ai.sort.
  assert (H : forall acc,
             Permutation
               (fold_left (fun sorted x => Ai.insertSorted cmp x sorted) arr acc)
               (arr ++ acc)).
  { induction arr as [|x arr IH]; intros acc; cbn [fold_left app];
      [reflexivity|].
    rewrite IH, insertSorted_permutation. symmetry. apply Permutation_middle. }
  rewrite H, app_nil_r. reflexivity.
Qed.

Lemma map_fst_map_from {A B} (g : nat -> B) (l : list A) (i : nat) :
  map fst (map_from (fun f i => (f, g i)) i l) = l.
Proof.
  revert i. induction l as [|x l IH]; intros i; cbn [map_from map fst];
    [reflexivity|].
  rewrite IH. reflexivity.
Qed.

Lemma relativeIndex_five (len : nat) : relativeIndex 5 len = Nat.min 5 len.
Proof.
  unfold relativeIndex. change (toIntegerOrInfinity 5) with (Int 5).
  cbv iota. change (5 <? 0)%Z with false. cbv iota. lia.
Qed.

Lemma rankFeatures_spec (features : list string) (importance : list float) :
  length (Ai.rankFeatures features importance) = Nat.min 5 (length features)
  /\ exists rest,
       Permutation (Ai.rankFeatures features importance ++ rest) features.
Proof.
  unfold Ai.rankFeatures.
  set (scored := mapi _ features).
  set (sorted := Ai.sort _ scored).
  assert (Hperm : Permutation sorted scored) by apply sort_permutation.
  assert (Hfst : map fst scored = features)
    by apply (map_fst_map_from (fun i => toNumber (nth_error importance i))).
  assert (Hlen : length sorted = length features).
  { rewrite (Permutation_length Hperm), <- Hfst, length_map. reflexivity. }
  rewrite slice_prefix, relativeIndex_five, Hlen. split.
  - rewrite length_map, length_firstn, Hlen. lia.
  - exists (map fst (skipn (Nat.min 5 (length features)) sorted)).
    rewrite <- map_app, firstn_skipn, <- Hfst.
    apply Permutation_map, Hperm.
Qed.

Section SuggestedFeatures.

Variable tf : Ai.TensorFlow.

(** X11.  The suggested features are a selection of the candidate features:
    five of them, or all when there are fewer, each taken once; what is
    left over completes them to a rearrangement of the candidates. *)
Theorem suggested_features_are_drawn_from_the_candidates (data : list Row)
  (features : list string) (target : string)
  (suggestion : Ai.AIModelSuggestion) :
  Ai.getModelSuggestions tf data features target = Ok suggestion ->
  length (Ai.suggestedFeatures suggestion) = Nat.min 5 (length features)
  /\ exists rest,
       Permutation (Ai.suggestedFeatures suggestion ++ rest) features.
Proof.
  unfold Ai.getModelSuggestions. intros H.
  destruct (Ai.tensor2d tf _) as [tX|]; [|discriminate].
  cbn [call bind] in H.
  destruct (Ai.tensor1d tf _) as [tY|]; [|discriminate].
  cbn [call bind] in H.
  destruct (Ai.calculateCorrelations tf tX tY) as [cor|]; [|discriminate].
  cbn [bind] in H.
  destruct (Ai.checkNonLinearity tf tX tY) as [nl|]; [|discriminate].
  cbn [bind] in H.
  destruct (Ai.selectModel nl (Ai.mean cor) (of_length (length features)))
    as [[mt conf] reason].
  destruct (Ai.calculateFeatureImportance _ _) as [imp|]; [|discriminate].
  cbn [bind] in H. injection H as <-. cbn [Ai.suggestedFeatures].
  apply rankFeatures_spec.
Qed.

End SuggestedFeatures.

(** ** Correlations *)

Lemma SFmul_comm (x y : spec_float) : SFmul prec emax x y = SFmul prec emax y x.
Proof.
  destruct x as [s|s| |s m e]; destruct y as [s'|s'| |s' m' e'];
    cbn [SFmul]; rewrite ?(xorb_comm s s'); try reflexivity.
  rewrite (Pos.mul_comm m m'), (Z.add_comm e e'). reflexivity.
Qed.

Lemma mul_comm (x y : float) : x * y = y * x.
Proof. apply Prim2SF_inj. rewrite !mul_spec. apply SFmul_comm. Qed.

Lemma nth_error_middle {A} (p l : list A) (v : A) (n : nat) :
  length p = n -> nth_error (p ++ v :: l) n = Some v.
Proof.
  intros <-. rewrite nth_error_app2, Nat.sub_diag by lia. reflexivity.
Qed.

Lemma covariance_comm (a b : float) (x y : list float) :
  forall (px py : list float) (acc : float),
  length px = length py -> length x = length y ->
  reduce_from
    (fun sum xi i => sum + (xi - a) * (toNumber (nth_error (py ++ y) i) - b))
    (length px) x acc
  = reduce_from
      (fun sum yi i => sum + (yi - b) * (toNumber (nth_error (px ++ x) i) - a))
      (length py) y acc.
Proof.
  revert y. induction x as [|xi x IH]; intros [|yi y] px py acc Hp Hl;
    try discriminate; cbn [reduce_from]; [reflexivity|].
  rewrite (nth_error_middle py y yi (length px)) by (symmetry; exact Hp).
  rewrite (nth_error_middle px x xi (length py)) by exact Hp.
  cbn [toNumber].
  rewrite (mul_comm (xi - a) (yi - b)).
  specialize (IH y (px ++ [xi]) (py ++ [yi]) (acc + (yi - b) * (xi - a))).
  rewrite !length_app, <- !app_assoc in IH. cbn [length app] in IH.
  rewrite !Nat.add_1_r in IH. apply IH.
  - rewrite Hp. reflexivity.
  - cbn [length] in Hl. lia.
Qed.

(** X12.  On two arrays of the same length [pearsonCorrelation] is
    symmetric, to the last bit. *)
Theorem pearsonCorrelation_is_symmetric (x y : list float) :
  length x = length y ->
  Ai.pearsonCorrelation x y = Ai.pearsonCorrelation y x.
Proof.
  intros Hl. unfold Ai.pearsonCorrelation, reducei.
  rewrite (covariance_comm _ _ x y [] [] 0 eq_refl Hl). cbn [app].
  rewrite (mul_comm (fold_left _ x 0) (fold_left _ y 0)). reflexivity.
Qed.

Lemma length_map_from {A B} (f : A -> nat -> B) (l : list A) (i : nat) :
  length (map_from f i l) = length l.
Proof.
  revert i. induction l as [|x l IH]; intros i; cbn [map_from length];
    [reflexivity|].
  rewrite IH. reflexivity.
Qed.

Lemma Forall_map_from {A B} (P : B -> Prop) (f : A -> nat -> B) (l : list A)
  (i : nat) :
  (forall x j, P (f x j)) -> Forall P (map_from f i l).
Proof.
  intros H. revert i. induction l as [|x l IH]; intros i; cbn [map_from];
    constructor; auto.
Qed.

(** X13.  [calculateFeatureImportance] gives one importance for each entry
    of the first row, and no importance is negative: each is NaN or at least
    zero.  It fails, with a [TypeError], exactly on a matrix without
    rows. *)
Theorem feature_importance_is_never_negative (X : list (list float))
  (y : list float) :
  match X with
  | [] => Ai.calculateFeatureImportance X y = Throw TypeError
  | row0 :: _ =>
      exists importance,
        Ai.calculateFeatureImportance X y = Ok importance
        /\ length importance = length row0
        /\ Forall (fun v => v = nan \/ (0 <=? v) = true) importance
  end.
Proof.
  destruct X as [|row0 X]; [reflexivity|].
  cbn [Ai.calculateFeatureImportance]. eexists. split; [reflexivity|]. split.
  - apply length_map_from.
  - apply Forall_map_from. intros _ j.
    apply unsigned_nan_or_nonneg, abs_unsigned.
Qed.

(** ** The analysis of a result *)

Lemma ltb_nan_l (x : float) : (nan <? x) = false.
Proof. rewrite ltb_spec, SF_nan. reflexivity. Qed.

Lemma ltb_nan_r (x : float) : (x <? nan) = false.
Proof.
  rewrite ltb_spec, SF_nan. unfold SFltb.
  destruct (Prim2SF x) as [[|]|[|]| |[|] m e]; reflexivity.
Qed.

(** X14.  For a result whose metrics are all NaN (no held-out rows, an
    unrecognised model type, too few predictions) the analysis is the single
    sentence that performance could be improved: NaN passes none of the
    thresholds, so no variance warning and no suggestion follow. *)
Theorem analysis_of_nan_metrics (modelType : string)
  (predictions actualValues : list float) :
  Ai.analyzeResults modelType nanMetrics predictions actualValues
  = "The model's predictive performance could be improved."%string.
Proof.
  unfold Ai.analyzeResults, Ai.analysis, nanMetrics. cbn [r2 mae].
  rewrite mul_nan_l, !ltb_nan_l, !ltb_nan_r. reflexivity.
Qed.

(** [x < y] on positive finite values: by exponent, then by mantissa. *)
Lemma SFltb_positive (m m' : positive) (e e' : Z) :
  SFltb (S754_finite false m e) (S754_finite false m' e') = true
  <-> (e < e' \/ e = e' /\ Zpos m < Zpos m')%Z.
Proof.
  unfold SFltb. cbn [SFcompare].
  change (Pos.compare_cont Eq m m') with (Pos.compare m m').
  destruct (Z.compare_spec e e') as [He|He|He];
    [destruct (Pos.compare_spec m m') as [Hm|Hm|Hm]| |];
    split; intros H; try discriminate; try reflexivity; lia.
Qed.

Lemma above_08_not_below_07 (r : float) :
  (0.8 <? r) = true -> (r <? 0.7) = false.
Proof.
  rewrite !ltb_spec.
  change (Prim2SF 0.8) with (S754_finite false 7205759403792794 (-53)).
  change (Prim2SF 0.7) with (S754_finite false 6305039478318694 (-53)).
  destruct (Prim2SF r) as [[|]|[|]| |[|] m e];
    try discriminate; try reflexivity.
  intros H. apply SFltb_positive in H.
  destruct (SFltb (S754_finite false m e) _) eqn:H'; [|reflexivity].
  apply SFltb_positive in H'. lia.
Qed.

(** X15.  A result with [r2] above 0.8 never gets an improvement
    suggestion: its analysis is the strong-performance sentence, followed at
    most by the warning about the variance of the errors. *)
Theorem strong_result_gets_no_suggestion (modelType : string)
  (metrics : ModelMetrics) (predictions actualValues : list float) :
  (0.8 <? r2 metrics) = true ->
  Ai.analysis modelType metrics predictions actualValues
  = ["The model shows strong predictive performance with high R² value."%string]
  \/ Ai.analysis modelType metrics predictions actualValues
     = ["The model shows strong predictive performance with high R² value."%string;
        "High variance in prediction errors suggests inconsistent performance."%string].
Proof.
  intros H. unfold Ai.analysis.
  rewrite H, (above_08_not_below_07 _ H).
  destruct (mae metrics * 2
            <? Ai.calculateErrorVariance predictions actualValues);
    [right|left]; reflexivity.
Qed.

(** * The order of binary64 values and the sign of a difference

    The comparators of the source are differences ([b.importance -
    a.importance]).  A difference of two binary64 values is positive exactly
    when the first is the larger: gradual underflow never rounds a non-zero
    difference to zero. *)

Lemma shr_1_m (mrs : shr_record) :
  (0 <= shr_m mrs)%Z -> shr_m (shr_1 mrs) = Z.div2 (shr_m mrs).
Proof.
  destruct mrs as [m r s]. cbn [shr_m]. intros H.
  destruct m as [|[p|p|]|p]; try reflexivity; lia.
Qed.

Lemma iter_shr_1_m (n : positive) : forall mrs : shr_record,
  (0 <= shr_m mrs)%Z ->
  shr_m (iter_pos shr_1 n mrs) = Z.shiftr (shr_m mrs) (Zpos n).
Proof.
  induction n as [n IH|n IH|]; intros mrs H; cbn [iter_pos].
  - assert (H1 : (0 <= shr_m (shr_1 mrs))%Z)
      by (rewrite shr_1_m by exact H; apply Z.div2_nonneg; exact H).
    assert (H2 : (0 <= shr_m (iter_pos shr_1 n (shr_1 mrs)))%Z)
      by (rewrite IH by exact H1; apply Z.shiftr_nonneg; exact H1).
    rewrite IH by exact H2. rewrite IH by exact H1. rewrite shr_1_m by exact H.
    rewrite Z.div2_spec, !Z.shiftr_shiftr by lia. f_equal. lia.
  - assert (H2 : (0 <= shr_m (iter_pos shr_1 n mrs))%Z)
      by (rewrite IH by exact H; apply Z.shiftr_nonneg; exact H).
    rewrite IH by exact H2. rewrite IH by exact H.
    rewrite Z.shiftr_shiftr by lia. f_equal. lia.
  - rewrite shr_1_m by exact H. apply Z.div2_spec.
Qed.

Lemma shr_record_of_loc_m (m : Z) (l : location) :
  shr_m (shr_record_of_loc m l) = m.
Proof. destruct l as [|[| |]]; reflexivity. Qed.

(** The bounds of a number by its count of binary digits. *)
Lemma digits2_bounds (p : positive) :
  (2 ^ (Zpos (digits2_pos p) - 1) <= Zpos p < 2 ^ Zpos (digits2_pos p))%Z.
Proof.
  rewrite digits2_pos_size.
  pose proof (Pos.size_le p) as Hle. pose proof (Pos.size_gt p) as Hgt.
  assert (H1 : (2 ^ Zpos (Pos.size p) <= 2 * Zpos p)%Z).
  { rewrite <- Pos2Z.inj_pow. change (2 * Zpos p)%Z with (Zpos p~0). lia. }
  assert (H2 : (Zpos p < 2 ^ Zpos (Pos.size p))%Z)
    by (rewrite <- Pos2Z.inj_pow; lia).
  split; [|exact H2].
  replace (Zpos (Pos.size p)) with (Zpos (Pos.size p) - 1 + 1)%Z in H1 by lia.
  rewrite Z.pow_add_r, Z.pow_1_r in H1 by lia. lia.
Qed.

(** Shifting a positive mantissa down to the exponent of its format keeps it
    positive, as long as the exponent is not below the least one. *)
Lemma shr_fexp_positive (m : positive) (e : Z) (l : location) :
  (emin <= e)%Z ->
  (0 < shr_m (fst (shr_fexp prec emax (Zpos m) e l)))%Z
  /\ (emin <= snd (shr_fexp prec emax (Zpos m) e l))%Z.
Proof.
  intros He. unfold shr_fexp, shr. cbn [Zdigits2].
  destruct (fexp prec emax (Zpos (digits2_pos m) + e) - e)%Z as [|n|n] eqn:Hn;
    cbn [fst snd]; rewrite ?shr_record_of_loc_m; try (split; lia).
  rewrite iter_shr_1_m by (rewrite shr_record_of_loc_m; lia).
  rewrite shr_record_of_loc_m. split; [|lia].
  unfold fexp in Hn.
  assert (Hd : (Zpos n = Zpos (digits2_pos m) - prec)%Z) by lia.
  pose proof (digits2_bounds m) as [Hlo _].
  rewrite Z.shiftr_div_pow2 by lia.
  apply Z.div_str_pos. split; [apply Z.pow_pos_nonneg; lia|].
  eapply Z.le_trans; [|exact Hlo].
  apply Z.pow_le_mono_r; [lia|]. rewrite Hd. unfold prec. lia.
Qed.

Lemma round_nearest_even_positive (m : Z) (l : location) :
  (0 < m)%Z -> (0 < round_nearest_even m l)%Z.
Proof.
  intros H. destruct l as [|[| |]]; cbn [round_nearest_even]; try lia.
  destruct (Z.even m); lia.
Qed.

(** Rounding a positive mantissa at an exponent not below the least one
    gives a non-zero value of the same sign. *)
Lemma binary_round_aux_positive (s : bool) (m : positive) (e : Z)
  (l : location) :
  (emin <= e)%Z ->
  binary_round_aux prec emax s (Zpos m) e l = S754_infinity s
  \/ exists m' e', binary_round_aux prec emax s (Zpos m) e l = S754_finite s m' e'.
Proof.
  intros He. unfold binary_round_aux.
  destruct (shr_fexp_positive m e l He) as [H1 H2].
  destruct (shr_fexp prec emax (Zpos m) e l) as [mrs' e'].
  cbn [fst snd] in H1, H2.
  pose proof (round_nearest_even_positive (shr_m mrs') (loc_of_shr_record mrs') H1)
    as H3.
  destruct (round_nearest_even (shr_m mrs') (loc_of_shr_record mrs'))
    as [|r|r]; try lia.
  destruct (shr_fexp_positive r e' loc_Exact H2) as [H4 _].
  destruct (shr_fexp prec emax (Zpos r) e' loc_Exact) as [mrs'' e''].
  cbn [fst] in H4.
  destruct (shr_m mrs'') as [|q|q]; try lia.
  destruct (e'' <=? emax - prec)%Z; [right; eauto|left; reflexivity].
Qed.

Lemma binary_round_positive (s : bool) (m : positive) (e : Z) :
  (emin <= e)%Z ->
  binary_round prec emax s m e = S754_infinity s
  \/ exists m' e', binary_round prec emax s m e = S754_finite s m' e'.
Proof.
  intros He. unfold binary_round, shl_align.
  destruct (fexp prec emax (Zpos (digits2_pos m) + e) - e)%Z eqn:Hd;
    apply binary_round_aux_positive; try exact He.
  unfold fexp. lia.
Qed.

(** A finite value of the format: its exponent is not below the least one,
    its mantissa has at most 53 bits, and exactly 53 above the least
    exponent. *)
Lemma bounded_spec (m : positive) (e : Z) :
  bounded prec emax m e = true ->
  (emin <= e)%Z
  /\ (Zpos m < 2 ^ 53)%Z
  /\ (emin < e -> 2 ^ 52 <= Zpos m)%Z.
Proof.
  intros H. pose proof (mantissa_bound m e H) as Hm.
  unfold bounded, canonical_mantissa, fexp in H.
  apply andb_true_iff in H. destruct H as [H _]. apply Z.eqb_eq in H.
  pose proof (digits2_bounds m) as [Hlo _].
  split; [lia|]. split; [exact Hm|]. intros He.
  assert (Hd : Zpos (digits2_pos m) = 53%Z) by (unfold prec in *; lia).
  rewrite Hd in Hlo. exact Hlo.
Qed.

Lemma binary_round_aux_signed (s : bool) (m e : Z) (l : location) :
  match binary_round_aux prec emax s m e l with
  | S754_nan => True
  | S754_zero s' | S754_infinity s' | S754_finite s' _ _ => s' = s
  end.
Proof.
  unfold binary_round_aux.
  destruct (shr_fexp prec emax m e l) as [mrs' e'].
  destruct (shr_fexp prec emax _ e' loc_Exact) as [mrs'' e''].
  destruct (shr_m mrs''); cbn; auto.
  destruct (_ <=? _)%Z; reflexivity.
Qed.

Lemma binary_round_signed (s : bool) (m : positive) (e : Z) :
  match binary_round prec emax s m e with
  | S754_nan => True
  | S754_zero s' | S754_infinity s' | S754_finite s' _ _ => s' = s
  end.
Proof.
  unfold binary_round. destruct (shl_align m e _) as [mz ez].
  apply binary_round_aux_signed.
Qed.

(** Two finite values of the format compare as their mantissas do once
    aligned to the smaller exponent. *)
Lemma aligned_lt (sx sy : bool) (mx my : positive) (ex ey : Z) :
  bounded prec emax mx ex = true -> bounded prec emax my ey = true ->
  SFcompare (S754_finite sx mx ex) (S754_finite sy my ey) = Some Lt ->
  (cond_Zopp sx (Zpos mx * 2 ^ (ex - Z.min ex ey))
   < cond_Zopp sy (Zpos my * 2 ^ (ey - Z.min ex ey)))%Z.
Proof.
  intros Hx Hy. apply bounded_spec in Hx, Hy.
  destruct Hx as (Hex & Hmx & Hnx), Hy as (Hey & Hmy & Hny).
  cbn [SFcompare].
  change (Pos.compare_cont Eq mx my) with (Pos.compare mx my).
  assert (Hpow : forall d, (0 < d)%Z -> (2 <= 2 ^ d)%Z).
  { intros d Hd. change 2%Z with (2 ^ 1)%Z at 1.
    apply Z.pow_le_mono_r; lia. }
  assert (Hpx : (0 < Zpos mx * 2 ^ (ex - Z.min ex ey))%Z)
    by (apply Z.mul_pos_pos; [lia|apply Z.pow_pos_nonneg; lia]).
  assert (Hpy : (0 < Zpos my * 2 ^ (ey - Z.min ex ey))%Z)
    by (apply Z.mul_pos_pos; [lia|apply Z.pow_pos_nonneg; lia]).
  destruct sx, sy; cbn [cond_Zopp]; try discriminate; try (intros _; lia).
  - (* both negative *)
    destruct (Z.compare_spec ex ey) as [He|He|He]; try discriminate.
    + subst ey. rewrite Z.min_id, Z.sub_diag, Z.pow_0_r.
      destruct (Pos.compare_spec mx my); try discriminate. intros _. lia.
    + intros _. rewrite Z.min_r, Z.sub_diag, Z.pow_0_r by lia.
      pose proof (Hpow (ex - ey)%Z ltac:(lia)).
      assert (2 ^ 52 <= Zpos mx)%Z by (apply Hnx; lia). nia.
  - (* both positive *)
    destruct (Z.compare_spec ex ey) as [He|He|He]; try discriminate.
    + subst ey. rewrite Z.min_id, Z.sub_diag, Z.pow_0_r.
      destruct (Pos.compare_spec mx my); try discriminate. intros _. lia.
    + intros _. rewrite Z.min_l, Z.sub_diag, Z.pow_0_r by lia.
      pose proof (Hpow (ey - ex)%Z ltac:(lia)).
      assert (2 ^ 52 <= Zpos my)%Z by (apply Hny; lia). nia.
Qed.

Lemma SFsub_finite (sx sy : bool) (mx my : positive) (ex ey : Z) :
  SFsub prec emax (S754_finite sx mx ex) (S754_finite sy my ey)
  = binary_normalize prec emax
      (cond_Zopp sx (Zpos mx * 2 ^ (ex - Z.min ex ey))
       - cond_Zopp sy (Zpos my * 2 ^ (ey - Z.min ex ey)))
      (Z.min ex ey) false.
Proof.
  cbn [SFsub]. rewrite !shl_align_value by lia. reflexivity.
Qed.

(** [0 < y - x] when [x < y]. *)
Lemma SFsub_positive (x y : spec_float) :
  valid_binary x = true -> valid_binary y = true ->
  SFcompare x y = Some Lt ->
  SFltb (S754_zero false) (SFsub prec emax y x) = true.
Proof.
  destruct x as [sx|sx| |sx mx ex]; destruct y as [sy|sy| |sy my ey];
    cbn [valid_binary]; intros Hx Hy; try discriminate;
    try (destruct sx, sy; cbn; (discriminate || reflexivity));
    try (destruct sx; cbn; (discriminate || reflexivity));
    try (destruct sy; cbn; (discriminate || reflexivity)).
  intros Hc. pose proof (aligned_lt _ _ _ _ _ _ Hx Hy Hc) as Hlt.
  rewrite SFsub_finite, (Z.min_comm ey ex).
  destruct (bounded_spec _ _ Hx) as (Hex & _), (bounded_spec _ _ Hy) as (Hey & _).
  match goal with
  | |- context [binary_normalize _ _ ?D _ _] => destruct D as [|d|d] eqn:Hd
  end; try lia.
  cbn [binary_normalize].
  destruct (binary_round_positive false d (Z.min ex ey) ltac:(lia))
    as [->|(m' & e' & ->)]; reflexivity.
Qed.

(** [y - x] is not positive when [y < x]. *)
Lemma SFsub_not_positive (x y : spec_float) :
  valid_binary x = true -> valid_binary y = true ->
  SFcompare y x = Some Lt ->
  SFltb (S754_zero false) (SFsub prec emax y x) = false.
Proof.
  destruct x as [sx|sx| |sx mx ex]; destruct y as [sy|sy| |sy my ey];
    cbn [valid_binary]; intros Hx Hy; try discriminate;
    try (destruct sx, sy; cbn; (discriminate || reflexivity));
    try (destruct sx; cbn; (discriminate || reflexivity));
    try (destruct sy; cbn; (discriminate || reflexivity)).
  intros Hc. pose proof (aligned_lt _ _ _ _ _ _ Hy Hx Hc) as Hlt.
  rewrite SFsub_finite.
  match goal with
  | |- context [binary_normalize _ _ ?D _ _] => destruct D as [|d|d] eqn:Hd
  end; try lia.
  cbn [binary_normalize].
  pose proof (binary_round_signed true d (Z.min ey ex)) as Hs.
  destruct (binary_round prec emax true d (Z.min ey ex)) as [s|s| |s m e];
    try subst s; reflexivity.
Qed.

(** [y - x] is a zero or NaN when [x] and [y] compare equal. *)
Lemma SFsub_equal (x y : spec_float) :
  SFcompare y x = Some Eq ->
  SFltb (S754_zero false) (SFsub prec emax y x) = false.
Proof.
  destruct x as [sx|sx| |sx mx ex]; destruct y as [sy|sy| |sy my ey];
    try discriminate;
    try (destruct sx, sy; cbn; (discriminate || reflexivity));
    try (destruct sx; cbn; (discriminate || reflexivity));
    try (destruct sy; cbn; (discriminate || reflexivity)).
  cbn [SFcompare].
  change (Pos.compare_cont Eq my mx) with (Pos.compare my mx).
  intros Hc.
  assert (H : sx = sy /\ ex = ey /\ mx = my).
  { destruct sy, sx; try discriminate;
      destruct (Z.compare_spec ey ex); try discriminate;
      destruct (Pos.compare_spec my mx); try discriminate; auto. }
  destruct H as (-> & -> & ->).
  rewrite SFsub_finite, Z.sub_diag. reflexivity.
Qed.

(** The sign of a difference is the order of its operands. *)
Lemma sub_positive_iff (a b : float) : (0 <? b - a) = (a <? b).
Proof.
  rewrite !ltb_spec, sub_spec, SF_zero. unfold SF64sub.
  pose proof (Prim2SF_valid a) as Ha. pose proof (Prim2SF_valid b) as Hb.
  unfold SFltb at 2.
  destruct (SFcompare (Prim2SF a) (Prim2SF b)) as [[| |]|] eqn:Hc.
  - apply SFsub_equal. rewrite SFcompare_antisym, Hc. reflexivity.
  - apply SFsub_positive; assumption.
  - apply SFsub_not_positive; try assumption.
    rewrite SFcompare_antisym, Hc. reflexivity.
  - destruct (Prim2SF a) as [sx|sx| |sx mx ex];
      destruct (Prim2SF b) as [sy|sy| |sy my ey]; try discriminate;
      reflexivity.
Qed.

Lemma SFleb_trans (x y z : spec_float) :
  SFleb x y = true -> SFleb y z = true -> SFleb x z = true.
Proof.
  unfold SFleb.
  destruct x as [sx|sx| |sx mx ex]; destruct y as [sy|sy| |sy my ey];
    destruct z as [sz|sz| |sz mz ez]; cbn [SFcompare];
    try discriminate; try reflexivity;
    try (destruct sx; try discriminate; try reflexivity);
    try (destruct sy; try discriminate; try reflexivity);
    try (destruct sz; try discriminate; try reflexivity);
    change (Pos.compare_cont Eq mx my) with (Pos.compare mx my);
    change (Pos.compare_cont Eq my mz) with (Pos.compare my mz);
    change (Pos.compare_cont Eq mx mz) with (Pos.compare mx mz);
    destruct (Z.compare_spec ex ey); try discriminate;
    destruct (Z.compare_spec ey ez); try discriminate;
    destruct (Z.compare_spec ex ez); try reflexivity; try lia;
    subst;
    destruct (Pos.compare_spec mx my); try discriminate;
    destruct (Pos.compare_spec my mz); try discriminate;
    destruct (Pos.compare_spec mx mz); try reflexivity; try discriminate;
    try lia.
Qed.

Lemma leb_trans (x y z : float) :
  (x <=? y) = true -> (y <=? z) = true -> (x <=? z) = true.
Proof. rewrite !leb_spec. apply SFleb_trans. Qed.

(** ** The ranking of the features *)

Lemma insertSorted_In {A} (cmp : A -> A -> float) (x a : A) (sorted : list A) :
  In a (Ai.insertSorted cmp x sorted) -> a = x \/ In a sorted.
Proof.
  intros H.
  apply (Permutation_in _ (insertSorted_permutation cmp x sorted)) in H.
  destruct H as [<-|H]; auto.
Qed.

Lemma insertSorted_descending {A} (key : A -> float) (x : A)
  (sorted : list A) :
  is_nan (key x) = false ->
  Forall (fun a => is_nan (key a) = false) sorted ->
  StronglySorted (fun a b => (key b <=? key a) = true) sorted ->
  StronglySorted (fun a b => (key b <=? key a) = true)
    (Ai.insertSorted (fun a b => key b - key a) x sorted).
Proof.
  intros Hx Hn Hs. induction Hs as [|y rest Hs IH Hy];
    cbn [Ai.insertSorted].
  - repeat constructor.
  - inversion Hn as [|? ? Hny Hnr]; subst.
    rewrite sub_positive_iff.
    destruct (key y <? key x) eqn:Hlt.
    + constructor; [constructor; assumption|].
      pose proof (ltb_leb _ _ Hlt) as Hle.
      constructor; [exact Hle|].
      rewrite Forall_forall in Hy |- *. intros z Hz.
      apply (leb_trans _ (key y)); [apply Hy, Hz|exact Hle].
    + constructor; [apply IH, Hnr|].
      rewrite Forall_forall in Hy |- *. intros z Hz.
      apply insertSorted_In in Hz. destruct Hz as [->|Hz]; [|apply Hy, Hz].
      apply not_ltb_leb; assumption.
Qed.

Lemma sort_descending {A} (key : A -> float) (arr : list A) :
  Forall (fun a => is_nan (key a) = false) arr ->
  StronglySorted (fun a b => (key b <=? key a) = true)
    (Ai.sort (fun a b => key b - key a) arr).
Proof.
  unfold Ai.sort. intros Hn.
  assert (H : forall acc,
             Forall (fun a => is_nan (key a) = false) acc ->
             StronglySorted (fun a b => (key b <=? key a) = true) acc ->
             StronglySorted (fun a b => (key b <=? key a) = true)
               (fold_left
                  (fun sorted x =>
                     Ai.insertSorted (fun a b => key b - key a) x sorted)
                  arr acc)).
  { induction Hn as [|x arr Hx Hn IH]; intros acc Ha Hs; cbn [fold_left];
      [exact Hs|].
    apply IH.
    - rewrite Forall_forall in Ha |- *. intros a Hin.
      apply insertSorted_In in Hin. destruct Hin as [->|Hin]; auto.
    - apply insertSorted_descending; assumption. }
  apply H; constructor.
Qed.

Lemma In_prefix {A} (n : nat) (l : list A) (a : A) :
  In a (firstn n l) -> In a l.
Proof.
  intros H. rewrite <- (firstn_skipn n l). apply in_or_app. left. exact H.
Qed.

Lemma StronglySorted_firstn {A} (R : A -> A -> Prop) (n : nat) (l : list A) :
  StronglySorted R l -> StronglySorted R (firstn n l).
Proof.
  intros H. revert n. induction H as [|x l H IH Hx]; intros [|n];
    cbn [firstn]; try constructor.
  - apply IH.
  - rewrite Forall_forall in Hx |- *. intros a Ha.
    apply Hx. apply (In_prefix _ _ _ Ha).
Qed.

Lemma firstn_min_length {A} (n : nat) (l : list A) :
  firstn (Nat.min n (length l)) l = firstn n l.
Proof.
  destruct (Nat.le_ge_cases n (length l)) as [H|H].
  - rewrite Nat.min_l by exact H. reflexivity.
  - rewrite Nat.min_r by exact H. rewrite firstn_all, firstn_all2 by exact H.
    reflexivity.
Qed.

(** [rankFeatures] takes the first five names of a rearrangement of the
    scored features, and that rearrangement descends by score when no score
    is NaN. *)
Lemma rankFeatures_ranked (features : list string) (importance : list float) :
  exists sorted : list (string * float),
    Permutation sorted
      (mapi (fun f i => (f, toNumber (nth_error importance i))) features)
    /\ Ai.rankFeatures features importance = map fst (firstn 5 sorted)
    /\ (Forall (fun p => is_nan (snd p) = false) sorted ->
        StronglySorted (fun a b => (snd b <=? snd a) = true) sorted).
Proof.
  unfold Ai.rankFeatures.
  set (scored := mapi _ features).
  exists (Ai.sort (fun a b => snd b - snd a) scored).
  pose proof (sort_permutation (fun a b : string * float => snd b - snd a) scored)
    as Hperm.
  split; [exact Hperm|]. split.
  - rewrite slice_prefix, relativeIndex_five, firstn_min_length. reflexivity.
  - intros Hn. apply (sort_descending snd scored).
    rewrite Forall_forall in Hn |- *. intros p Hp. apply Hn.
    apply (Permutation_in _ (Permutation_sym Hperm) Hp).
Qed.

Section RankedFeatures.

Variable tf : Ai.TensorFlow.

(** X20.  The suggested features are the first five of a rearrangement of
    the candidates, each paired with the importance computed for its
    position; when no importance is NaN that rearrangement descends by
    importance, so no candidate left out is more important than a suggested
    one.  (The comparator is a difference, and a difference of two binary64
    values is positive exactly when the first is the larger.) *)
Theorem suggested_features_descend_by_importance (data : list Row)
  (features : list string) (target : string)
  (suggestion : Ai.AIModelSuggestion) :
  Ai.getModelSuggestions tf data features target = Ok suggestion ->
  exists (importance : list float) (sorted : list (string * float)),
    Ai.calculateFeatureImportance
      (map (fun row => map (fun f => or_else (parseFloat (get row f)) 0)
                         features) data)
      (map (fun row => or_else (parseFloat (get row target)) 0) data)
    = Ok importance
    /\ Permutation sorted
         (mapi (fun f i => (f, toNumber (nth_error importance i))) features)
    /\ Ai.suggestedFeatures suggestion = map fst (firstn 5 sorted)
    /\ (Forall (fun p => is_nan (snd p) = false) sorted ->
        StronglySorted (fun a b => (snd b <=? snd a) = true) sorted).
Proof.
  unfold Ai.getModelSuggestions. intros H.
  destruct (Ai.tensor2d tf _) as [tX|]; [|discriminate].
  cbn [call bind] in H.
  destruct (Ai.tensor1d tf _) as [tY|]; [|discriminate].
  cbn [call bind] in H.
  destruct (Ai.calculateCorrelations tf tX tY) as [cor|]; [|discriminate].
  cbn [bind] in H.
  destruct (Ai.checkNonLinearity tf tX tY) as [nl|]; [|discriminate].
  cbn [bind] in H.
  destruct (Ai.selectModel nl (Ai.mean cor) (of_length (length features)))
    as [[mt conf] reason].
  destruct (Ai.calculateFeatureImportance _ _) as [imp|]; [|discriminate].
  cbn [bind] in H. injection H as <-. cbn [Ai.suggestedFeatures].
  destruct (rankFeatures_ranked features imp) as (sorted & H1 & H2 & H3).
  exists imp, sorted. auto.
Qed.

End RankedFeatures.

(** * Integers below 2^53: products, order, rounding *)

Lemma digits2_mul_ge (p q : positive) :
  (Zpos (digits2_pos p) + Zpos (digits2_pos q) - 1
   <= Zpos (digits2_pos (p * q)))%Z.
Proof.
  pose proof (digits2_bounds p) as [Hp _].
  pose proof (digits2_bounds q) as [Hq _].
  pose proof (digits2_bounds (p * q)) as [_ Hpq].
  assert (H : (2 ^ (Zpos (digits2_pos p) - 1 + (Zpos (digits2_pos q) - 1))
               < 2 ^ Zpos (digits2_pos (p * q)))%Z).
  { rewrite Z.pow_add_r by lia. rewrite Pos2Z.inj_mul in Hpq.
    assert (2 ^ (Zpos (digits2_pos p) - 1) * 2 ^ (Zpos (digits2_pos q) - 1)
            <= Zpos p * Zpos q)%Z
      by (apply Z.mul_le_mono_nonneg; try lia; apply Z.pow_nonneg; lia).
    lia. }
  apply Z.pow_lt_mono_r_iff in H; lia.
Qed.

Lemma SFmul_normal_forms (p q : positive) :
  (Zpos (p * q) < 2 ^ 53)%Z ->
  SFmul prec emax
    (S754_finite false (normalMantissa p) (Zpos (digits2_pos p) - 53))
    (S754_finite false (normalMantissa q) (Zpos (digits2_pos q) - 53))
  = S754_finite false (normalMantissa (p * q))
      (Zpos (digits2_pos (p * q)) - 53).
Proof.
  intros H.
  assert (Hp : (Zpos p < 2 ^ 53)%Z) by nia.
  assert (Hq : (Zpos q < 2 ^ 53)%Z) by nia.
  pose proof (digits2_le_53 _ H) as Dpq.
  pose proof (digits2_le_53 _ Hp) as Dp.
  pose proof (digits2_le_53 _ Hq) as Dq.
  pose proof (digits2_mul_le p q) as Dle.
  pose proof (digits2_mul_ge p q) as Dge.
  cbn [SFmul xorb].
  destruct (106 - Zpos (digits2_pos p) - Zpos (digits2_pos q))%Z
    as [|k|k] eqn:Hk; try lia.
  assert (Hm : (normalMantissa p * normalMantissa q)%positive
               = Pos.iter xO (p * q)%positive k).
  { apply Pos2Z.inj. rewrite Pos2Z.inj_mul, Zpos_iter_xO, Pos2Z.inj_mul.
    rewrite (Zpos_normalMantissa p Dp), (Zpos_normalMantissa q Dq), <- Hk.
    replace (106 - Zpos (digits2_pos p) - Zpos (digits2_pos q))%Z
      with ((53 - Zpos (digits2_pos p)) + (53 - Zpos (digits2_pos q)))%Z by lia.
    rewrite Z.pow_add_r by lia. ring. }
  rewrite Hm.
  replace (Zpos (digits2_pos p) - 53 + (Zpos (digits2_pos q) - 53))%Z
    with (- Zpos k)%Z by lia.
  apply binary_round_aux_scaled; lia.
Qed.

(** The product of two natural numbers is exact as long as it stays below
    2^53. *)
Lemma mul_integers (a b : Z) :
  (0 <= a < 2 ^ 53)%Z -> (0 <= b < 2 ^ 53)%Z -> (a * b < 2 ^ 53)%Z ->
  number_of_Z a * number_of_Z b = number_of_Z (a * b).
Proof.
  intros Ha Hb Hab. apply Prim2SF_inj. rewrite mul_spec. unfold SF64mul.
  destruct a as [|p|p]; try lia; destruct b as [|q|q]; try lia;
    try (rewrite Z.mul_0_r); cbn [Z.mul];
    try (change (Prim2SF (number_of_Z 0)) with (S754_zero false)).
  - reflexivity.
  - rewrite number_of_Z_spec, binary_normalize_integer by (cbn; lia).
    reflexivity.
  - rewrite number_of_Z_spec, binary_normalize_integer by (cbn; lia).
    reflexivity.
  - rewrite !number_of_Z_spec, !binary_normalize_integer
      by (cbn [Z.abs]; lia).
    apply SFmul_normal_forms. exact Hab.
Qed.

(** Natural numbers below 2^53 are ordered as their Number values are. *)
Lemma ltb_integers (a b : Z) :
  (0 <= a < 2 ^ 53)%Z -> (0 <= b < 2 ^ 53)%Z ->
  (number_of_Z a <? number_of_Z b) = (a <? b)%Z.
Proof.
  intros Ha Hb. rewrite ltb_spec.
  rewrite !number_of_Z_spec, !binary_normalize_integer by lia.
  destruct a as [|p|p]; try lia; destruct b as [|q|q]; try lia;
    try reflexivity.
  pose proof (digits2_bounds p) as [Hp1 Hp2].
  pose proof (digits2_bounds q) as [Hq1 Hq2].
  pose proof (digits2_le_53 p ltac:(lia)) as Dp.
  pose proof (digits2_le_53 q ltac:(lia)) as Dq.
  assert (Hmono : forall x y, (x <= y)%Z -> (2 ^ x <= 2 ^ y)%Z)
    by (intros; apply Z.pow_le_mono_r; lia).
  destruct (Z.ltb_spec (Zpos p) (Zpos q)) as [Hlt|Hge].
  - apply SFltb_positive.
    rewrite (Zpos_normalMantissa p Dp), (Zpos_normalMantissa q Dq).
    destruct (Z.lt_trichotomy (Zpos (digits2_pos p)) (Zpos (digits2_pos q)))
      as [H|[H|H]].
    + left. lia.
    + right. split; [lia|]. rewrite H.
      apply Z.mul_lt_mono_pos_r; [apply Z.pow_pos_nonneg; lia|exact Hlt].
    + exfalso.
      pose proof (Hmono (Zpos (digits2_pos q)) (Zpos (digits2_pos p) - 1)%Z
                    ltac:(lia)). lia.
  - destruct (SFltb _ _) eqn:E; [|reflexivity]. exfalso.
    apply SFltb_positive in E.
    rewrite (Zpos_normalMantissa p Dp), (Zpos_normalMantissa q Dq) in E.
    destruct E as [E|[E1 E2]].
    + pose proof (Hmono (Zpos (digits2_pos p)) (Zpos (digits2_pos q) - 1)%Z
                    ltac:(lia)). lia.
    + assert (Hd : Zpos (digits2_pos p) = Zpos (digits2_pos q)) by lia.
      rewrite Hd in E2.
      apply Z.mul_lt_mono_pos_r in E2; [lia|apply Z.pow_pos_nonneg; lia].
Qed.

Lemma is_nan_integer (z : Z) :
  (Z.abs z < 2 ^ 53)%Z -> is_nan (number_of_Z z) = false.
Proof.
  intros H. rewrite is_nan_SF, number_of_Z_spec, binary_normalize_integer
    by exact H.
  destruct z; reflexivity.
Qed.

(** [Math.round] leaves a natural number as it is. *)
Lemma round_integer (z : Z) :
  (0 <= z < 2 ^ 53)%Z -> Math_round (number_of_Z z) = number_of_Z z.
Proof.
  intros H. unfold Math_round.
  rewrite number_of_Z_spec, binary_normalize_integer by lia.
  destruct z as [|p|p]; try lia; [reflexivity|].
  pose proof (digits2_le_53 p ltac:(lia)) as Dp.
  cbn [SFround].
  destruct (0 <=? Zpos (digits2_pos p) - 53)%Z eqn:He.
  - rewrite <- (binary_normalize_integer (Zpos p)) by lia.
    rewrite <- number_of_Z_spec by lia. apply SF2Prim_Prim2SF.
  - apply Z.leb_gt in He. unfold number_of_Z. f_equal. f_equal.
    cbn [cond_Zopp]. rewrite (Zpos_normalMantissa p Dp).
    replace (- (Zpos (digits2_pos p) - 53))%Z
      with (53 - Zpos (digits2_pos p))%Z by lia.
    set (k := (53 - Zpos (digits2_pos p))%Z) in *.
    rewrite Z.shiftr_div_pow2 by lia.
    replace (2 * (Zpos p * 2 ^ k) + 2 ^ k)%Z
      with ((2 * Zpos p + 1) * 2 ^ k)%Z by ring.
    rewrite Z.pow_add_r, Z.pow_1_r by lia.
    rewrite (Z.mul_comm (2 ^ k) 2), Z.div_mul_cancel_r
      by (try lia; apply Z.pow_nonzero; lia).
    symmetry. apply (Z.div_unique _ _ _ 1); lia.
Qed.

(** [Math.min] on natural numbers. *)
Lemma min_integers (a b : Z) :
  (0 <= a < 2 ^ 53)%Z -> (0 <= b < 2 ^ 53)%Z ->
  Math_min (number_of_Z a) (number_of_Z b) = number_of_Z (Z.min a b).
Proof.
  intros Ha Hb. unfold Math_min.
  rewrite !is_nan_integer, !ltb_integers by lia. cbn [orb].
  destruct (Z.ltb_spec a b); [rewrite Z.min_l by lia; reflexivity|].
  destruct (Z.ltb_spec b a); [rewrite Z.min_r by lia; reflexivity|].
  assert (a = b) by lia. subst b. rewrite Z.min_id.
  destruct (get_sign _); reflexivity.
Qed.

Section AdvisorByCount.

Variable tf : Ai.TensorFlow.

(** X21.  With a NaN non-linearity (see X9) everything in a suggestion but
    the ranking of the features is a function of the number [n] of candidate
    features.  Above five features: neural-network with 100 epochs, batches
    of 32, learning rate 0.01, hidden layers [8n, 4n] and dropout 0.1.  Up
    to five: random-forest with depth [10 + round(n / 2)] and [100 + 10n]
    trees, so that the caps of 20 and 200 are never reached. *)
Theorem suggestion_is_a_function_of_the_feature_count (data : list Row)
  (features : list string) (target : string)
  (suggestion : Ai.AIModelSuggestion) :
  Ai.getModelSuggestions tf data features target = Ok suggestion ->
  (forall tensorX tensorY product,
     Ai.tensor2d tf
       (map (fun row => map (fun f => or_else (parseFloat (get row f)) 0)
                          features) data) = Returns tensorX ->
     Ai.tensor1d tf (map (fun row => or_else (parseFloat (get row target)) 0) data)
     = Returns tensorY ->
     Ai.dot tf tensorX (Ai.transpose tf tensorX) = Returns product ->
     (length (Ai.array1 tf tensorY)
      < length (concat (Ai.array2 tf product)))%nat) ->
  (Z.of_nat (length features) < 2 ^ 32)%Z ->
  let n := Z.of_nat (length features) in
  if (5 <? n)%Z then
    Ai.modelType suggestion = "neural-network"%string
    /\ Ai.confidence suggestion = 0.75
    /\ Ai.hyperparameters suggestion
       = Ai.NetworkParameters 100 32 0.01
           [number_of_Z (8 * n); number_of_Z (4 * n)] 0.1
  else
    Ai.modelType suggestion = "random-forest"%string
    /\ Ai.confidence suggestion = 0.85
    /\ Ai.hyperparameters suggestion
       = Ai.ForestParameters (number_of_Z (10 + (n + 1) / 2))
           (number_of_Z (100 + 10 * n)).
Proof.
  cbv zeta. intros H Hshape Hlen.
  set (n := Z.of_nat (length features)) in *.
  unfold Ai.getModelSuggestions in H.
  destruct (Ai.tensor2d tf _) as [tX|] eqn:HX; [|discriminate].
  cbn [call bind] in H.
  destruct (Ai.tensor1d tf _) as [tY|] eqn:HY; [|discriminate].
  cbn [call bind] in H.
  destruct (Ai.calculateCorrelations tf tX tY) as [cor|]; [|discriminate].
  cbn [bind] in H.
  destruct (Ai.checkNonLinearity tf tX tY) as [nl|] eqn:Hn; [|discriminate].
  cbn [bind] in H.
  assert (Hnan : nl = nan).
  { pose proof Hn as Hn'. unfold Ai.checkNonLinearity in Hn'.
    destruct (Ai.dot tf tX (Ai.transpose tf tX)) as [L|msg] eqn:HL;
      [|discriminate].
    apply (checkNonLinearity_nan tf tX tY L nl HL
             (Hshape tX tY L eq_refl eq_refl HL) Hn). }
  subst nl. unfold Ai.selectModel in H.
  change (nan <? 0.3) with false in H. change (0.7 <? nan) with false in H.
  cbn [andb] in H. rewrite orb_false_r in H.
  rewrite (of_length_integer (length features)) in H by lia. fold n in H.
  change 5 with (number_of_Z 5) in H.
  rewrite ltb_integers in H by lia.
  destruct (5 <? n)%Z eqn:Hn5.
  - apply Z.ltb_lt in Hn5.
    destruct (Ai.calculateFeatureImportance _ _) as [imp|]; [|discriminate].
    cbn [bind] in H. injection H as <-.
    cbn [Ai.modelType Ai.confidence Ai.hyperparameters].
    split; [reflexivity|]. split; [reflexivity|].
    unfold Ai.getHyperparameters. cbn [String.eqb Ascii.eqb Bool.eqb andb].
    change (0.5 <? nan) with false. cbv iota.
    change 10 with (number_of_Z 10). change 8 with (number_of_Z 8).
    change 4 with (number_of_Z 4). change 50 with (number_of_Z 50).
    change 100 with (number_of_Z 100).
    rewrite !mul_integers, add_integers, !round_integer, min_integers by lia.
    rewrite Z.min_l by lia.
    rewrite (Z.mul_comm n 8), (Z.mul_comm n 4). reflexivity.
  - apply Z.ltb_ge in Hn5.
    destruct (Ai.calculateFeatureImportance _ _) as [imp|]; [|discriminate].
    cbn [bind] in H. injection H as <-.
    cbn [Ai.modelType Ai.confidence Ai.hyperparameters].
    split; [reflexivity|]. split; [reflexivity|].
    unfold Ai.getHyperparameters. cbn [String.eqb Ascii.eqb Bool.eqb andb].
    assert (Hcases : (n = 0 \/ n = 1 \/ n = 2 \/ n = 3 \/ n = 4 \/ n = 5)%Z)
      by lia.
    clearbody n.
    destruct Hcases as [->|[->|[->|[->|[->| ->]]]]]; vm_compute; reflexivity.
Qed.

End AdvisorByCount.

(** * The split by position

    [Math.floor] of a value that is not negative, read as a position in an
    array, is the number of whole units in the value, taken up to the length
    of the array. *)

Lemma shr_fexp_nonneg (m e : Z) (l : location) :
  (0 <= m)%Z -> (0 <= shr_m (fst (shr_fexp prec emax m e l)))%Z.
Proof.
  intros Hm. unfold shr_fexp, shr.
  destruct (fexp prec emax (Zdigits2 m + e) - e)%Z as [|n|n];
    cbn [fst]; rewrite ?shr_record_of_loc_m; try exact Hm.
  rewrite iter_shr_1_m by (rewrite shr_record_of_loc_m; exact Hm).
  rewrite shr_record_of_loc_m. apply Z.shiftr_nonneg. exact Hm.
Qed.

Lemma round_nearest_even_nonneg (m : Z) (l : location) :
  (0 <= m)%Z -> (0 <= round_nearest_even m l)%Z.
Proof.
  intros H. destruct l as [|[| |]]; cbn [round_nearest_even]; try lia.
  destruct (Z.even m); lia.
Qed.

(** Rounding a mantissa that is not negative never gives NaN. *)
Lemma binary_round_aux_not_nan (s : bool) (m e : Z) (l : location) :
  (0 <= m)%Z -> binary_round_aux prec emax s m e l <> S754_nan.
Proof.
  intros Hm. unfold binary_round_aux.
  pose proof (shr_fexp_nonneg m e l Hm) as H1.
  destruct (shr_fexp prec emax m e l) as [mrs' e']. cbn [fst] in H1.
  pose proof (round_nearest_even_nonneg _ (loc_of_shr_record mrs') H1) as H2.
  pose proof (shr_fexp_nonneg _ e' loc_Exact H2) as H3.
  destruct (shr_fexp prec emax _ e' loc_Exact) as [mrs'' e'']. cbn [fst] in H3.
  destruct (shr_m mrs'') as [|q|q]; try lia; try discriminate.
  destruct (_ <=? _)%Z; discriminate.
Qed.

Lemma leb_zero_ordered (x : float) :
  (0 <=? x) = true -> SFordered_nonneg (Prim2SF x).
Proof.
  rewrite leb_spec, SF_zero.
  destruct (Prim2SF x) as [[|]|[|]| |[|] m e]; simpl; auto; discriminate.
Qed.

(** A row count times a ratio that is not negative. *)
Lemma length_mul_ordered (n : nat) (ratio : float) :
  (0 < Z.of_nat n < 2 ^ 53)%Z -> (0 <=? ratio) = true ->
  SFordered_nonneg (Prim2SF (of_length n * ratio)).
Proof.
  intros Hn Hr. apply leb_zero_ordered in Hr.
  destruct (of_length_positive n Hn) as (m & e & Hsf & _).
  rewrite mul_spec, Hsf. unfold SF64mul.
  destruct (Prim2SF ratio) as [s|s| |s m' e']; cbn [SFordered_nonneg] in Hr;
    try contradiction; try subst s; cbn [SFmul xorb SFordered_nonneg]; auto.
  pose proof (binary_round_aux_not_nan false (Zpos (m * m')) (e + e') loc_Exact
                ltac:(lia)) as Hnan.
  pose proof (binary_round_aux_signed false (Zpos (m * m')) (e + e') loc_Exact)
    as Hs.
  destruct (binary_round_aux prec emax false (Zpos (m * m')) (e + e') loc_Exact);
    cbn [SFordered_nonneg]; auto.
Qed.

(** Two positive values of the format compare as their mantissas do once
    aligned to the smaller exponent. *)
Lemma SFcompare_aligned (mx my : positive) (ex ey : Z) :
  bounded prec emax mx ex = true -> bounded prec emax my ey = true ->
  SFcompare (S754_finite false mx ex) (S754_finite false my ey)
  = Some (Z.compare (Zpos mx * 2 ^ (ex - Z.min ex ey))
            (Zpos my * 2 ^ (ey - Z.min ex ey))).
Proof.
  intros Hx Hy.
  destruct (SFcompare (S754_finite false mx ex) (S754_finite false my ey))
    as [[| |]|] eqn:Hc.
  - cbn [SFcompare] in Hc.
    change (Pos.compare_cont Eq mx my) with (Pos.compare mx my) in Hc.
    destruct (Z.compare_spec ex ey); try discriminate.
    destruct (Pos.compare_spec mx my); try discriminate. subst.
    rewrite Z.compare_refl. reflexivity.
  - pose proof (aligned_lt _ _ _ _ _ _ Hx Hy Hc) as H. cbn [cond_Zopp] in H.
    f_equal. symmetry. apply Z.compare_lt_iff. exact H.
  - assert (Hc' : SFcompare (S754_finite false my ey) (S754_finite false mx ex)
                  = Some Lt)
      by (rewrite SFcompare_antisym, Hc; reflexivity).
    pose proof (aligned_lt _ _ _ _ _ _ Hy Hx Hc') as H. cbn [cond_Zopp] in H.
    rewrite (Z.min_comm ey ex) in H.
    f_equal. symmetry. apply Z.compare_gt_iff. exact H.
  - cbn [SFcompare] in Hc. destruct (ex ?= ey)%Z; discriminate.
Qed.

(** A positive integer against a positive value: the integer is above the
    value exactly when it is above its whole part. *)
Lemma compare_integer_wholePart (j : nat) (m : positive) (e : Z) :
  (0 < Z.of_nat j < 2 ^ 53)%Z ->
  bounded prec emax m e = true ->
  match SFcompare (Prim2SF (of_length j)) (S754_finite false m e) with
  | Some Gt => (wholePart m e < Z.of_nat j)%Z
  | Some _ => (Z.of_nat j <= wholePart m e)%Z
  | None => False
  end.
Proof.
  intros Hj Hb.
  destruct (of_length_positive j Hj) as (mj & ej & Hsf & Hej & Hmj).
  pose proof (Prim2SF_valid (of_length j)) as Hv. rewrite Hsf in Hv.
  cbn [valid_binary] in Hv.
  rewrite Hsf, (SFcompare_aligned _ _ _ _ Hv Hb).
  set (E := (- Z.min ej e)%Z).
  assert (HE : (0 <= E /\ - ej <= E /\ - e <= E)%Z) by (unfold E; lia).
  replace (ej - Z.min ej e)%Z with (ej + E)%Z by (unfold E; lia).
  replace (e - Z.min ej e)%Z with (e + E)%Z by (unfold E; lia).
  assert (HA : (Zpos mj * 2 ^ (ej + E) = Z.of_nat j * 2 ^ E)%Z).
  { rewrite Hmj, <- Z.mul_assoc, <- Z.pow_add_r by lia. f_equal. f_equal. lia. }
  rewrite HA. unfold wholePart.
  destruct (0 <=? e)%Z eqn:He.
  - apply Z.leb_le in He.
    assert (HP : (0 < 2 ^ E)%Z) by (apply Z.pow_pos_nonneg; lia).
    assert (HB : (Zpos m * 2 ^ (e + E) = Zpos m * 2 ^ e * 2 ^ E)%Z)
      by (rewrite Z.pow_add_r by lia; ring).
    rewrite HB.
    destruct (Z.compare_spec (Z.of_nat j * 2 ^ E) (Zpos m * 2 ^ e * 2 ^ E)); nia.
  - apply Z.leb_gt in He.
    set (D := (2 ^ (- e))%Z). set (P := (2 ^ (e + E))%Z).
    assert (HD : (0 < D)%Z) by (apply Z.pow_pos_nonneg; lia).
    assert (HP : (0 < P)%Z) by (apply Z.pow_pos_nonneg; lia).
    assert (HDP : (2 ^ E = D * P)%Z).
    { unfold D, P. rewrite <- Z.pow_add_r by lia. f_equal. lia. }
    rewrite HDP, Z.shiftr_div_pow2 by lia. fold D.
    pose proof (Z.div_mod (Zpos m) D ltac:(lia)) as Hdm.
    pose proof (Z.mod_pos_bound (Zpos m) D HD) as Hr.
    set (z := (Zpos m / D)%Z) in *. set (r := (Zpos m mod D)%Z) in *.
    destruct (Z.compare_spec (Z.of_nat j * (D * P)) (Zpos m * P)) as [H|H|H].
    + assert (H' : (Z.of_nat j * D = Zpos m)%Z) by nia. nia.
    + assert (H' : (Z.of_nat j * D < Zpos m)%Z) by nia. nia.
    + assert (H' : (Zpos m < Z.of_nat j * D)%Z) by nia. nia.
Qed.

Lemma toInteger_floor_finite (m : positive) (e : Z) :
  bounded prec emax m e = true ->
  SFtoIntegerOrInfinity (SFfloor (S754_finite false m e)) = Int (wholePart m e).
Proof.
  intros Hb. unfold SFfloor, wholePart.
  destruct (0 <=? e)%Z eqn:He.
  - cbn [SFtoIntegerOrInfinity]. rewrite He. reflexivity.
  - apply Z.leb_gt in He. cbn [cond_Zopp].
    pose proof (mantissa_bound m e Hb) as Hm.
    destruct (shiftr_bounds (Zpos m) (- e) ltac:(lia)) as [Hp _].
    specialize (Hp ltac:(lia)).
    set (z := Z.shiftr (Zpos m) (- e)) in *.
    rewrite <- (Z2Nat.id z) by lia.
    rewrite <- of_length_spec by lia.
    apply toIntegerOrInfinity_of_length. lia.
Qed.

Lemma wholePart_nonneg (m : positive) (e : Z) : (0 <= wholePart m e)%Z.
Proof.
  unfold wholePart. destruct (0 <=? e)%Z eqn:He.
  - apply Z.leb_le in He. apply Z.mul_nonneg_nonneg; [lia|].
    apply Z.pow_nonneg. lia.
  - apply Z.leb_gt in He. apply (shiftr_bounds (Zpos m) (- e)); lia.
Qed.

(** The position [Math.floor(p)] denotes in an array of [n] elements, for a
    value [p] that is not negative: the number of whole units in [p], at
    most [n]. *)
Lemma floor_index (n : nat) (p : float) :
  (Z.of_nat n < 2 ^ 53)%Z ->
  SFordered_nonneg (Prim2SF p) ->
  let k := relativeIndex (Math_floor p) n in
  (k <= n)%nat
  /\ (of_length k <=? p) = true
  /\ ((k < n)%nat -> (p <? of_length (S k)) = true).
Proof.
  intros Hn Hp. cbv zeta. unfold relativeIndex, toIntegerOrInfinity.
  rewrite floor_spec, leb_spec, ltb_spec.
  pose proof (Prim2SF_valid p) as Hv.
  destruct (Prim2SF p) as [s|s| |s m e]; cbn [SFordered_nonneg] in Hp;
    try contradiction; try subst s.
  - (* zero *)
    cbn [SFfloor SFtoIntegerOrInfinity]. change (0 <? 0)%Z with false. cbv iota.
    rewrite Z.min_l by lia. change (Z.to_nat 0) with 0%nat.
    split; [lia|]. split; [destruct s; reflexivity|].
    intros _. destruct s; reflexivity.
  - (* +Infinity *)
    cbn [SFfloor SFtoIntegerOrInfinity]. split; [lia|]. split; [|lia].
    rewrite of_length_spec, binary_normalize_integer by lia.
    destruct (Z.of_nat n); reflexivity.
  - (* finite *)
    cbn [valid_binary] in Hv.
    rewrite (toInteger_floor_finite m e Hv).
    pose proof (wholePart_nonneg m e) as Hz.
    set (z := wholePart m e) in *.
    assert (Hneg : (z <? 0)%Z = false) by (apply Z.ltb_ge; exact Hz).
    rewrite Hneg. set (k := Z.to_nat (Z.min z (Z.of_nat n))).
    assert (Hk : (Z.of_nat k = Z.min z (Z.of_nat n))%Z) by (unfold k; lia).
    split; [lia|]. split.
    + destruct (Nat.eq_dec k 0) as [->|Hk0].
      * rewrite of_length_spec by lia. reflexivity.
      * pose proof (compare_integer_wholePart k m e ltac:(lia) Hv) as Hc.
        fold z in Hc. unfold SFleb.
        destruct (SFcompare (Prim2SF (of_length k)) (S754_finite false m e))
          as [[| |]|]; try reflexivity; try contradiction. lia.
    + intros Hlt.
      pose proof (compare_integer_wholePart (S k) m e ltac:(lia) Hv) as Hc.
      fold z in Hc. unfold SFltb. rewrite SFcompare_antisym.
      destruct (SFcompare (Prim2SF (of_length (S k))) (S754_finite false m e))
        as [[| |]|]; try reflexivity; try contradiction; lia.
Qed.

Section SplitByPosition.

Variable lib : Libraries.

(** C7.  For a ratio that is not negative the split is by position.  The
    split point [k] is [Math.floor(rowCount * splitRatio)] taken up to
    [rowCount]: [k <= rowCount], [k <= rowCount * splitRatio] and, unless
    [k = rowCount], [rowCount * splitRatio < k + 1], the product being the
    binary64 one.  The first [k] rows, normalized with the statistics of the
    whole dataset, train; the rows from [k] on test; and the test targets,
    which are the returned [actualValues], are the target cells of the rows
    from [k] on as [parseFloat] reads them ([0] for a cell that is not a
    number), not normalized. *)
Theorem split_is_by_position (data : list Row) (target : string)
  (features : list string) (modelType : string) (splitRatio : float)
  (hyperparameters : Hyperparameters) :
  (0 <=? splitRatio) = true ->
  data <> [] ->
  (Z.of_nat (length data) < 2 ^ 32)%Z ->
  exists k,
    (k <= length data)%nat
    /\ (of_length k <=? of_length (length data) * splitRatio) = true
    /\ ((k < length data)%nat ->
        (of_length (length data) * splitRatio <? of_length (S k)) = true)
    /\ let train := firstn k data in
       let test := skipn k data in
       let X := featureMatrix data features in
       let y := targetVector data target in
       let normalizedFeatures := fun rows =>
         map (normalizeRow (X_means X) (X_stds X)) (featureMatrix rows features) in
       let normalizedTarget := fun rows =>
         map (fun row =>
                (coerce (get row target) - mean y) / or_else (std y) 1) rows in
       let actual :=
         map (fun row =>
                let val := parseFloat (get row target) in
                if is_nan val then 0 else val) test in
       let p := {| X_train := normalizedFeatures train;
                   y_train := normalizedTarget train;
                   X_test := normalizedFeatures test;
                   y_test := actual;
                   y_mean := mean y;
                   y_std := std y |} in
       preprocess data target features splitRatio = Ok p
       /\ trainModel lib data target features modelType splitRatio
            hyperparameters
          = bind (runBackend lib modelType features hyperparameters p)
              (fun predictions =>
                 Ok {| Ml.modelType := modelType;
                       metrics := calculateMetrics actual predictions;
                       predictions := predictions;
                       actualValues := actual |})
       /\ forall result,
            trainModel lib data target features modelType splitRatio
              hyperparameters = Ok result ->
            actualValues result = actual.
Proof.
  intros Hratio Hne Hlen.
  assert (Hpos : (0 < Z.of_nat (length data) < 2 ^ 53)%Z).
  { split; [destruct data; [congruence|simpl; lia]|lia]. }
  destruct (floor_index (length data) (of_length (length data) * splitRatio)
              ltac:(lia) (length_mul_ordered _ _ Hpos Hratio))
    as (Hle & Hlo & Hhi).
  fold (splitIndex (length data) splitRatio) in Hle, Hlo, Hhi.
  set (k := relativeIndex (splitIndex (length data) splitRatio) (length data))
    in *.
  exists k. split; [exact Hle|]. split; [exact Hlo|]. split; [exact Hhi|].
  cbv zeta.
  destruct (X_normalized_nonempty (featureMatrix data features))
    as (Xn & HXn & HlenX); [apply featureMatrix_nonempty; exact Hne|].
  rewrite length_featureMatrix in HlenX.
  assert (Hp : preprocess data target features splitRatio
               = Ok {| X_train :=
                         map (normalizeRow
                                (X_means (featureMatrix data features))
                                (X_stds (featureMatrix data features)))
                           (featureMatrix (firstn k data) features);
                       y_train :=
                         map (fun row =>
                                (coerce (get row target)
                                 - mean (targetVector data target))
                                / or_else (std (targetVector data target)) 1)
                           (firstn k data);
                       X_test :=
                         map (normalizeRow
                                (X_means (featureMatrix data features))
                                (X_stds (featureMatrix data features)))
                           (featureMatrix (skipn k data) features);
                       y_test :=
                         map (fun row =>
                                let val := parseFloat (get row target) in
                                if is_nan val then 0 else val) (skipn k data);
                       y_mean := mean (targetVector data target);
                       y_std := std (targetVector data target) |}).
  { unfold preprocess. rewrite HXn. cbn [bind].
    rewrite !slice_prefix, !slice_suffix.
    rewrite length_y_normalized, length_targetVector, HlenX. fold k.
    apply X_normalized_ok in HXn. subst Xn.
    unfold y_normalized, featureMatrix, targetVector.
    rewrite <- !firstn_map, <- !skipn_map, !map_map. reflexivity. }
  split; [exact Hp|].
  unfold trainModel. rewrite Hp. cbn [bind y_test].
  split; [reflexivity|].
  intros result.
  destruct (runBackend lib modelType features hyperparameters _) as [ps|e];
    [|discriminate].
  cbn [bind]. intros [= <-]. reflexivity.
Qed.

End SplitByPosition.

(** ** The split of ten rows *)

(** On the ten rows at ratio [0.8] the bounds leave one split point, [8]:
    eight rows train, and the actual values are those of rows nine and
    ten. *)
Lemma split_is_by_position_witness :
  (0 <=? 0.8) = true
  /\ Examples.tenRows <> []
  /\ (Z.of_nat (length Examples.tenRows) < 2 ^ 32)%Z
  /\ exists k p,
       k = 8%nat
       /\ preprocess Examples.tenRows "y" ["x"%string] 0.8 = Ok p
       /\ X_train p
          = map (normalizeRow
                   (X_means (featureMatrix Examples.tenRows ["x"%string]))
                   (X_stds (featureMatrix Examples.tenRows ["x"%string])))
              (featureMatrix (firstn k Examples.tenRows) ["x"%string])
       /\ length (X_train p) = 8%nat
       /\ length (y_train p) = 8%nat
       /\ length (X_test p) = 2%nat
       /\ y_test p = [9; 10]
       /\ forall result,
            trainModel Reference.libraries Examples.tenRows "y" ["x"%string]
              "linear-regression" 0.8 noHyperparameters = Ok result ->
            actualValues result = [9; 10].
Proof.
  assert (H1 : (0 <=? 0.8) = true) by reflexivity.
  assert (H2 : Examples.tenRows <> []) by discriminate.
  assert (H3 : (Z.of_nat (length Examples.tenRows) < 2 ^ 32)%Z)
    by (vm_compute; reflexivity).
  split; [exact H1|]. split; [exact H2|]. split; [exact H3|].
  destruct (split_is_by_position Reference.libraries Examples.tenRows "y"
              ["x"%string] "linear-regression" 0.8 noHyperparameters H1 H2 H3)
    as (k & Hle & Hlo & Hhi & Hp & _ & Hres).
  assert (Hk : k = 8%nat).
  { do 8 (destruct k as [|k];
          [specialize (Hhi ltac:(cbn; lia)); vm_compute in Hhi;
           discriminate Hhi|]).
    destruct k as [|k]; [reflexivity|].
    do 2 (destruct k as [|k]; [vm_compute in Hlo; discriminate Hlo|]).
    cbn in Hle. lia. }
  subst k. eexists 8%nat, _. split; [reflexivity|]. split; [exact Hp|].
  split; [reflexivity|]. split; [reflexivity|]. split; [reflexivity|].
  split; [reflexivity|]. split; [vm_compute; reflexivity|].
  intros result Hr. rewrite (Hres result Hr). vm_compute. reflexivity.
Defined.

(** The split of the ten rows at ratio 0.8 is at position 8. *)
Example split_of_ten_rows :
  toIntegerOrInfinity (splitIndex (length Examples.tenRows) 0.8) = Int 8
  /\ exists p,
       preprocess Examples.tenRows "y" ["x"%string] 0.8 = Ok p /\
       length (X_train p) = 8%nat /\ length (y_train p) = 8%nat /\
       length (X_test p) = 2%nat /\ y_test p = [9; 10].
Proof.
  split; [vm_compute; reflexivity|].
  eexists. split; [vm_compute; reflexivity|]. repeat split.
Qed.

(** * The models page *)

(** [Math.max(0, Math.min(100, v))] is NaN for NaN and within [0, 100]
    otherwise. *)
Lemma clamp_percent (v : float) :
  let r := Math_max 0 (Math_min 100 v) in
  (is_nan v = true /\ r = nan) \/
  (is_nan v = false /\ (0 <=? r) && (r <=? 100) = true).
Proof.
  cbv zeta. destruct (is_nan v) eqn:Hnan.
  - left. split; [reflexivity|]. rewrite (is_nan_true v Hnan). reflexivity.
  - right. split; [reflexivity|].
    assert (Hmin : Math_min 100 v = 100
                   \/ (Math_min 100 v = v /\ (100 <? v) = false)).
    { unfold Math_min. change (is_nan 100) with false. rewrite Hnan.
      cbn [orb]. cbv iota.
      destruct (100 <? v) eqn:H1; [left; reflexivity|].
      right. split; [|reflexivity].
      destruct (v <? 100); reflexivity. }
    destruct Hmin as [-> | [-> H1]]; [reflexivity|].
    unfold Math_max. change (is_nan 0) with false. rewrite Hnan.
    cbn [orb]. cbv iota.
    destruct (v <? 0) eqn:Hneg; [reflexivity|].
    destruct (0 <? v) eqn:Hpos; [|reflexivity].
    rewrite (ltb_leb 0 v Hpos). cbn [andb].
    apply not_ltb_leb; [exact Hnan|reflexivity|exact H1].
Qed.

Lemma accuracyOf_range (result : TrainingResult) :
  Models.accuracyOf result = nan
  \/ (0 <=? Models.accuracyOf result) && (Models.accuracyOf result <=? 100)
     = true.
Proof.
  unfold Models.accuracyOf.
  destruct (clamp_percent
              ((1 - mse (metrics result)
                    / ((Models.maxOf (actualValues result)
                        - Models.minOf (actualValues result))
                       * (Models.maxOf (actualValues result)
                          - Models.minOf (actualValues result)))) * 100))
    as [[_ H]|[_ H]]; [left|right]; exact H.
Qed.

(** X16.  The accuracy stored with a training result is NaN or a percentage
    between 0 and 100. *)
Theorem accuracy_is_nan_or_a_percentage (result : TrainingResult) :
  Models.accuracyOf result = nan
  \/ (0 <=? Models.accuracyOf result) && (Models.accuracyOf result <=? 100)
     = true.
Proof. exact (accuracyOf_range result). Qed.

Lemma max_self (v : float) : is_nan v = false -> Math_max v v = v.
Proof.
  intros H. unfold Math_max. rewrite H. cbn [orb].
  destruct (v <? v); [reflexivity|]. destruct (get_sign v); reflexivity.
Qed.

Lemma min_self (v : float) : is_nan v = false -> Math_min v v = v.
Proof.
  intros H. unfold Math_min. rewrite H. cbn [orb].
  destruct (v <? v); [reflexivity|]. destruct (get_sign v); reflexivity.
Qed.

Lemma is_finite_not_nan (v : float) : is_finite v = true -> is_nan v = false.
Proof.
  rewrite is_finite_SF, is_nan_SF.
  destruct (Prim2SF v); try discriminate; reflexivity.
Qed.

Lemma max_neg_infinity_l (v : float) :
  is_finite v = true -> Math_max neg_infinity v = v.
Proof.
  intros H. unfold Math_max. change (is_nan neg_infinity) with false.
  rewrite (is_finite_not_nan v H). cbn [orb].
  rewrite is_finite_SF in H. rewrite !ltb_spec. unfold SFltb.
  change (Prim2SF neg_infinity) with (S754_infinity true).
  destruct (Prim2SF v) as [s|s| |s m e]; try discriminate; reflexivity.
Qed.

Lemma min_infinity_l (v : float) :
  is_finite v = true -> Math_min infinity v = v.
Proof.
  intros H. unfold Math_min. change (is_nan infinity) with false.
  rewrite (is_finite_not_nan v H). cbn [orb].
  rewrite is_finite_SF in H. rewrite !ltb_spec. unfold SFltb.
  change (Prim2SF infinity) with (S754_infinity false).
  destruct (Prim2SF v) as [s|s| |s m e]; try discriminate; reflexivity.
Qed.

Lemma fold_constant (f : float -> float -> float) (v : float)
  (l : list float) :
  f v v = v -> (forall a, In a l -> a = v) -> fold_left f l v = v.
Proof.
  intros Hf. induction l as [|a l IH]; intros H; cbn [fold_left];
    [reflexivity|].
  rewrite (H a (or_introl eq_refl)), Hf. apply IH.
  intros b Hb. apply H. right. exact Hb.
Qed.

Lemma range_of_equal_values (values : list float) (v : float) :
  values <> [] -> (forall a, In a values -> a = v) -> is_finite v = true ->
  Models.maxOf values - Models.minOf values = 0.
Proof.
  intros Hne Hall Hfin. destruct values as [|a l]; [congruence|].
  unfold Models.maxOf, Models.minOf. cbn [fold_left].
  rewrite (Hall a (or_introl eq_refl)).
  rewrite (max_neg_infinity_l v Hfin), (min_infinity_l v Hfin).
  assert (Hl : forall b, In b l -> b = v)
    by (intros b Hb; apply Hall; right; exact Hb).
  rewrite (fold_constant Math_max v l (max_self v (is_finite_not_nan v Hfin)) Hl).
  rewrite (fold_constant Math_min v l (min_self v (is_finite_not_nan v Hfin)) Hl).
  apply sub_diag, Hfin.
Qed.

(** X17.  When the held-out target values are all the same finite number the
    range is zero and the accuracy degenerates: it is 0 as soon as the error
    is positive, and NaN when the error is zero. *)
Theorem accuracy_without_range (result : TrainingResult) (v : float) :
  actualValues result <> [] ->
  (forall a, In a (actualValues result) -> a = v) ->
  is_finite v = true ->
  ((0 <? mse (metrics result)) = true -> Models.accuracyOf result = 0)
  /\ (mse (metrics result) = 0 -> Models.accuracyOf result = nan).
Proof.
  intros Hne Hall Hfin. unfold Models.accuracyOf.
  rewrite (range_of_equal_values _ v Hne Hall Hfin).
  change (0 * 0) with 0. split.
  - intros H. rewrite (positive_div_zero _ H). reflexivity.
  - intros ->. reflexivity.
Qed.

(** ** The feature buttons *)

Lemma includes_In (arr : list string) (x : string) :
  Models.includes arr x = true <-> In x arr.
Proof.
  unfold Models.includes. rewrite existsb_exists. split.
  - intros (y & Hy & E). apply String.eqb_eq in E. subst. exact Hy.
  - intros H. exists x. split; [exact H|apply String.eqb_refl].
Qed.

(** X18.  A click on a feature button flips the membership of that feature
    in the selection and of no other, and a selection without duplicates
    stays without duplicates. *)
Theorem toggleFeature_flips_one_feature (features : list string)
  (feature : string) :
  (In feature (Models.toggleFeature features feature) <-> ~ In feature features)
  /\ (forall other, other <> feature ->
        (In other (Models.toggleFeature features feature)
         <-> In other features))
  /\ (NoDup features -> NoDup (Models.toggleFeature features feature)).
Proof.
  unfold Models.toggleFeature.
  destruct (Models.includes features feature) eqn:H.
  - apply includes_In in H. split; [|split].
    + rewrite filter_In, String.eqb_refl. cbn. intuition discriminate.
    + intros other Hne. rewrite filter_In.
      apply String.eqb_neq in Hne. rewrite Hne. cbn. intuition.
    + apply NoDup_filter.
  - assert (Hn : ~ In feature features).
    { intros Hin. apply includes_In in Hin. congruence. }
    split; [|split].
    + rewrite in_app_iff. cbn. intuition.
    + intros other Hne. rewrite in_app_iff. cbn. intuition congruence.
    + intros Hd. apply NoDup_app; [exact Hd|repeat constructor; intros []|].
      intros a Ha [<-|[]]. exact (Hn Ha).
Qed.

(** ** The training handler *)

Section TrainingHandler.

Variable lib : Libraries.


End TrainingHandler.

(** * The training history by target *)

Lemma owns_In (acc : Models.Groups) (key : string) :
  Models.owns acc key = true <-> In key (map fst acc).
Proof.
  unfold Models.owns. rewrite existsb_exists, in_map_iff. split.
  - intros (g & Hg & E). apply String.eqb_eq in E. eauto.
  - intros (g & E & Hg). exists g. split; [exact Hg|].
    rewrite E. apply String.eqb_refl.
Qed.

Lemma push_keys (acc : Models.Groups) (key : string) (r : Models.ModelResult) :
  map fst (Models.push acc key r) = map fst acc.
Proof.
  induction acc as [|[k rs] acc IH]; cbn [Models.push map fst];
    [reflexivity|].
  destruct (String.eqb k key); cbn [map fst]; [reflexivity|].
  rewrite IH. reflexivity.
Qed.

Lemma push_In (acc : Models.Groups) (key : string) (r : Models.ModelResult)
  (k : string) (rs : list Models.ModelResult) :
  In (k, rs) (Models.push acc key r) ->
  In (k, rs) acc \/ (k = key /\ exists rs', In (k, rs') acc /\ rs = rs' ++ [r]).
Proof.
  induction acc as [|[k' rs'] acc IH]; cbn [Models.push]; [contradiction|].
  destruct (String.eqb k' key) eqn:E.
  - apply String.eqb_eq in E. subst k'. intros [H|H].
    + injection H as <- <-. right. split; [reflexivity|].
      exists rs'. split; [left; reflexivity|reflexivity].
    + left. right. exact H.
  - intros [H|H].
    + left. left. exact H.
    + destruct (IH H) as [H'|(-> & rs'' & H1 & H2)].
      * left. right. exact H'.
      * right. split; [reflexivity|]. exists rs''. split; [right; exact H1|exact H2].
Qed.

Lemma push_concat (acc : Models.Groups) (key : string)
  (r : Models.ModelResult) :
  In key (map fst acc) ->
  Permutation (concat (map snd (Models.push acc key r)))
    (concat (map snd acc) ++ [r]).
Proof.
  induction acc as [|[k rs] acc IH]; cbn [map fst In]; [contradiction|].
  cbn [Models.push]. destruct (String.eqb k key) eqn:E.
  - intros _. cbn [map snd concat]. rewrite <- !app_assoc.
    apply Permutation_app_head. apply Permutation_app_comm.
  - intros [H|H]; [subst k; rewrite String.eqb_refl in E; discriminate|].
    cbn [map snd concat]. rewrite <- app_assoc.
    apply Permutation_app_head, IH, H.
Qed.

Lemma group_spec (acc : Models.Groups) (processed : list Models.ModelResult)
  (r : Models.ModelResult) :
  wellGrouped acc processed ->
  if Models.includes Models.inheritedNames (targetOf r)
  then Models.group acc r = Throw TypeError
  else exists acc', Models.group acc r = Ok acc'
                    /\ wellGrouped acc' (processed ++ [r]).
Proof.
  intros (Hnd & Hin & Hperm & Hown). unfold Models.group. fold (targetOf r).
  destruct (Models.owns acc (targetOf r)) eqn:Ho.
  - apply owns_In in Ho. rewrite (Hown _ Ho).
    eexists. split; [reflexivity|]. split; [|split; [|split]].
    + rewrite push_keys. exact Hnd.
    + intros k rs Hk. apply push_In in Hk.
      destruct Hk as [Hk|(-> & rs' & Hk & ->)]; [apply (Hin _ _ Hk)|].
      destruct (Hin _ _ Hk) as [_ Ht]. split.
      * intros E. apply app_eq_nil in E. destruct E as [_ E]. discriminate E.
      * intros x Hx. apply in_app_or in Hx.
        destruct Hx as [Hx|[<-|[]]]; [apply Ht, Hx|reflexivity].
    + rewrite (push_concat acc _ r Ho). apply Permutation_app_tail, Hperm.
    + intros k Hk. rewrite push_keys in Hk. apply Hown, Hk.
  - destruct (Models.includes Models.inheritedNames (targetOf r)) eqn:Hi;
      [reflexivity|].
    assert (Hn : ~ In (targetOf r) (map fst acc)).
    { intros H. apply owns_In in H. congruence. }
    eexists. split; [reflexivity|]. split; [|split; [|split]].
    + rewrite map_app. cbn [map fst]. apply NoDup_app; [exact Hnd| |].
      * repeat constructor. intros [].
      * intros k Hk [<-|[]]. exact (Hn Hk).
    + intros k rs Hk. apply in_app_or in Hk.
      destruct Hk as [Hk|[Hk|[]]]; [apply (Hin _ _ Hk)|].
      injection Hk as <- <-. split; [discriminate|].
      intros x [<-|[]]. reflexivity.
    + rewrite map_app, concat_app. cbn [map snd concat]. rewrite app_nil_r.
      apply Permutation_app_tail, Hperm.
    + intros k Hk. rewrite map_app in Hk. apply in_app_or in Hk.
      destruct Hk as [Hk|[<-|[]]]; [apply Hown, Hk|exact Hi].
Qed.

Lemma reduceM_group (modelResults : list Models.ModelResult) :
  forall (acc : Models.Groups) (processed : list Models.ModelResult),
  wellGrouped acc processed ->
  if existsb (fun r => Models.includes Models.inheritedNames (targetOf r))
       modelResults
  then Models.reduceM Models.group modelResults acc = Throw TypeError
  else exists acc', Models.reduceM Models.group modelResults acc = Ok acc'
                    /\ wellGrouped acc' (processed ++ modelResults).
Proof.
  induction modelResults as [|r rest IH]; intros acc processed Hw;
    cbn [existsb Models.reduceM].
  - exists acc. rewrite app_nil_r. auto.
  - pose proof (group_spec acc processed r Hw) as Hg.
    destruct (Models.includes Models.inheritedNames (targetOf r)).
    + rewrite Hg. reflexivity.
    + destruct Hg as (acc' & -> & Hw'). cbn [orb bind].
      specialize (IH acc' (processed ++ [r]) Hw').
      rewrite <- app_assoc in IH. exact IH.
Qed.

Lemma wellGrouped_empty : wellGrouped [] [].
Proof.
  split; [constructor|]. split; [intros ? ? []|].
  split; [constructor|intros ? []].
Qed.

(** X22.  [getResultsByTarget] throws a [TypeError] exactly when some stored
    result has a target named like a property of [Object.prototype]
    ("constructor", "toString", "__proto__", ...): the accumulator finds the
    inherited value under that key and calls its [push]. *)
Theorem inherited_target_names_break_the_comparison
  (modelResults : list Models.ModelResult) :
  Models.getResultsByTarget modelResults = Throw TypeError
  <-> exists r, In r modelResults /\ In (targetOf r) Models.inheritedNames.
Proof.
  unfold Models.getResultsByTarget.
  pose proof (reduceM_group modelResults [] [] wellGrouped_empty) as H.
  rewrite <- (Exists_exists (fun r => In (targetOf r) Models.inheritedNames)).
  destruct (existsb _ modelResults) eqn:E.
  - rewrite H. cbn [bind]. split; [intros _|reflexivity].
    apply existsb_exists in E. destruct E as (r & Hr & Hi).
    apply Exists_exists. exists r. split; [exact Hr|].
    apply includes_In, Hi.
  - destruct H as (acc & -> & _). cbn [bind]. split; [discriminate|].
    intros Hex. apply Exists_exists in Hex. destruct Hex as (r & Hr & Hi).
    exfalso. apply includes_In in Hi.
    assert (existsb (fun r => Models.includes Models.inheritedNames (targetOf r))
              modelResults = true)
      by (apply existsb_exists; eauto).
    congruence.
Qed.

Lemma insertIndex_permutation {A} (i : Z) (x : A) (sorted : list (Z * A)) :
  Permutation (Models.insertIndex i x sorted) ((i, x) :: sorted).
Proof.
  induction sorted as [|[j y] rest IH]; cbn [Models.insertIndex];
    [reflexivity|].
  destruct (i <? j)%Z; [reflexivity|]. rewrite IH. apply perm_swap.
Qed.

Lemma filter_partition {A} (f : A -> bool) (l : list A) :
  Permutation (filter f l ++ filter (fun x => negb (f x)) l) l.
Proof.
  induction l as [|x l IH]; cbn [filter]; [reflexivity|].
  destruct (f x); cbn [negb app].
  - apply perm_skip, IH.
  - rewrite <- Permutation_middle. apply perm_skip, IH.
Qed.

Lemma entries_permutation {A} (obj : list (string * A)) :
  Permutation (Models.entries obj) obj.
Proof.
  unfold Models.entries.
  set (isIndex := fun entry : string * A =>
                    match Models.arrayIndex (fst entry) with
                    | Some _ => true
                    | None => false
                    end).
  assert (H : forall acc : list (Z * (string * A)),
             Permutation
               (map snd
                  (fold_left
                     (fun sorted entry =>
                        match Models.arrayIndex (fst entry) with
                        | Some i => Models.insertIndex i entry sorted
                        | None => sorted
                        end) obj acc))
               (map snd acc ++ filter isIndex obj)).
  { induction obj as [|e obj IH]; intros acc; cbn [fold_left filter].
    - rewrite app_nil_r. reflexivity.
    - rewrite IH. unfold isIndex at 2.
      destruct (Models.arrayIndex (fst e)) as [i|]; [|reflexivity].
      rewrite (Permutation_map snd (insertIndex_permutation i e acc)).
      cbn [map snd app]. apply Permutation_middle. }
  rewrite H. cbn [map app].
  rewrite <- (filter_partition isIndex obj) at 3.
  apply Permutation_app_head.
  rewrite (filter_ext (fun entry : string * A =>
                         match Models.arrayIndex (fst entry) with
                         | Some _ => false
                         | None => true
                         end)
             (fun x => negb (isIndex x))); [reflexivity|].
  intros e. unfold isIndex. destruct (Models.arrayIndex (fst e)); reflexivity.
Qed.

Lemma Permutation_concat {A} (l l' : list (list A)) :
  Permutation l l' -> Permutation (concat l) (concat l').
Proof.
  induction 1 as [|x l l' _ IH|x y l|l l' l'' _ IH1 _ IH2]; cbn [concat].
  - reflexivity.
  - apply Permutation_app_head, IH.
  - rewrite !app_assoc. apply Permutation_app_tail, Permutation_app_comm.
  - rewrite IH1. exact IH2.
Qed.

Lemma analysed_results (es : list (string * list Models.ModelResult)) :
  Permutation
    (concat (map Models.TargetAnalysis.results (map Models.analyse es)))
    (concat (map snd es)).
Proof.
  induction es as [|e es IH]; cbn [map concat]; [reflexivity|].
  apply Permutation_app; [apply sort_permutation|exact IH].
Qed.

(** X23.  When [getResultsByTarget] returns, its groups partition the
    history: no two groups share a target, no group is empty, every result
    sits in the group of its own target, and the groups together hold the
    stored results, each exactly once. *)
Theorem groups_partition_the_history
  (modelResults : list Models.ModelResult)
  (analyses : list Models.TargetAnalysis.t) :
  Models.getResultsByTarget modelResults = Ok analyses ->
  NoDup (map Models.TargetAnalysis.target analyses)
  /\ Forall (fun a =>
               Models.TargetAnalysis.results a <> []
               /\ Forall (fun r => targetOf r = Models.TargetAnalysis.target a)
                    (Models.TargetAnalysis.results a))
       analyses
  /\ Permutation (concat (map Models.TargetAnalysis.results analyses))
       modelResults.
Proof.
  unfold Models.getResultsByTarget.
  pose proof (reduceM_group modelResults [] [] wellGrouped_empty) as H.
  destruct (existsb _ modelResults); [rewrite H; discriminate|].
  destruct H as (acc & -> & Hnd & Hin & Hperm & _). cbn [bind app] in *.
  intros [= <-].
  pose proof (entries_permutation acc) as He.
  split; [|split].
  - rewrite map_map. cbn [Models.analyse Models.TargetAnalysis.target].
    apply (Permutation_NoDup (l := map fst acc)); [|exact Hnd].
    symmetry. apply Permutation_map, He.
  - rewrite Forall_forall. intros a Ha. apply in_map_iff in Ha.
    destruct Ha as ([k rs] & <- & Hk).
    apply (Permutation_in _ He) in Hk.
    destruct (Hin _ _ Hk) as [Hne Ht].
    cbn [Models.analyse Models.TargetAnalysis.results
           Models.TargetAnalysis.target fst snd].
    pose proof (sort_permutation
                  (fun a b => Models.accuracy b - Models.accuracy a) rs) as Hs.
    split.
    + intros E. rewrite E in Hs. apply Permutation_nil in Hs. exact (Hne Hs).
    + rewrite Forall_forall. intros r Hr. apply Ht.
      apply (Permutation_in _ Hs Hr).
  - rewrite analysed_results.
    rewrite (Permutation_concat _ _ (Permutation_map snd He)). exact Hperm.
Qed.

Lemma SFleb_refl (x : spec_float) : x <> S754_nan -> SFleb x x = true.
Proof.
  unfold SFleb. destruct x as [s|s| |s m e]; intros H; try congruence;
    cbn [SFcompare]; try (destruct s; reflexivity).
  rewrite Z.compare_refl.
  change (Pos.compare_cont Eq m m) with (Pos.compare m m).
  rewrite Pos.compare_refl. destruct s; reflexivity.
Qed.

Lemma leb_refl (x : float) : is_nan x = false -> (x <=? x) = true.
Proof.
  rewrite is_nan_SF, leb_spec. intros H. apply SFleb_refl.
  intros E. rewrite E in H. discriminate H.
Qed.

(** [Math.max] of two numbers is one of them and not below either. *)
Lemma max_spec (a b : float) :
  is_nan a = false -> is_nan b = false ->
  is_nan (Math_max a b) = false
  /\ (a <=? Math_max a b) = true /\ (b <=? Math_max a b) = true.
Proof.
  intros Ha Hb. unfold Math_max. rewrite Ha, Hb. cbn [orb].
  destruct (b <? a) eqn:H1.
  - split; [exact Ha|]. split; [apply leb_refl, Ha|apply ltb_leb, H1].
  - destruct (a <? b) eqn:H2.
    + split; [exact Hb|]. split; [apply ltb_leb, H2|apply leb_refl, Hb].
    + destruct (get_sign a).
      * split; [exact Hb|].
        split; [apply not_ltb_leb; assumption|apply leb_refl, Hb].
      * split; [exact Ha|].
        split; [apply leb_refl, Ha|apply not_ltb_leb; assumption].
Qed.

Lemma fold_max_spec (l : list float) : forall acc : float,
  is_nan acc = false -> Forall (fun x => is_nan x = false) l ->
  is_nan (fold_left Math_max l acc) = false
  /\ (acc <=? fold_left Math_max l acc) = true
  /\ Forall (fun x => (x <=? fold_left Math_max l acc) = true) l.
Proof.
  induction l as [|x l IH]; intros acc Ha Hl; cbn [fold_left].
  - split; [exact Ha|]. split; [apply leb_refl, Ha|constructor].
  - inversion Hl as [|? ? Hx Hl']; subst.
    destruct (max_spec acc x Ha Hx) as (Hm & H1 & H2).
    destruct (IH (Math_max acc x) Hm Hl') as (Hn & H3 & H4).
    split; [exact Hn|].
    split; [apply (leb_trans _ _ _ H1 H3)|].
    constructor; [apply (leb_trans _ _ _ H2 H3)|exact H4].
Qed.

(** X24.  When no stored accuracy is NaN, every group lists its results by
    descending accuracy, and its best accuracy is not below the accuracy of
    any of its results. *)
Theorem groups_are_ranked_by_accuracy
  (modelResults : list Models.ModelResult)
  (analyses : list Models.TargetAnalysis.t) :
  Models.getResultsByTarget modelResults = Ok analyses ->
  Forall (fun r => is_nan (Models.accuracy r) = false) modelResults ->
  Forall (fun a =>
            StronglySorted
              (fun x y => (Models.accuracy y <=? Models.accuracy x) = true)
              (Models.TargetAnalysis.results a)
            /\ Forall (fun r =>
                         (Models.accuracy r
                          <=? Models.TargetAnalysis.bestAccuracy a) = true)
                 (Models.TargetAnalysis.results a))
    analyses.
Proof.
  unfold Models.getResultsByTarget. intros H Hnan.
  pose proof (reduceM_group modelResults [] [] wellGrouped_empty) as Hg.
  destruct (existsb _ modelResults); [rewrite Hg in H; discriminate|].
  destruct Hg as (acc & Hacc & _ & _ & Hperm & _). rewrite Hacc in H.
  cbn [bind app] in *. injection H as <-.
  rewrite Forall_forall. intros a Ha. apply in_map_iff in Ha.
  destruct Ha as ([k rs] & <- & Hk).
  apply (Permutation_in _ (entries_permutation acc)) in Hk.
  assert (Hrs : Forall (fun r => is_nan (Models.accuracy r) = false) rs).
  { rewrite Forall_forall in Hnan |- *. intros r Hr. apply Hnan.
    apply (Permutation_in _ Hperm). apply in_concat.
    exists rs. split; [|exact Hr].
    apply in_map_iff. exists (k, rs). auto. }
  cbn [Models.analyse Models.TargetAnalysis.results
         Models.TargetAnalysis.bestAccuracy snd].
  pose proof (sort_permutation
                (fun a b => Models.accuracy b - Models.accuracy a) rs) as Hs.
  split; [apply (sort_descending Models.accuracy rs Hrs)|].
  unfold Models.maxOf.
  assert (Hsorted : Forall (fun x => is_nan x = false)
                      (map Models.accuracy
                         (Ai.sort (fun a b => Models.accuracy b - Models.accuracy a)
                            rs))).
  { rewrite Forall_forall in Hrs |- *. intros x Hx. apply in_map_iff in Hx.
    destruct Hx as (r & <- & Hr). apply Hrs.
    apply (Permutation_in _ Hs Hr). }
  destruct (fold_max_spec _ neg_infinity eq_refl Hsorted) as (_ & _ & Hall).
  rewrite Forall_forall in Hall |- *. intros r Hr. apply Hall.
  apply in_map, Hr.
Qed.

(** * The properties above on concrete inputs *)

Lemma too_few_predictions_witness :
  (length [1] < length [1; 2])%nat
  /\ calculateMetrics [1; 2] [1] = nanMetrics.
Proof.
  assert (H : (length [1] < length [1; 2])%nat) by (cbn; lia).
  split; [exact H|].
  exact (too_few_predictions_give_nan_metrics [1; 2] [1] H).
Defined.

Lemma linear_regression_witness :
  exists result,
    trainModel Reference.libraries Examples.tenRows "y" ["x"%string]
      "linear-regression" 0.8 noHyperparameters = Ok result
    /\ length (predictions result) = length (actualValues result).
Proof.
  set (result := {| modelType := "linear-regression";
                    metrics := {| mse := 0; rmse := 0; r2 := 1; mae := 0 |};
                    predictions := [9; 10];
                    actualValues := [9; 10] |}).
  assert (H : trainModel Reference.libraries Examples.tenRows "y" ["x"%string]
                "linear-regression" 0.8 noHyperparameters = Ok result)
    by (vm_compute; reflexivity).
  exists result. split; [exact H|].
  exact (linear_regression_predicts_every_test_row Reference.libraries
           Examples.tenRows "y" ["x"%string] 0.8 noHyperparameters result H).
Defined.

Lemma trainModel_failures_witness :
  trainModel Reference.libraries Examples.tenRows "y" ["x"%string]
    "random-forest" 0.8 noHyperparameters
  = Throw (LibraryError "random forest: not modelled")
  /\ exists msg, LibraryError "random forest: not modelled" = LibraryError msg.
Proof.
  assert (H : trainModel Reference.libraries Examples.tenRows "y" ["x"%string]
                "random-forest" 0.8 noHyperparameters
              = Throw (LibraryError "random forest: not modelled"))
    by (vm_compute; reflexivity).
  split; [exact H|].
  exact (trainModel_failures Reference.libraries Examples.tenRows "y"
           ["x"%string] "random-forest" 0.8 noHyperparameters _ H).
Defined.

Lemma dropout_witness :
  hiddenLayers
       {| epochs := None; batchSize := None; learningRate := None;
          hiddenLayers := Some [64]; dropout := None; treeDepth := None;
          numTrees := None |} = Some [64]
  /\ (length [64] <= 1)%nat
  /\ trainModel Reference.libraries Examples.tenRows "y" ["x"%string]
       "neural-network" 0.8
       (withDropout
          {| epochs := None; batchSize := None; learningRate := None;
             hiddenLayers := Some [64]; dropout := None; treeDepth := None;
             numTrees := None |} (Some 0.5))
     = trainModel Reference.libraries Examples.tenRows "y" ["x"%string]
         "neural-network" 0.8
         {| epochs := None; batchSize := None; learningRate := None;
            hiddenLayers := Some [64]; dropout := None; treeDepth := None;
            numTrees := None |}.
Proof.
  assert (H1 : hiddenLayers
                 {| epochs := None; batchSize := None; learningRate := None;
                    hiddenLayers := Some [64]; dropout := None;
                    treeDepth := None; numTrees := None |} = Some [64])
    by reflexivity.
  assert (H2 : (length [64] <= 1)%nat) by (cbn; lia).
  split; [exact H1|]. split; [exact H2|].
  exact (dropout_needs_two_hidden_layers Reference.libraries Examples.tenRows
           "y" ["x"%string] "neural-network" 0.8 _ [64] (Some 0.5) H1 H2).
Defined.

Lemma advisor_decision_witness :
  exists suggestion,
    Ai.getModelSuggestions Reference.tensorflow Examples.opposedFeatures
      ["a"%string; "b"%string] "y" = Ok suggestion
    /\ Ai.modelType suggestion
       = (if 5 <? of_length (length ["a"%string; "b"%string])
          then "neural-network"%string else "random-forest"%string)
    /\ Ai.modelType suggestion <> "linear-regression"%string.
Proof.
  destruct (Ai.getModelSuggestions Reference.tensorflow Examples.opposedFeatures
              ["a"%string; "b"%string] "y") as [suggestion|e] eqn:H.
  2:{ exfalso. vm_compute in H. discriminate H. }
  exists suggestion. split; [reflexivity|].
  apply (advisor_decides_by_feature_count Reference.tensorflow
           Examples.opposedFeatures ["a"%string; "b"%string] "y" suggestion H).
  intros tensorX tensorY product HX HY HP.
  vm_compute in HX. injection HX as <-.
  vm_compute in HY. injection HY as <-.
  vm_compute in HP. injection HP as <-.
  cbn. lia.
Defined.

Lemma suggestion_is_trainable_witness :
  exists suggestion,
    Ai.getModelSuggestions Reference.tensorflow Examples.opposedFeatures
      ["a"%string; "b"%string] "y" = Ok suggestion
    /\ Ai.modelType suggestion = "random-forest"%string
    /\ Ai.confidence suggestion = 0.85
    /\ exists treeDepth numTrees,
         Ai.hyperparameters suggestion = Ai.ForestParameters treeDepth numTrees.
Proof.
  destruct (Ai.getModelSuggestions Reference.tensorflow Examples.opposedFeatures
              ["a"%string; "b"%string] "y") as [suggestion|e] eqn:H.
  2:{ exfalso. vm_compute in H. discriminate H. }
  exists suggestion. split; [reflexivity|].
  assert (Hm : Ai.modelType suggestion = "random-forest"%string).
  { vm_compute in H. injection H as <-. reflexivity. }
  destruct (suggestion_is_trainable Reference.tensorflow
              Examples.opposedFeatures ["a"%string; "b"%string] "y" suggestion H)
    as [[E _]|[[E _]|(_ & Hc & Hh)]];
    try (rewrite Hm in E; discriminate E).
  split; [exact Hm|]. split; [exact Hc|exact Hh].
Defined.

Lemma suggested_features_witness :
  exists suggestion,
    Ai.getModelSuggestions Reference.tensorflow Examples.opposedFeatures
      ["a"%string; "b"%string] "y" = Ok suggestion
    /\ length (Ai.suggestedFeatures suggestion)
       = Nat.min 5 (length ["a"%string; "b"%string])
    /\ exists rest,
         Permutation (Ai.suggestedFeatures suggestion ++ rest)
           ["a"%string; "b"%string].
Proof.
  destruct (Ai.getModelSuggestions Reference.tensorflow Examples.opposedFeatures
              ["a"%string; "b"%string] "y") as [suggestion|e] eqn:H.
  2:{ exfalso. vm_compute in H. discriminate H. }
  exists suggestion. split; [reflexivity|].
  exact (suggested_features_are_drawn_from_the_candidates Reference.tensorflow
           Examples.opposedFeatures ["a"%string; "b"%string] "y" suggestion H).
Defined.

Lemma pearsonCorrelation_symmetry_witness :
  length [1; 2; 4] = length [3; 1; 2]
  /\ Ai.pearsonCorrelation [1; 2; 4] [3; 1; 2]
     = Ai.pearsonCorrelation [3; 1; 2] [1; 2; 4].
Proof.
  assert (H : length [1; 2; 4] = length [3; 1; 2]) by reflexivity.
  split; [exact H|].
  exact (pearsonCorrelation_is_symmetric [1; 2; 4] [3; 1; 2] H).
Defined.

Lemma strong_result_witness :
  (0.8 <? r2 {| mse := 0; rmse := 0; r2 := 1; mae := 0 |}) = true
  /\ Ai.analysis "linear-regression" {| mse := 0; rmse := 0; r2 := 1; mae := 0 |}
       [9; 10] [9; 10]
     = ["The model shows strong predictive performance with high R² value."%string].
Proof.
  assert (H : (0.8 <? r2 {| mse := 0; rmse := 0; r2 := 1; mae := 0 |}) = true)
    by reflexivity.
  split; [exact H|].
  destruct (strong_result_gets_no_suggestion "linear-regression"
              {| mse := 0; rmse := 0; r2 := 1; mae := 0 |} [9; 10] [9; 10] H)
    as [E|E]; [exact E|].
  exfalso. vm_compute in E. discriminate E.
Defined.

Lemma accuracy_without_range_witness :
  actualValues {| modelType := "linear-regression";
                  metrics := {| mse := 4; rmse := 2; r2 := nan; mae := 2 |};
                  predictions := [7; 7];
                  actualValues := [5; 5] |} <> []
  /\ Models.accuracyOf {| modelType := "linear-regression";
                        metrics := {| mse := 4; rmse := 2; r2 := nan; mae := 2 |};
                        predictions := [7; 7];
                        actualValues := [5; 5] |} = 0.
Proof.
  set (result := {| modelType := "linear-regression";
                    metrics := {| mse := 4; rmse := 2; r2 := nan; mae := 2 |};
                    predictions := [7; 7];
                    actualValues := [5; 5] |}).
  assert (H1 : actualValues result <> []) by discriminate.
  assert (H2 : forall a, In a (actualValues result) -> a = 5)
    by (intros a [<-|[<-|[]]]; reflexivity).
  assert (H3 : is_finite 5 = true) by reflexivity.
  split; [exact H1|].
  exact (proj1 (accuracy_without_range result 5 H1 H2 H3) eq_refl).
Defined.

Lemma constant_target_witness :
  exists result,
    trainModel Reference.libraries Examples.constantTarget "y" ["x"%string]
      "linear-regression" 0.6 noHyperparameters = Ok result
    /\ std (targetVector Examples.constantTarget "y") = 0
    /\ is_finite (mean (targetVector Examples.constantTarget "y")) = true
    /\ Forall (fun prediction =>
                 prediction = nan
                 \/ (prediction =? mean (targetVector Examples.constantTarget "y"))
                    = true)
         (predictions result).
Proof.
  destruct (trainModel Reference.libraries Examples.constantTarget "y"
              ["x"%string] "linear-regression" 0.6 noHyperparameters)
    as [result|e] eqn:H.
  2:{ exfalso. vm_compute in H. discriminate H. }
  assert (H1 : std (targetVector Examples.constantTarget "y") = 0)
    by (vm_compute; reflexivity).
  assert (H2 : is_finite (mean (targetVector Examples.constantTarget "y")) = true)
    by (vm_compute; reflexivity).
  exists result. split; [reflexivity|]. split; [exact H1|]. split; [exact H2|].
  exact (constant_target_overrides_the_model Reference.libraries
           Examples.constantTarget "y" ["x"%string] "linear-regression" 0.6
           noHyperparameters result H H1 H2).
Defined.

Lemma ranked_features_witness :
  exists suggestion,
    Ai.getModelSuggestions Reference.tensorflow Examples.opposedFeatures
      ["a"%string; "b"%string] "y" = Ok suggestion
    /\ exists (importance : list float) (sorted : list (string * float)),
         Ai.calculateFeatureImportance
           (map (fun row =>
                   map (fun f => or_else (parseFloat (get row f)) 0)
                     ["a"%string; "b"%string]) Examples.opposedFeatures)
           (map (fun row => or_else (parseFloat (get row "y")) 0)
              Examples.opposedFeatures)
         = Ok importance
         /\ Permutation sorted
              (mapi (fun f i => (f, toNumber (nth_error importance i)))
                 ["a"%string; "b"%string])
         /\ Ai.suggestedFeatures suggestion = map fst (firstn 5 sorted)
         /\ (Forall (fun p => is_nan (snd p) = false) sorted ->
             StronglySorted (fun a b => (snd b <=? snd a) = true) sorted).
Proof.
  destruct (Ai.getModelSuggestions Reference.tensorflow Examples.opposedFeatures
              ["a"%string; "b"%string] "y") as [suggestion|e] eqn:H.
  2:{ exfalso. vm_compute in H. discriminate H. }
  exists suggestion. split; [reflexivity|].
  exact (suggested_features_descend_by_importance Reference.tensorflow
           Examples.opposedFeatures ["a"%string; "b"%string] "y" suggestion H).
Defined.

Lemma suggestion_by_count_witness :
  exists suggestion,
    Ai.getModelSuggestions Reference.tensorflow Examples.opposedFeatures
      ["a"%string; "b"%string] "y" = Ok suggestion
    /\ (Z.of_nat (length ["a"%string; "b"%string]) < 2 ^ 32)%Z
    /\ Ai.modelType suggestion = "random-forest"%string
    /\ Ai.confidence suggestion = 0.85
    /\ Ai.hyperparameters suggestion = Ai.ForestParameters 11 120.
Proof.
  destruct (Ai.getModelSuggestions Reference.tensorflow Examples.opposedFeatures
              ["a"%string; "b"%string] "y") as [suggestion|e] eqn:H.
  2:{ exfalso. vm_compute in H. discriminate H. }
  assert (Hlen : (Z.of_nat (length ["a"%string; "b"%string]) < 2 ^ 32)%Z)
    by (vm_compute; reflexivity).
  exists suggestion. split; [reflexivity|]. split; [exact Hlen|].
  refine (suggestion_is_a_function_of_the_feature_count Reference.tensorflow
            Examples.opposedFeatures ["a"%string; "b"%string] "y" suggestion H
            _ Hlen).
  intros tensorX tensorY product HX HY HP.
  vm_compute in HX. injection HX as <-.
  vm_compute in HY. injection HY as <-.
  vm_compute in HP. injection HP as <-.
  cbn. lia.
Defined.

(** The history of four runs: the group of the index-like target comes
    first, then the groups in the order their targets first occur, each
    with its best run first. *)
Example history_by_target :
  Models.getResultsByTarget history
  = Ok [{| Models.TargetAnalysis.target := "2020";
           Models.TargetAnalysis.results := [storedResult "r3" "2020" 10];
           Models.TargetAnalysis.bestAccuracy := 10;
           Models.TargetAnalysis.averageAccuracy := 10 |};
        {| Models.TargetAnalysis.target := "price";
           Models.TargetAnalysis.results :=
             [storedResult "r4" "price" 90; storedResult "r1" "price" 40];
           Models.TargetAnalysis.bestAccuracy := 90;
           Models.TargetAnalysis.averageAccuracy := 65 |};
        {| Models.TargetAnalysis.target := "volume";
           Models.TargetAnalysis.results := [storedResult "r2" "volume" 75];
           Models.TargetAnalysis.bestAccuracy := 75;
           Models.TargetAnalysis.averageAccuracy := 75 |}]
  /\ Models.getResultsByTarget (history ++ [storedResult "r5" "toString" 50])
     = Throw TypeError.
Proof. split; vm_compute; reflexivity. Qed.

Lemma groups_partition_witness :
  exists analyses,
    Models.getResultsByTarget history = Ok analyses
    /\ NoDup (map Models.TargetAnalysis.target analyses)
    /\ Forall (fun a =>
                 Models.TargetAnalysis.results a <> []
                 /\ Forall (fun r => targetOf r = Models.TargetAnalysis.target a)
                      (Models.TargetAnalysis.results a))
         analyses
    /\ Permutation (concat (map Models.TargetAnalysis.results analyses))
         history.
Proof.
  destruct (Models.getResultsByTarget history) as [analyses|e] eqn:H.
  2:{ exfalso. vm_compute in H. discriminate H. }
  exists analyses. split; [reflexivity|].
  exact (groups_partition_the_history history analyses H).
Defined.

Lemma groups_ranked_witness :
  exists analyses,
    Models.getResultsByTarget history = Ok analyses
    /\ Forall (fun r => is_nan (Models.accuracy r) = false) history
    /\ Forall (fun a =>
                 StronglySorted
                   (fun x y => (Models.accuracy y <=? Models.accuracy x) = true)
                   (Models.TargetAnalysis.results a)
                 /\ Forall (fun r =>
                              (Models.accuracy r
                               <=? Models.TargetAnalysis.bestAccuracy a) = true)
                      (Models.TargetAnalysis.results a))
         analyses.
Proof.
  destruct (Models.getResultsByTarget history) as [analyses|e] eqn:H.
  2:{ exfalso. vm_compute in H. discriminate H. }
  assert (Hn : Forall (fun r => is_nan (Models.accuracy r) = false) history)
    by (repeat constructor).
  exists analyses. split; [reflexivity|]. split; [exact Hn|].
  exact (groups_are_ranked_by_accuracy history analyses H Hn).
Defined.

Lemma integer_column_witness :
  Examples.tenRows <> []
  /\ (forall row, In row Examples.tenRows ->
        coerce (get row "volume") = number_of_Z 0)
  /\ mean (targetVector Examples.tenRows "volume") = number_of_Z 0
  /\ or_else (std (targetVector Examples.tenRows "volume")) 1 = 1
  /\ y_normalized (targetVector Examples.tenRows "volume")
     = map (fun _ => 0) Examples.tenRows
  /\ forall features c Xn,
       nth_error features c = Some "volume"%string ->
       X_normalized (featureMatrix Examples.tenRows features) = Ok Xn ->
       forall row, In row Xn -> nth_error row c = Some 0.
Proof.
  assert (H1 : Examples.tenRows <> []) by discriminate.
  assert (H2 : forall row, In row Examples.tenRows ->
                 coerce (get row "volume") = number_of_Z 0).
  { intros row Hrow. cbn [Examples.tenRows In] in Hrow.
    repeat (destruct Hrow as [<-|Hrow]; [vm_compute; reflexivity|]).
    destruct Hrow. }
  assert (H3 : (Z.of_nat (length Examples.tenRows) * Z.abs 0 < 2 ^ 53)%Z)
    by (vm_compute; reflexivity).
  assert (H4 : (Z.of_nat (length Examples.tenRows) < 2 ^ 32)%Z)
    by (vm_compute; reflexivity).
  split; [exact H1|]. split; [exact H2|].
  exact (integer_column_normalizes_to_zero Examples.tenRows "volume" 0
           H1 H2 H3 H4).
Defined.
